(** * Smart ERP: role permissions, role-shaped services and the inventory
      movement engine *)

From Stdlib Require Import String List Bool ZArith QArith Lia.
Import ListNotations.
Set Warnings "-register-all".

(* ================================================================= *)
(** ** JavaScript values, as far as the role module needs them *)

Module JS.
Local Open Scope string_scope.

(** A JS value. [JObj] is a plain object literal whose prototype is
    [Object.prototype]; [JObjectProto] is [Object.prototype] itself;
    [JFun name len] is a built-in function object. *)
Inductive jsval :=
| JUndefined
| JNull
| JBool (b : bool)
| JNum (z : Z)
| JStr (s : string)
| JFun (name : string) (len : Z)
| JObj (props : list (string * jsval))
| JObjectProto.

(** Normal or abrupt (thrown) completion of an expression. *)
Inductive completion :=
| Normal (v : jsval)
| Throw (err : string).

Definition bind (c : completion) (k : jsval -> completion) : completion :=
  match c with
  | Normal v => k v
  | Throw e => Throw e
  end.

Notation "x <- c ;; k" := (bind c (fun x => k))
  (at level 61, c at next level, right associativity).

Fixpoint assoc (k : string) (l : list (string * jsval)) : option jsval :=
  match l with
  | [] => None
  | (k', v) :: l' => if String.eqb k k' then Some v else assoc k l'
  end.

(** Methods of [Object.prototype] with their [length]. *)
Definition object_prototype_methods : list (string * Z) :=
  [("__defineGetter__", 2%Z); ("__defineSetter__", 2%Z);
   ("hasOwnProperty", 1%Z); ("__lookupGetter__", 1%Z);
   ("__lookupSetter__", 1%Z); ("isPrototypeOf", 1%Z);
   ("propertyIsEnumerable", 1%Z); ("toString", 0%Z); ("valueOf", 0%Z);
   ("toLocaleString", 0%Z)].

(** Static methods of the [Object] constructor with their [length]. *)
Definition object_static_methods : list (string * Z) :=
  [("assign", 2%Z); ("create", 2%Z); ("defineProperties", 2%Z);
   ("defineProperty", 3%Z); ("entries", 1%Z); ("freeze", 1%Z);
   ("fromEntries", 1%Z); ("getOwnPropertyDescriptor", 2%Z);
   ("getOwnPropertyDescriptors", 1%Z); ("getOwnPropertyNames", 1%Z);
   ("getOwnPropertySymbols", 1%Z); ("getPrototypeOf", 1%Z);
   ("groupBy", 2%Z); ("hasOwn", 2%Z); ("is", 2%Z); ("isExtensible", 1%Z);
   ("isFrozen", 1%Z); ("isSealed", 1%Z); ("keys", 1%Z);
   ("preventExtensions", 1%Z); ("seal", 1%Z); ("setPrototypeOf", 2%Z);
   ("values", 1%Z)].

(** Methods of [Function.prototype] with their [length]. *)
Definition function_prototype_methods : list (string * Z) :=
  [("apply", 2%Z); ("bind", 1%Z); ("call", 1%Z); ("toString", 0%Z)].

Fixpoint lookup_method (k : string) (l : list (string * Z)) : option Z :=
  match l with
  | [] => None
  | (k', n) :: l' => if String.eqb k k' then Some n else lookup_method k l'
  end.

(** Property lookup that falls through to [Object.prototype];
    [self_is_proto] tells whether the receiver is [Object.prototype]
    itself (whose [__proto__] is [null]). *)
Definition object_prototype_get (self_is_proto : bool) (k : string) : jsval :=
  if String.eqb k "constructor" then JFun "Object" 1
  else if String.eqb k "__proto__" then
    (if self_is_proto then JNull else JObjectProto)
  else match lookup_method k object_prototype_methods with
       | Some n => JFun k n
       | None => JUndefined
       end.

(** [Function.prototype] is itself a function, named "" with length 0. *)
Definition function_prototype : jsval := JFun "" 0.

(** Lookup on a built-in function: own [name] and [length], the statics
    and [prototype] of [Object], then [Function.prototype] (whose
    [caller] and [arguments] accessors throw a TypeError), then
    [Object.prototype]. *)
Definition function_get (f : string) (len : Z) (k : string) : completion :=
  if String.eqb k "name" then Normal (JStr f)
  else if String.eqb k "length" then Normal (JNum len)
  else if String.eqb f "Object" && String.eqb k "prototype" then
    Normal JObjectProto
  else match (if String.eqb f "Object"
              then lookup_method k object_static_methods else None) with
  | Some n => Normal (JFun k n)
  | None =>
    if String.eqb k "constructor" then Normal (JFun "Function" 1)
    else if String.eqb k "caller" || String.eqb k "arguments" then
      Throw "TypeError"
    else if String.eqb k "__proto__" then
      Normal (if String.eqb f "" then JObjectProto else function_prototype)
    else match lookup_method k function_prototype_methods with
    | Some n => Normal (JFun k n)
    | None => Normal (object_prototype_get false k)
    end
  end.

(** [o[k]] on an object-like receiver. Primitive receivers do not occur
    in the code modelled here (only objects and functions are indexed). *)
Definition get (o : jsval) (k : string) : completion :=
  match o with
  | JObj props =>
    match assoc k props with
    | Some v => Normal v
    | None => Normal (object_prototype_get false k)
    end
  | JObjectProto => Normal (object_prototype_get true k)
  | JFun f n => function_get f n k
  | JUndefined | JNull => Throw "TypeError"
  | _ => Normal JUndefined
  end.

(** [o?.[k]]: short-circuits to [undefined] on a nullish receiver. *)
Definition get_opt (o : jsval) (k : string) : completion :=
  match o with
  | JUndefined | JNull => Normal JUndefined
  | _ => get o k
  end.

Definition truthy (v : jsval) : bool :=
  match v with
  | JUndefined | JNull => false
  | JBool b => b
  | JNum z => negb (Z.eqb z 0)
  | JStr s => negb (String.eqb s "")
  | JFun _ _ | JObj _ | JObjectProto => true
  end.

(** [a || b] *)
Definition js_or (a b : jsval) : jsval := if truthy a then a else b.

End JS.

(* ================================================================= *)
(** ** types/roles.js *)

Module Roles.
Local Open Scope string_scope.
Import JS.

Definition OWNER := "owner".
Definition MANAGER := "manager".
Definition STAFF := "staff".

Definition owner_permissions : list (string * jsval) :=
  [("canViewRevenue", JBool true); ("canViewProfit", JBool true);
   ("canViewOrders", JBool true); ("canViewCustomers", JBool true);
   ("canViewSalesChart", JBool true); ("canViewInventoryChart", JBool true);
   ("canViewAllTransactions", JBool true);
   ("canViewFinancialDetails", JBool true);
   ("canAccessAccounting", JBool true); ("canAccessHR", JBool true);
   ("canAccessSettings", JBool true)].

Definition manager_permissions : list (string * jsval) :=
  [("canViewRevenue", JBool true); ("canViewProfit", JBool false);
   ("canViewOrders", JBool true); ("canViewCustomers", JBool true);
   ("canViewSalesChart", JBool true); ("canViewInventoryChart", JBool true);
   ("canViewAllTransactions", JBool false);
   ("canViewFinancialDetails", JBool false);
   ("canAccessAccounting", JBool false); ("canAccessHR", JBool true);
   ("canAccessSettings", JBool true)].

Definition staff_permissions : list (string * jsval) :=
  [("canViewRevenue", JBool false); ("canViewProfit", JBool false);
   ("canViewOrders", JBool true); ("canViewCustomers", JBool false);
   ("canViewSalesChart", JBool false); ("canViewInventoryChart", JBool true);
   ("canViewAllTransactions", JBool false);
   ("canViewFinancialDetails", JBool false);
   ("canAccessAccounting", JBool false); ("canAccessHR", JBool false);
   ("canAccessSettings", JBool false)].

Definition ROLE_PERMISSIONS : jsval :=
  JObj [(OWNER, JObj owner_permissions); (MANAGER, JObj manager_permissions);
        (STAFF, JObj staff_permissions)].

(** [hasPermission = (role, permission) =>
       ROLE_PERMISSIONS[role]?.[permission] || false] *)
Definition hasPermission (role permission : string) : completion :=
  r <- get ROLE_PERMISSIONS role ;;
  p <- get_opt r permission ;;
  Normal (js_or p (JBool false)).

End Roles.

(* ================================================================= *)
(** ** services/financial/shapeFinancialsByRole.js *)

Module Financial.
Local Open Scope string_scope.
Import JS.

(** The body of [shapeFinancialsByRole], given what the name
    [hasPermission] resolves to in the scope of its module ([None]: the
    name is unbound, and evaluating it throws a ReferenceError). *)
Definition shapeFinancialsByRole_in
    (scope_hasPermission : option (string -> string -> completion))
    (rawFinancials : jsval) (userRole : string) : completion :=
  if negb (truthy rawFinancials) || String.eqb userRole "" then Normal JNull
  else
    allowed <- match scope_hasPermission with
               | Some h => h userRole "canViewFinancials"
               | None => Throw "ReferenceError"
               end ;;
    if negb (truthy allowed) then Normal JNull
    else
      s <- get rawFinancials "summary" ;;
      tr <- get s "totalRevenue" ;;
      te <- get s "totalExpenses" ;;
      np <- get s "netProfit" ;;
      pm <- get s "profitMargin" ;;
      co <- get s "cashOnHand" ;;
      mp <- get rawFinancials "monthlyPerformance" ;;
      eb <- get rawFinancials "expenseBreakdown" ;;
      rt <- get rawFinancials "recentTransactions" ;;
      Normal (JObj [("summary", JObj [("totalRevenue", tr); ("totalExpenses", te);
                                      ("netProfit", np); ("profitMargin", pm);
                                      ("cashOnHand", co)]);
                    ("monthlyPerformance", mp); ("expenseBreakdown", eb);
                    ("recentTransactions", rt)]).

(** The module shapeFinancialsByRole.js imports nothing under the name
    [hasPermission] (its siblings import it from types/roles.js). *)
Definition module_scope_hasPermission : option (string -> string -> completion) :=
  None.

Definition shapeFinancialsByRole : jsval -> string -> completion :=
  shapeFinancialsByRole_in module_scope_hasPermission.

(** The same body with [hasPermission] imported from types/roles.js, as
    shapeEmployeesByRole.js and shapeKpisByRole.js do. *)
Definition shapeFinancialsByRole_imported : jsval -> string -> completion :=
  shapeFinancialsByRole_in (Some Roles.hasPermission).

(** [MOCK_FINANCIALS] of FinancialPage.jsx (the arrays abbreviated to
    their first element). *)
Definition MOCK_FINANCIALS : jsval :=
  JObj [("summary", JObj [("totalRevenue", JNum 125000); ("totalExpenses", JNum 85000);
                          ("netProfit", JNum 40000); ("profitMargin", JNum 32);
                          ("cashOnHand", JNum 25000)]);
        ("monthlyPerformance",
          JObj [("0", JObj [("name", JStr "Jan"); ("revenue", JNum 12000);
                            ("expenses", JNum 8000); ("profit", JNum 4000)])]);
        ("expenseBreakdown",
          JObj [("0", JObj [("name", JStr "COGS"); ("value", JNum 45000);
                            ("color", JStr "#3b82f6")])]);
        ("recentTransactions",
          JObj [("0", JObj [("id", JNum 1); ("date", JStr "2024-01-07");
                            ("amount", JNum 1200); ("type", JStr "income")])])].

End Financial.

(* ================================================================= *)
(** ** The inventory movement engine

    The backend package (backend/app/inventory_service.py, models.py,
    schemas.py) is not part of the sources at hand; only its callers (the
    React pages), its curl tests and its design notes are. The engine
    below is therefore modelled from the specification, stage by stage:
    Authorization Gate, Movement Validator, Unit Converter, Reference
    Resolver / Cost Allocator, Ledger Writer. Quantities and costs are
    exact rationals. *)

Module Engine.
Open Scope Q_scope.

Inductive role := OWNER | MANAGER | STAFF.
Inductive movement_type := RECEIVE | ISSUE | CONSUME | ADJUST.
Inductive unit_of_measure := PCS | DOZEN.
Inductive wo_status := DRAFT | OPEN | CLOSED.

Inductive validation_error :=
| DeprecatedField (field : string)
| QtyNotPositive
| QtyZero
| UnitCostRequired
| UnitCostNotPositive
| UnitCostNotAccepted
| CostFieldsNotAccepted
| NonBaseUnit
| CostCenterIdRequired
| CostElementIdRequired
| WorkOrderIdRequired
| MaterialCostBelowFloor
| DuplicateSku.

Inductive error :=
| ValidationError (v : validation_error)
| AuthorizationError
| ReferenceError
| InsufficientStockError.

Inductive outcome (A : Type) :=
| Ok (a : A)
| Err (e : error).
Arguments Ok {A} a.
Arguments Err {A} e.

Definition role_eqb (a b : role) : bool :=
  match a, b with
  | OWNER, OWNER | MANAGER, MANAGER | STAFF, STAFF => true
  | _, _ => false
  end.

Definition wo_status_eqb (a b : wo_status) : bool :=
  match a, b with
  | DRAFT, DRAFT | OPEN, OPEN | CLOSED, CLOSED => true
  | _, _ => false
  end.

Definition Qltb (a b : Q) : bool := negb (Qle_bool b a).

(** Master data read by the engine (owned by another collaborator). *)
Record ref_row := { ref_id : nat; ref_active : bool }.
Record work_order := { wo_id : nat; wo_state : wo_status; wo_cost_center : nat }.
Record master_data := {
  cost_centers : list ref_row;
  cost_elements : list ref_row;
  work_orders : list work_order }.

(** Modelled from the spec (6, the backend request schema is missing): a movement request; [rq_cost_center] and [rq_cost_element] are the
    deprecated string-coded fields. *)
Record movement_request := {
  rq_role : role;
  rq_product : nat;
  rq_type : movement_type;
  rq_qty : Q;
  rq_unit : unit_of_measure;
  rq_unit_cost : option Q;
  rq_cost_center_id : option nat;
  rq_cost_element_id : option nat;
  rq_work_order_id : option nat;
  rq_cost_center : option string;
  rq_cost_element : option string }.

(** A validated, converted and cost-allocated movement, ready for the
    Ledger Writer. *)
Record intent := {
  in_product : nat;
  in_type : movement_type;
  in_qty_input : Q;
  in_unit : unit_of_measure;
  in_qty_base : Q;
  in_unit_cost_input : option Q;
  in_unit_cost_base : option Q;
  in_cost_center : option nat;
  in_cost_element : option nat;
  in_work_order : option nat;
  in_by : role }.

(** Modelled from the spec (3, the backend models.py is missing): a committed StockMovement. *)
Record movement := {
  mv_id : nat;
  mv_product : nat;
  mv_type : movement_type;
  qty_input : Q;
  unit_input : unit_of_measure;
  qty_base : Q;
  unit_cost_input : option Q;
  unit_cost_base : option Q;
  value_total : Q;
  balance_after : Q;
  cost_center_ref : option nat;
  cost_element_ref : option nat;
  work_order_id : option nat;
  performed_by : role }.

(** Modelled from the spec (3, the backend models.py is missing): persistent state owned by the Ledger Writer: one StockBalance row per
    product (created lazily), the append-only movement log in commit
    order, and the next movement id. *)
Record state := {
  balances : list (nat * Q);
  movements : list movement;
  next_id : nat }.

Definition init_state : state := {| balances := []; movements := []; next_id := 1 |}.

Fixpoint find_balance (p : nat) (l : list (nat * Q)) : option Q :=
  match l with
  | [] => None
  | (p', q) :: l' => if Nat.eqb p p' then Some q else find_balance p l'
  end.

Definition on_hand (st : state) (p : nat) : Q :=
  match find_balance p (balances st) with Some q => q | None => 0 end.

Fixpoint set_balance (p : nat) (q : Q) (l : list (nat * Q)) : list (nat * Q) :=
  match l with
  | [] => [(p, q)]
  | (p', q') :: l' =>
    if Nat.eqb p p' then (p, q) :: l' else (p', q') :: set_balance p q l'
  end.

(** Modelled from the spec: the Authorization Gate, the matrix of 4.1. *)
Definition authorize (r : role) (mt : movement_type) : bool :=
  match mt, r with
  | RECEIVE, (OWNER | MANAGER) => true
  | ISSUE, _ => true
  | CONSUME, (OWNER | MANAGER) => true
  | ADJUST, OWNER => true
  | _, _ => false
  end.

Definition is_base_unit (u : unit_of_measure) : bool :=
  match u with PCS => true | _ => false end.

Definition is_some {A} (o : option A) : bool :=
  match o with Some _ => true | None => false end.

(** Modelled from the spec: the Movement Validator of 4.2; the legacy
    string-coded fields are refused first, at the boundary. *)
Definition validate (rq : movement_request) : option validation_error :=
  if is_some (rq_cost_center rq) then Some (DeprecatedField "cost_center"%string)
  else if is_some (rq_cost_element rq) then Some (DeprecatedField "cost_element"%string)
  else match rq_type rq with
  | RECEIVE =>
    if negb (Qltb 0 (rq_qty rq)) then Some QtyNotPositive
    else match rq_unit_cost rq with
    | None => Some UnitCostRequired
    | Some c =>
      if negb (Qltb 0 c) then Some UnitCostNotPositive
      else if is_some (rq_cost_center_id rq) || is_some (rq_cost_element_id rq)
              || is_some (rq_work_order_id rq)
      then Some CostFieldsNotAccepted
      else None
    end
  | ISSUE =>
    if negb (Qltb 0 (rq_qty rq)) then Some QtyNotPositive
    else if negb (is_base_unit (rq_unit rq)) then Some NonBaseUnit
    else if negb (is_some (rq_cost_center_id rq)) then Some CostCenterIdRequired
    else if negb (is_some (rq_cost_element_id rq)) then Some CostElementIdRequired
    else None
  | CONSUME =>
    if negb (Qltb 0 (rq_qty rq)) then Some QtyNotPositive
    else if negb (is_base_unit (rq_unit rq)) then Some NonBaseUnit
    else if negb (is_some (rq_work_order_id rq)) then Some WorkOrderIdRequired
    else if negb (is_some (rq_cost_element_id rq)) then Some CostElementIdRequired
    else None
  | ADJUST =>
    if Qeq_bool (rq_qty rq) 0 then Some QtyZero
    else if negb (is_base_unit (rq_unit rq)) then Some NonBaseUnit
    else if is_some (rq_unit_cost rq) then Some UnitCostNotAccepted
    else None
  end.

(** Modelled from the spec: the fixed conversion-factor table of 4.3
    (the units offered by StockMovementPage.jsx: PCS, and DOZEN = 12 PCS). *)
Definition factor (u : unit_of_measure) : Q :=
  match u with PCS => 1 | DOZEN => 12 end.

(** Modelled from the spec: the Unit Converter of 4.3. *)
Definition convert (qty : Q) (u : unit_of_measure) (cost : option Q) : Q * option Q :=
  (qty * factor u, option_map (fun c => c / factor u) cost).

(** Sign of the base quantity per movement type (3, StockMovement). *)
Definition signed (mt : movement_type) (q : Q) : Q :=
  match mt with ISSUE | CONSUME => - q | RECEIVE | ADJUST => q end.

Fixpoint active_ref (id : nat) (l : list ref_row) : bool :=
  match l with
  | [] => false
  | r :: l' => if Nat.eqb id (ref_id r) then ref_active r else active_ref id l'
  end.

Fixpoint find_work_order (id : nat) (l : list work_order) : option work_order :=
  match l with
  | [] => None
  | w :: l' => if Nat.eqb id (wo_id w) then Some w else find_work_order id l'
  end.

Definition resolve_active (id : option nat) (l : list ref_row) : bool :=
  match id with Some i => active_ref i l | None => false end.

(** Modelled from the spec: the Reference Resolver and Cost Allocator of
    4.4; returns the effective (cost center, cost element) pair. *)
Definition allocate (md : master_data) (rq : movement_request)
  : outcome (option nat * option nat) :=
  match rq_type rq with
  | ISSUE =>
    if resolve_active (rq_cost_center_id rq) (cost_centers md)
       && resolve_active (rq_cost_element_id rq) (cost_elements md)
    then Ok (rq_cost_center_id rq, rq_cost_element_id rq)
    else Err ReferenceError
  | CONSUME =>
    match rq_work_order_id rq with
    | None => Err ReferenceError
    | Some wid =>
      match find_work_order wid (work_orders md) with
      | None => Err ReferenceError
      | Some w =>
        if negb (wo_status_eqb (wo_state w) OPEN) then Err ReferenceError
        else if resolve_active (rq_cost_element_id rq) (cost_elements md)
        then Ok (Some (wo_cost_center w), rq_cost_element_id rq)
        else Err ReferenceError
      end
    end
  | RECEIVE | ADJUST => Ok (None, None)
  end.

(** Modelled from the spec: the pipeline of 2 before the Ledger Writer;
    every stage is pure, and the first failing one decides the error. *)
Definition prepare (md : master_data) (rq : movement_request) : outcome intent :=
  if negb (authorize (rq_role rq) (rq_type rq)) then Err AuthorizationError
  else match validate rq with
  | Some v => Err (ValidationError v)
  | None =>
    let '(qb, cb) := convert (rq_qty rq) (rq_unit rq) (rq_unit_cost rq) in
    match allocate md rq with
    | Err e => Err e
    | Ok (cc, ce) =>
      Ok {| in_product := rq_product rq;
            in_type := rq_type rq;
            in_qty_input := rq_qty rq;
            in_unit := rq_unit rq;
            in_qty_base := signed (rq_type rq) qb;
            in_unit_cost_input := rq_unit_cost rq;
            in_unit_cost_base := cb;
            in_cost_center := cc;
            in_cost_element := ce;
            in_work_order := match rq_type rq with
                             | CONSUME => rq_work_order_id rq
                             | _ => None
                             end;
            in_by := rq_role rq |}
    end
  end.

(** Modelled from the spec: steps (b) to (f) of the Ledger Writer (4.5),
    given the on-hand quantity [v] read under the product's lock. On
    rejection the state is returned untouched (rollback). *)
Definition ledger_commit (st : state) (i : intent) (v : Q) : outcome movement * state :=
  let new_on_hand := v + in_qty_base i in
  if Qltb new_on_hand 0 then (Err InsufficientStockError, st)
  else
    let m := {| mv_id := next_id st;
                mv_product := in_product i;
                mv_type := in_type i;
                qty_input := in_qty_input i;
                unit_input := in_unit i;
                qty_base := in_qty_base i;
                unit_cost_input := in_unit_cost_input i;
                unit_cost_base := in_unit_cost_base i;
                value_total := match in_unit_cost_base i with
                               | Some c => in_qty_base i * c
                               | None => 0
                               end;
                balance_after := new_on_hand;
                cost_center_ref := in_cost_center i;
                cost_element_ref := in_cost_element i;
                work_order_id := in_work_order i;
                performed_by := in_by i |} in
    (Ok m, {| balances := set_balance (in_product i) new_on_hand (balances st);
              movements := movements st ++ [m];
              next_id := S (next_id st) |}).

(** Modelled from the spec: the whole Ledger Writer transaction of the
    missing inventory_service.py, step (a) reading the balance. *)
Definition ledger_write (st : state) (i : intent) : outcome movement * state :=
  ledger_commit st i (on_hand st (in_product i)).

(** Modelled from the spec: movement creation, the operation the missing
    backend exposes (6). *)
Definition create_movement (md : master_data) (st : state) (rq : movement_request)
  : outcome movement * state :=
  match prepare md rq with
  | Err e => (Err e, st)
  | Ok i => ledger_write st i
  end.

(** A sequence of requests processed one after the other. *)
Definition run (md : master_data) (st : state) (rqs : list movement_request) : state :=
  fold_left (fun s rq => snd (create_movement md s rq)) rqs st.

(** Sum of [qty_base] over the movements of product [p], in order. *)
Definition sum_product (p : nat) (ms : list movement) : Q :=
  fold_left (fun acc m => if Nat.eqb p (mv_product m) then acc + qty_base m else acc)
            ms 0.

(** Modelled from the spec: product creation rule of 4.2 and the Product
    entity of 3 (the backend create-product handler is not in the sources;
    services/inventory/productsApi.js [createProduct] only forwards the
    request). *)
Inductive product_type := PRODUCT | MATERIAL | CONSUMABLE.

Record product_input := {
  pi_name : string;
  pi_sku : string;
  pi_type : product_type;
  pi_cost : Q;
  pi_price : option Q;
  pi_base_unit : string }.

Record product := {
  p_id : nat;
  p_name : string;
  p_sku : string;
  p_type : product_type;
  p_cost : Q;
  p_price : option Q;
  p_base_unit : string;
  p_active : bool }.

Record catalog := { products : list product; next_product_id : nat }.

Definition is_material (t : product_type) : bool :=
  match t with MATERIAL => true | _ => false end.

Definition create_product (cat : catalog) (pi : product_input) : outcome product * catalog :=
  if is_material (pi_type pi) && Qltb (pi_cost pi) 1 then
    (Err (ValidationError MaterialCostBelowFloor), cat)
  else if existsb (fun q => String.eqb (p_sku q) (pi_sku pi)) (products cat) then
    (Err (ValidationError DuplicateSku), cat)
  else
    let np := {| p_id := next_product_id cat; p_name := pi_name pi; p_sku := pi_sku pi;
                 p_type := pi_type pi; p_cost := pi_cost pi; p_price := pi_price pi;
                 p_base_unit := pi_base_unit pi; p_active := true |} in
    (Ok np, {| products := products cat ++ [np];
               next_product_id := S (next_product_id cat) |}).

End Engine.

(* ================================================================= *)
(** ** pages/StockMovementPage.jsx: submitting a movement *)

Module Page.
Local Open Scope string_scope.

(** The [formData] state of the page (all fields are strings). *)
Record form_data := {
  fd_product_id : string;
  fd_movement_type : string;
  fd_work_order_id : string;
  fd_cost_center : string;
  fd_cost_element : string;
  fd_qty_input : string;
  fd_unit_input : string;
  fd_unit_cost_input : string;
  fd_note : string }.

(** A row of [costCenters] as loaded from /master-data/cost-centers. *)
Record cost_center_row := { cc_id : nat; cc_code : string }.

(** A payload value: the parse calls are kept symbolic, as JSON.stringify
    receives their results. *)
Inductive pvalue :=
| PParseInt (s : string)
| PParseFloat (s : string)
| PStr (s : string)
| PId (n : nat)
| PNull.

Definition payload := list (string * pvalue).

Inductive submit_result :=
| Refused (msg : string)      (* setError(...) and return, no request *)
| Rejected (msg : string)     (* an Error thrown before fetch *)
| Posted (body : payload).    (* POST /stock/movements with this body *)

(** [const userRole = user?.role || 'staff'] *)
Definition userRole (user_role : option string) : string :=
  match user_role with
  | Some r => if String.eqb r "" then "staff" else r
  | None => "staff"
  end.

(** [const canCreateMovements = userRole !== 'staff'] *)
Definition canCreateMovements (role : string) : bool := negb (String.eqb role "staff").

Definition nonempty (s : string) : bool := negb (String.eqb s "").

Fixpoint find_cost_center (code : string) (l : list cost_center_row)
  : option cost_center_row :=
  match l with
  | [] => None
  | cc :: l' => if String.eqb (cc_code cc) code then Some cc else find_cost_center code l'
  end.

(** [handleSubmit], up to the fetch call. *)
Definition handleSubmit (role : string) (formData : form_data)
    (selectedCostElementId : string) (costCenters : list cost_center_row)
  : submit_result :=
  if String.eqb role "staff" then Refused "Staff users have read-only access"
  else if negb (nonempty (fd_product_id formData)) || negb (nonempty (fd_qty_input formData))
  then Rejected "Product and quantity are required"
  else if String.eqb (fd_movement_type formData) "RECEIVE"
          && negb (nonempty (fd_unit_cost_input formData))
  then Rejected "Unit cost is required for RECEIVE movements"
  else if String.eqb (fd_movement_type formData) "CONSUME"
          && negb (nonempty (fd_work_order_id formData))
  then Rejected "Work Order is required for CONSUME movements"
  else if String.eqb (fd_movement_type formData) "CONSUME"
          && negb (nonempty selectedCostElementId)
  then Rejected "Cost Element is required for CONSUME movements"
  else if String.eqb (fd_movement_type formData) "ISSUE"
          && (negb (nonempty (fd_cost_center formData)) || negb (nonempty selectedCostElementId))
  then Rejected "Cost Center and Cost Element are required for ISSUE movements"
  else
    let base : payload :=
      [("product_id", PParseInt (fd_product_id formData));
       ("movement_type", PStr (fd_movement_type formData));
       ("qty_input", PParseFloat (fd_qty_input formData));
       ("unit_input", PStr (fd_unit_input formData));
       ("unit_cost_input", if nonempty (fd_unit_cost_input formData)
                           then PParseFloat (fd_unit_cost_input formData) else PNull);
       ("note", if nonempty (fd_note formData) then PStr (fd_note formData) else PNull)] in
    let with_consume :=
      if String.eqb (fd_movement_type formData) "CONSUME"
      then (base ++ [("work_order_id", PParseInt (fd_work_order_id formData));
                    ("cost_element_id", PParseInt selectedCostElementId)])%list
      else base in
    let with_issue :=
      if String.eqb (fd_movement_type formData) "ISSUE"
      then (with_consume ++
             [("cost_center_id", match find_cost_center (fd_cost_center formData) costCenters with
                                 | Some cc => PId (cc_id cc)
                                 | None => PNull
                                 end);
              ("cost_element_id", PParseInt selectedCostElementId)])%list
      else with_consume in
    Posted with_issue.

Definition has_key (k : string) (p : payload) : bool :=
  existsb (fun kv => String.eqb (fst kv) k) p.

(** The engine role a page role string stands for. *)
Definition engine_role (role : string) : option Engine.role :=
  if String.eqb role "owner" then Some Engine.OWNER
  else if String.eqb role "manager" then Some Engine.MANAGER
  else if String.eqb role "staff" then Some Engine.STAFF
  else None.

End Page.

(* ================================================================= *)
(** ** Concurrent callers and the per-product lock (5)

    Modelled from the spec: each caller runs the pure stages, then the
    Ledger Writer transaction: take the exclusive lock of the product
    (blocking while another caller holds it), read the balance, then
    commit or roll back and release the lock. Steps of different callers
    interleave freely. *)

Module Concurrent.
Import Engine.
Open Scope Q_scope.

Inductive phase :=
| Start (rq : movement_request)
| Ready (i : intent)
| Locked (i : intent)
| Snap (i : intent) (v : Q)
| Done (r : outcome movement).

(** Lock table: (product, holder) pairs. *)
Definition locks := list (nat * nat).

Fixpoint holder (p : nat) (l : locks) : option nat :=
  match l with
  | [] => None
  | (p', t) :: l' => if Nat.eqb p p' then Some t else holder p l'
  end.

Fixpoint release (p : nat) (l : locks) : locks :=
  match l with
  | [] => []
  | (p', t) :: l' => if Nat.eqb p p' then release p l' else (p', t) :: release p l'
  end.

Definition holds (tid p : nat) (l : locks) : bool :=
  match holder p l with Some t => Nat.eqb t tid | None => false end.

(** Modelled from the spec (5, the backend locking is missing): one step of caller [tid] against the shared state and lock table. *)
Inductive thread_step (md : master_data) (tid : nat)
  : state * locks * phase -> state * locks * phase -> Prop :=
| ts_reject : forall st l rq e,
    prepare md rq = Err e ->
    thread_step md tid (st, l, Start rq) (st, l, Done (Err e))
| ts_prepared : forall st l rq i,
    prepare md rq = Ok i ->
    thread_step md tid (st, l, Start rq) (st, l, Ready i)
| ts_acquire : forall st l i,
    holder (in_product i) l = None ->
    thread_step md tid (st, l, Ready i) (st, (in_product i, tid) :: l, Locked i)
| ts_read : forall st l i,
    holds tid (in_product i) l = true ->
    thread_step md tid (st, l, Locked i) (st, l, Snap i (on_hand st (in_product i)))
| ts_commit : forall st l i v r st',
    holds tid (in_product i) l = true ->
    ledger_commit st i v = (r, st') ->
    thread_step md tid (st, l, Snap i v) (st', release (in_product i) l, Done r).

(** The same step, computed. *)
Definition thread_next (md : master_data) (tid : nat) (c : state * locks * phase)
  : option (state * locks * phase) :=
  let '(st, l, ph) := c in
  match ph with
  | Start rq =>
    match prepare md rq with
    | Err e => Some (st, l, Done (Err e))
    | Ok i => Some (st, l, Ready i)
    end
  | Ready i =>
    match holder (in_product i) l with
    | None => Some (st, (in_product i, tid) :: l, Locked i)
    | Some _ => None
    end
  | Locked i =>
    if holds tid (in_product i) l then Some (st, l, Snap i (on_hand st (in_product i)))
    else None
  | Snap i v =>
    if holds tid (in_product i) l then
      let '(r, st') := ledger_commit st i v in
      Some (st', release (in_product i) l, Done r)
    else None
  | Done _ => None
  end.

(** Two concurrent callers, with ids 1 and 2. *)
Record config := { c_state : state; c_locks : locks; c_t1 : phase; c_t2 : phase }.

Inductive step (md : master_data) : config -> config -> Prop :=
| step_t1 : forall st l p1 p2 st' l' p1',
    thread_step md 1 (st, l, p1) (st', l', p1') ->
    step md (Build_config st l p1 p2) (Build_config st' l' p1' p2)
| step_t2 : forall st l p1 p2 st' l' p2',
    thread_step md 2 (st, l, p2) (st', l', p2') ->
    step md (Build_config st l p1 p2) (Build_config st' l' p1 p2').

Inductive star (md : master_data) : config -> config -> Prop :=
| star_refl : forall c, star md c c
| star_step : forall c1 c2 c3, step md c1 c2 -> star md c2 c3 -> star md c1 c3.

Definition successors (md : master_data) (c : config) : list config :=
  let '(Build_config st l p1 p2) := c in
  (match thread_next md 1 (st, l, p1) with
   | Some (st', l', p1') => [Build_config st' l' p1' p2]
   | None => []
   end ++
   match thread_next md 2 (st, l, p2) with
   | Some (st', l', p2') => [Build_config st' l' p1 p2']
   | None => []
   end)%list.

(** Remaining steps of a caller. *)
Definition weight (ph : phase) : nat :=
  match ph with
  | Start _ => 4 | Ready _ => 3 | Locked _ => 2 | Snap _ _ => 1 | Done _ => 0
  end%nat.

Definition measure (c : config) : nat := (weight (c_t1 c) + weight (c_t2 c))%nat.

(** All configurations reached when no caller can move any more. *)
Fixpoint finals (md : master_data) (fuel : nat) (c : config) : list config :=
  match fuel with
  | O => [c]
  | S f =>
    match successors md c with
    | [] => [c]
    | cs => flat_map (finals md f) cs
    end
  end.

Definition is_done (ph : phase) : bool :=
  match ph with Done _ => true | _ => false end.

Definition result_of (ph : phase) : option (outcome movement) :=
  match ph with Done r => Some r | _ => None end.

End Concurrent.

(* ================================================================= *)
(** ** Concrete inputs used by the scenarios of the specification *)

Module Scenarios.
Import Engine Concurrent.
Open Scope Q_scope.

(** Master data: cost center 1 and cost element 7 active; work order 3
    OPEN and work order 4 CLOSED, both charged to cost center 1. *)
Definition md_demo : master_data :=
  {| cost_centers := [{| ref_id := 1; ref_active := true |}];
     cost_elements := [{| ref_id := 7; ref_active := true |}];
     work_orders := [{| wo_id := 3; wo_state := OPEN; wo_cost_center := 1 |};
                     {| wo_id := 4; wo_state := CLOSED; wo_cost_center := 1 |}] |}.

Definition base_request (r : role) (p : nat) (mt : movement_type) (q : Q)
  : movement_request :=
  {| rq_role := r; rq_product := p; rq_type := mt; rq_qty := q; rq_unit := PCS;
     rq_unit_cost := None; rq_cost_center_id := None; rq_cost_element_id := None;
     rq_work_order_id := None; rq_cost_center := None; rq_cost_element := None |}.

Definition receive_rq (r : role) (p : nat) (q : Q) (u : unit_of_measure) (c : Q)
  : movement_request :=
  {| rq_role := r; rq_product := p; rq_type := RECEIVE; rq_qty := q; rq_unit := u;
     rq_unit_cost := Some c; rq_cost_center_id := None; rq_cost_element_id := None;
     rq_work_order_id := None; rq_cost_center := None; rq_cost_element := None |}.

Definition issue_rq (r : role) (p : nat) (q : Q) : movement_request :=
  {| rq_role := r; rq_product := p; rq_type := ISSUE; rq_qty := q; rq_unit := PCS;
     rq_unit_cost := None; rq_cost_center_id := Some 1%nat; rq_cost_element_id := Some 7%nat;
     rq_work_order_id := None; rq_cost_center := None; rq_cost_element := None |}.

Definition consume_rq (r : role) (p : nat) (q : Q) (wo : nat) : movement_request :=
  {| rq_role := r; rq_product := p; rq_type := CONSUME; rq_qty := q; rq_unit := PCS;
     rq_unit_cost := None; rq_cost_center_id := None; rq_cost_element_id := Some 7%nat;
     rq_work_order_id := Some wo; rq_cost_center := None; rq_cost_element := None |}.

(** Product 5 after receiving 100 PCS: on_hand = 100. *)
Definition st_100 : state := run md_demo init_state [receive_rq OWNER 5 100 PCS (51 # 2)].

(** Two callers each issuing 60 PCS of product 5. *)
Definition race_start : config :=
  {| c_state := st_100; c_locks := [];
     c_t1 := Start (issue_rq MANAGER 5 60); c_t2 := Start (issue_rq STAFF 5 60) |}.

(** Receiving 2 DOZEN at 25.50 per dozen on an empty ledger. *)
Definition dozen_receive : movement_request := receive_rq OWNER 5 2 DOZEN (51 # 2).

Definition dozen_movement : movement :=
  match fst (create_movement md_demo init_state dozen_receive) with
  | Ok m => m
  | Err _ => {| mv_id := 0; mv_product := 0; mv_type := ADJUST; qty_input := 0;
                unit_input := PCS; qty_base := 0; unit_cost_input := None;
                unit_cost_base := None; value_total := 0; balance_after := 0;
                cost_center_ref := None; cost_element_ref := None;
                work_order_id := None; performed_by := OWNER |}
  end.

(** Scenario 5 shape with the legacy string field. *)
Definition with_legacy_cost_center (rq : movement_request) (code : string)
  : movement_request :=
  {| rq_role := rq_role rq; rq_product := rq_product rq; rq_type := rq_type rq;
     rq_qty := rq_qty rq; rq_unit := rq_unit rq; rq_unit_cost := rq_unit_cost rq;
     rq_cost_center_id := rq_cost_center_id rq;
     rq_cost_element_id := rq_cost_element_id rq;
     rq_work_order_id := rq_work_order_id rq;
     rq_cost_center := Some code; rq_cost_element := rq_cost_element rq |}.

(** A filled-in ISSUE form of StockMovementPage.jsx. *)
Definition issue_form : Page.form_data :=
  {| Page.fd_product_id := "5"; Page.fd_movement_type := "ISSUE";
     Page.fd_work_order_id := ""; Page.fd_cost_center := "CC-01";
     Page.fd_cost_element := ""; Page.fd_qty_input := "60";
     Page.fd_unit_input := "PCS"; Page.fd_unit_cost_input := ""; Page.fd_note := "" |}%string.

Definition demo_cost_centers : list Page.cost_center_row :=
  [{| Page.cc_id := 1; Page.cc_code := "CC-01"%string |}].

(** Scenario 1: a MATERIAL at 0.50, on an empty catalog. *)
Definition empty_catalog : catalog := {| products := []; next_product_id := 1 |}.

Definition cheap_material : product_input :=
  {| pi_name := "Cheap Material"; pi_sku := "CHEAP-MAT"; pi_type := MATERIAL;
     pi_cost := 1 # 2; pi_price := None; pi_base_unit := "kg" |}%string.

(** Outcome check of the race: both callers finished, one committed, the
    other got InsufficientStockError, and product 5 holds 40. *)
Definition one_commit (r1 r2 : option (outcome movement)) : bool :=
  match r1, r2 with
  | Some (Ok _), Some (Err InsufficientStockError)
  | Some (Err InsufficientStockError), Some (Ok _) => true
  | _, _ => false
  end.

Definition race_ok (c : config) : bool :=
  one_commit (result_of (c_t1 c)) (result_of (c_t2 c))
  && Qeq_bool (on_hand (c_state c) 5) 40.

End Scenarios.

(* ================================================================= *)
(** ** types/roles.js: [getRolePermissions] and [isValidRole] *)

Module RolesApi.
Local Open Scope string_scope.
Import JS Roles.

(** [Object.values(ROLES)] *)
Definition ROLES_values : list string := [OWNER; MANAGER; STAFF].

(** [getRolePermissions = (role) => ROLE_PERMISSIONS[role] || {}] *)
Definition getRolePermissions (role : string) : completion :=
  r <- get ROLE_PERMISSIONS role ;;
  Normal (js_or r (JObj [])).

(** [isValidRole = (role) => Object.values(ROLES).includes(role)] *)
Definition isValidRole (role : string) : bool :=
  existsb (String.eqb role) ROLES_values.

(** The property names found on the prototype chains [hasPermission]
    walks: own properties of the built-in functions, [Object.prototype]
    and [Function.prototype]. *)
Definition builtin_names : list string :=
  (["name"; "length"; "prototype"; "constructor"; "caller"; "arguments";
    "__proto__"] ++
   map fst object_prototype_methods ++ map fst object_static_methods ++
   map fst function_prototype_methods)%list.

(** A permission name none of those objects has. *)
Definition plain_key (k : string) : bool :=
  negb (existsb (String.eqb k) builtin_names).

(** The truth value [ROLE_PERMISSIONS] lists for [role] and [permission]
    as own properties of its literal ([false] where it lists none). *)
Definition own_permission (role permission : string) : bool :=
  match assoc role [(OWNER, JObj owner_permissions); (MANAGER, JObj manager_permissions);
                    (STAFF, JObj staff_permissions)] with
  | Some (JObj perms) =>
    match assoc permission perms with
    | Some v => truthy v
    | None => false
    end
  | _ => false
  end.

End RolesApi.

(* ================================================================= *)
(** ** services/roleService.js and the [RoleProvider] of
       components/guards/AuthContext.jsx *)

Module RoleService.
Local Open Scope string_scope.
Import JS Roles.

(** [isValidRole = (role) => Object.values(ROLES).includes(role)] *)
Definition isValidRole (role : string) : bool :=
  existsb (String.eqb role) [OWNER; MANAGER; STAFF].

Section Env.

(** [String.prototype.toLowerCase] *)
Variable toLowerCase : string -> string.

(** [getCurrentRole]: [dev] is [import.meta.env.DEV], [override] the
    value of [VITE_DEV_ROLE_OVERRIDE] ([None] when it is not set). *)
Definition getCurrentRole (dev : bool) (override : option string) : string :=
  match override with
  | Some o =>
    if dev && negb (String.eqb o "") then
      let devRole := toLowerCase o in
      if existsb (String.eqb devRole) [OWNER; MANAGER; STAFF] then devRole else STAFF
    else STAFF
  | None => STAFF
  end.

(** [handleSetUserRole] of [RoleProvider]: the new [userRole] state. *)
Definition handleSetUserRole (userRole newRole : string) : string :=
  if isValidRole newRole then newRole else userRole.

(** The [userRole] state of [RoleProvider]: initialised with
    [getCurrentRole()], then set through [handleSetUserRole] for each
    requested role in turn. *)
Definition role_provider_state (dev : bool) (override : option string)
    (requests : list string) : string :=
  fold_left handleSetUserRole requests (getCurrentRole dev override).

End Env.

(** [getRoleDisplayName] *)
Definition roleNames : jsval :=
  JObj [(OWNER, JStr "Business Owner"); (MANAGER, JStr "Manager");
        (STAFF, JStr "Staff Member")].

Definition getRoleDisplayName (role : string) : completion :=
  r <- get roleNames role ;;
  Normal (js_or r (JStr "Unknown Role")).

End RoleService.

(* ================================================================= *)
(** ** components/guards/RoleGuard.jsx *)

Module Guard.
Local Open Scope string_scope.
Import JS Roles.

Inductive rendered :=
| Children
| Fallback
| GuardThrow (err : string).

(** [requiredPermissions.some(permission => hasPermission(permission))]:
    [hasPermission] gets one argument, so its [permission] parameter is
    [undefined], whose property key is the string "undefined". *)
Fixpoint some_permission (ps : list string) : completion :=
  match ps with
  | [] => Normal (JBool false)
  | p :: ps' =>
    v <- hasPermission p "undefined" ;;
    if truthy v then Normal (JBool true) else some_permission ps'
  end.

(** [RoleGuard]: [userRole] is the optional override prop ([None]: its
    default [null]), [contextRole] the role of [useRole()]. *)
Definition RoleGuard (allowedRoles requiredPermissions : list string)
    (userRole : option string) (contextRole : string) : rendered :=
  let effectiveRole :=
    match userRole with
    | Some r => if String.eqb r "" then contextRole else r
    | None => contextRole
    end in
  match allowedRoles, requiredPermissions with
  | [], [] => Children
  | _, _ =>
    let hasRoleAccess :=
      match allowedRoles with
      | [] => true
      | _ => existsb (String.eqb effectiveRole) allowedRoles
      end in
    match (match requiredPermissions with
           | [] => Normal (JBool true)
           | _ => some_permission requiredPermissions
           end) with
    | Throw e => GuardThrow e
    | Normal hasPermissionAccess =>
      if hasRoleAccess && truthy hasPermissionAccess then Children else Fallback
    end
  end.

End Guard.

(* ================================================================= *)
(** ** Data handled by the shaping services *)

Module Data.
Local Open Scope string_scope.
Import JS.

(** A value of the data the services receive (a parsed JSON response or
    a mock literal) and return. [DLeaf] holds a value of the role model
    (undefined, null, a boolean, number or string, a built-in function);
    [DArr] is an array, [DObj] a plain object literal, and [DOp op args]
    a number the code computes ([price * stockLevel], a rounded margin,
    [parseFloat(s)]), kept symbolic. *)
Inductive dval :=
| DLeaf (v : jsval)
| DArr (l : list dval)
| DObj (props : list (string * dval))
| DOp (op : string) (args : list dval).

(** Normal result or thrown error. *)
Inductive res (A : Type) :=
| ROk (a : A)
| RThrow (err : string).
Arguments ROk {A} a.
Arguments RThrow {A} err.

Definition rbind {A B : Type} (c : res A) (k : A -> res B) : res B :=
  match c with
  | ROk a => k a
  | RThrow e => RThrow e
  end.

Notation "x <~ c ;; k" := (rbind c (fun x => k))
  (at level 61, c at next level, right associativity).

Definition undef : dval := DLeaf JUndefined.
Definition dnull : dval := DLeaf JNull.
Definition dstr (s : string) : dval := DLeaf (JStr s).
Definition dnum (z : Z) : dval := DLeaf (JNum z).
Definition dbool (b : bool) : dval := DLeaf (JBool b).

Fixpoint dassoc (k : string) (l : list (string * dval)) : option dval :=
  match l with
  | [] => None
  | (k', v) :: l' => if String.eqb k k' then Some v else dassoc k l'
  end.

(** Methods of [Array.prototype] with their [length]. *)
Definition array_prototype_methods : list (string * Z) :=
  [("at", 1%Z); ("concat", 1%Z); ("copyWithin", 2%Z); ("entries", 0%Z);
   ("every", 1%Z); ("fill", 1%Z); ("filter", 1%Z); ("find", 1%Z);
   ("findIndex", 1%Z); ("findLast", 1%Z); ("findLastIndex", 1%Z);
   ("flat", 0%Z); ("flatMap", 1%Z); ("forEach", 1%Z); ("includes", 1%Z);
   ("indexOf", 1%Z); ("join", 1%Z); ("keys", 0%Z); ("lastIndexOf", 1%Z);
   ("map", 1%Z); ("pop", 0%Z); ("push", 1%Z); ("reduce", 1%Z);
   ("reduceRight", 1%Z); ("reverse", 0%Z); ("shift", 0%Z); ("slice", 2%Z);
   ("some", 1%Z); ("sort", 1%Z); ("splice", 2%Z); ("toLocaleString", 0%Z);
   ("toReversed", 0%Z); ("toSorted", 1%Z); ("toSpliced", 2%Z);
   ("toString", 0%Z); ("unshift", 1%Z); ("values", 0%Z); ("with", 2%Z)].

Definition digit_value (c : Ascii.ascii) : option nat :=
  let n := Ascii.nat_of_ascii c in
  if (48 <=? n)%nat && (n <=? 57)%nat then Some (n - 48)%nat else None.

Fixpoint digits_value (s : string) (acc : nat) : option nat :=
  match s with
  | EmptyString => Some acc
  | String c s' =>
    match digit_value c with
    | Some d => digits_value s' (acc * 10 + d)%nat
    | None => None
    end
  end.

(** A canonical array index key: "0", or digits without a leading zero. *)
Definition index_key (k : string) : option nat :=
  match k with
  | EmptyString => None
  | String c rest =>
    if Ascii.eqb c (Ascii.ascii_of_nat 48) then (if String.eqb rest "" then Some 0%nat else None)
    else digits_value k 0
  end.

(** [o[k]]. On a string receiver only [length] is found (no other
    property of [String.prototype] is read by the services); a computed
    number has none of the properties read. *)
Definition dget (o : dval) (k : string) : res dval :=
  match o with
  | DLeaf (JStr s) =>
    if String.eqb k "length" then ROk (dnum (Z.of_nat (String.length s)))
    else ROk undef
  | DLeaf v =>
    match get v k with
    | Normal w => ROk (DLeaf w)
    | Throw e => RThrow e
    end
  | DArr l =>
    if String.eqb k "length" then ROk (dnum (Z.of_nat (List.length l)))
    else match index_key k with
    | Some i => ROk (match nth_error l i with Some v => v | None => undef end)
    | None =>
      if String.eqb k "constructor" then ROk (DLeaf (JFun "Array" 1))
      else match lookup_method k array_prototype_methods with
      | Some n => ROk (DLeaf (JFun k n))
      | None => ROk (DLeaf (object_prototype_get false k))
      end
    end
  | DObj props =>
    match dassoc k props with
    | Some v => ROk v
    | None => ROk (DLeaf (object_prototype_get false k))
    end
  | DOp _ _ => ROk undef
  end.

Definition is_nullish (v : dval) : bool :=
  match v with
  | DLeaf JUndefined | DLeaf JNull => true
  | _ => false
  end.

(** [o?.[k]] *)
Definition dget_opt (o : dval) (k : string) : res dval :=
  if is_nullish o then ROk undef else dget o k.

(** Truthiness. A computed number ([DOp]) is never tested by the code
    modelled here; it counts as truthy only to keep the function total. *)
Definition dtruthy (v : dval) : bool :=
  match v with
  | DLeaf w => truthy w
  | DArr _ | DObj _ | DOp _ _ => true
  end.

(** [a || b] *)
Definition d_or (a b : dval) : dval := if dtruthy a then a else b.

(** [v === u] for a string [u], or [null] when [u] is [None]. *)
Definition strict_eq_id (v : dval) (u : option string) : bool :=
  match v, u with
  | DLeaf (JStr s), Some u' => String.eqb s u'
  | DLeaf JNull, None => true
  | _, _ => false
  end.

Fixpoint contains (u s : string) : bool :=
  String.prefix u s ||
  match s with
  | EmptyString => false
  | String _ s' => contains u s'
  end.

(** [recv.includes(u)]: [Array.prototype.includes] on an array,
    [String.prototype.includes] on a string; any other receiver has no
    callable [includes] (the data holds no functions), a TypeError. *)
Definition call_includes (recv : dval) (u : option string) : res bool :=
  match recv with
  | DArr l => ROk (existsb (fun v => strict_eq_id v u) l)
  | DLeaf (JStr s) =>
    ROk (contains (match u with Some u' => u' | None => "null" end) s)
  | _ => RThrow "TypeError"
  end.

Fixpoint map_res (f : dval -> res dval) (l : list dval) : res (list dval) :=
  match l with
  | [] => ROk []
  | x :: l' =>
    y <~ f x ;;
    ys <~ map_res f l' ;;
    ROk (y :: ys)
  end.

Fixpoint filter_res (p : dval -> res bool) (l : list dval) : res (list dval) :=
  match l with
  | [] => ROk []
  | x :: l' =>
    b <~ p x ;;
    ys <~ filter_res p l' ;;
    ROk (if b then x :: ys else ys)
  end.

(** [recv.map(f)]: only an array has a callable [map]. *)
Definition call_map (recv : dval) (f : dval -> res dval) : res dval :=
  match recv with
  | DArr l => ys <~ map_res f l ;; ROk (DArr ys)
  | _ => RThrow "TypeError"
  end.

(** [o?.[k]?.map(f)] *)
Definition opt_call_map (o : dval) (k : string) (f : dval -> res dval) : res dval :=
  d <~ dget_opt o k ;;
  if is_nullish d then ROk undef else call_map d f.

(** [{ k1: o.k1, k2: o.k2, ... }], evaluated left to right. *)
Fixpoint pick (o : dval) (ks : list string) : res (list (string * dval)) :=
  match ks with
  | [] => ROk []
  | k :: ks' =>
    v <~ dget o k ;;
    rest <~ pick o ks' ;;
    ROk ((k, v) :: rest)
  end.

(** [hasPermission(role, permission)] tested for truthiness by [if]. *)
Definition test_permission (role permission : string) : res bool :=
  match Roles.hasPermission role permission with
  | Normal v => ROk (truthy v)
  | Throw e => RThrow e
  end.

Definition keys_of (v : dval) : list string :=
  match v with
  | DObj props => map fst props
  | _ => []
  end.

(** The own property [k] of an object. *)
Definition dfield (k : string) (v : dval) : option dval :=
  match v with
  | DObj props => dassoc k props
  | _ => None
  end.

Definition is_obj (v : dval) : bool :=
  match v with
  | DObj _ => true
  | _ => false
  end.

End Data.

(* ================================================================= *)
(** ** services/hr/shapeEmployeesByRole.js *)

Module HR.
Local Open Scope string_scope.
Import JS Roles Data.

Definition employee_base_fields : list string :=
  ["id"; "name"; "role"; "department"; "email"; "phone"; "status";
   "joinDate"; "avatar"].

Definition shape_employee (userRole : string) (employee : dval) : res dval :=
  base <~ pick employee employee_base_fields ;;
  if String.eqb userRole OWNER then
    extra <~ pick employee ["salary"; "performanceRating"; "bankAccount"; "notes"] ;;
    ROk (DObj (app base extra))
  else if String.eqb userRole MANAGER then
    extra <~ pick employee ["performanceRating"; "notes"] ;;
    ROk (DObj (app base extra))
  else ROk (DObj base).

Definition shapeEmployeesByRole (rawEmployees : dval) (userRole : string) : res dval :=
  match rawEmployees with
  | DArr _ =>
    if String.eqb userRole "" then ROk (DArr [])
    else
      allowed <~ test_permission userRole "canAccessHR" ;;
      if negb allowed then ROk (DArr [])
      else call_map rawEmployees (shape_employee userRole)
  | _ => ROk (DArr [])
  end.

Definition product_base (product : dval) : res (list (string * dval)) :=
  b1 <~ pick product ["id"; "name"; "sku"; "type"; "category"; "image"] ;;
  sl <~ dget product "stockLevel" ;;
  msl <~ dget product "minStockLevel" ;;
  b2 <~ pick product ["unit"; "status"; "location"; "lastUpdated"] ;;
  ROk (app b1 (app [("stockLevel", d_or sl (dnum 0));
                    ("minStockLevel", d_or msl (dnum 10))] b2)).

Definition shape_product (userRole : string) (product : dval) : res dval :=
  base <~ product_base product ;;
  if String.eqb userRole "owner" then
    price <~ dget product "price" ;;
    cost <~ dget product "cost" ;;
    margin <~ dget product "margin" ;;
    supplier <~ dget product "supplier" ;;
    p1 <~ dget product "price" ;; s1 <~ dget product "stockLevel" ;;
    c2 <~ dget product "cost" ;; s2 <~ dget product "stockLevel" ;;
    ROk (DObj (app base [("price", price); ("cost", cost); ("margin", margin);
                         ("supplier", supplier);
                         ("totalValue", DOp "*" [p1; s1]);
                         ("totalCost", DOp "*" [c2; s2])]))
  else if String.eqb userRole "manager" then
    price <~ dget product "price" ;;
    supplier <~ dget product "supplier" ;;
    p1 <~ dget product "price" ;; s1 <~ dget product "stockLevel" ;;
    ROk (DObj (app base [("price", price); ("supplier", supplier);
                         ("totalValue", DOp "*" [p1; s1])]))
  else if String.eqb userRole "staff" then ROk (DObj base)
  else ROk (DObj base).

Definition shapeProductsByRole (rawProducts : dval) (userRole : string) : res dval :=
  match rawProducts with
  | DArr _ =>
    if String.eqb userRole "" then ROk (DArr [])
    else call_map rawProducts (shape_product userRole)
  | _ => ROk (DArr [])
  end.

End HR.

(* ================================================================= *)
(** ** services/dashboard/shapeKpisByRole.js and
       shapeTransactionsByRole.js *)

Module Dashboard.
Local Open Scope string_scope.
Import JS Roles Data.

(** [o.k1?.k2] *)
Definition read2 (o : dval) (k1 k2 : string) : res dval :=
  a <~ dget o k1 ;; dget_opt a k2.

Definition shapeKpisByRole (rawKpiData : dval) (userRole : string) : res dval :=
  if negb (dtruthy rawKpiData) || String.eqb userRole "" then ROk (DObj [])
  else
    rev_ok <~ test_permission userRole "canViewRevenue" ;;
    revenue <~
      (if rev_ok then
         if String.eqb userRole OWNER then
           v <~ read2 rawKpiData "revenue" "value" ;;
           t <~ read2 rawKpiData "revenue" "trend" ;;
           b <~ read2 rawKpiData "revenue" "breakdown" ;;
           p <~ read2 rawKpiData "revenue" "projection" ;;
           ROk [("revenue", DObj [("value", v); ("trend", t); ("breakdown", b);
                                  ("projection", p); ("showDetailed", dbool true)])]
         else
           v <~ read2 rawKpiData "revenue" "value" ;;
           t <~ read2 rawKpiData "revenue" "trend" ;;
           ROk [("revenue", DObj [("value", v); ("trend", t);
                                  ("showDetailed", dbool false)])]
       else ROk []) ;;
    profit_ok <~ test_permission userRole "canViewProfit" ;;
    profit <~
      (if profit_ok then
         v <~ read2 rawKpiData "profit" "value" ;;
         t <~ read2 rawKpiData "profit" "trend" ;;
         m <~ read2 rawKpiData "profit" "margin" ;;
         y <~ read2 rawKpiData "profit" "ytdComparison" ;;
         ROk [("profit", DObj [("value", v); ("trend", t); ("margin", m);
                               ("ytdComparison", y)])]
       else ROk []) ;;
    orders_ok <~ test_permission userRole "canViewOrders" ;;
    orders <~
      (if orders_ok then
         ordersData <~ dget rawKpiData "orders" ;;
         if String.eqb userRole STAFF then
           ac <~ dget_opt ordersData "assignedCount" ;;
           atr <~ dget_opt ordersData "assignedTrend" ;;
           pa <~ dget_opt ordersData "priorityAssigned" ;;
           ROk [("orders", DObj [("value", d_or ac (dnum 0)); ("trend", atr);
                                 ("scope", dstr "assigned"); ("priority", pa)])]
         else
           tc <~ dget_opt ordersData "totalCount" ;;
           tt <~ dget_opt ordersData "totalTrend" ;;
           tv <~ dget_opt ordersData "totalValue" ;;
           oc <~ dget_opt ordersData "overdueCount" ;;
           uc <~ dget_opt ordersData "urgentCount" ;;
           ROk [("orders", DObj [("value", tc); ("trend", tt); ("scope", dstr "all");
                                 ("totalValue", tv); ("overdueCount", oc);
                                 ("urgentCount", uc)])]
       else ROk []) ;;
    customers_ok <~ test_permission userRole "canViewCustomers" ;;
    customers <~
      (if customers_ok then
         v <~ read2 rawKpiData "customers" "newCount" ;;
         t <~ read2 rawKpiData "customers" "growthTrend" ;;
         a <~ read2 rawKpiData "customers" "totalActive" ;;
         r <~ read2 rawKpiData "customers" "retentionRate" ;;
         ROk [("customers", DObj [("value", v); ("trend", t); ("totalActive", a);
                                  ("retentionRate", r)])]
       else ROk []) ;;
    ROk (DObj (app revenue (app profit (app orders customers)))).

Definition sensitive_types : list string :=
  ["financial_adjustment"; "loan"; "investment"; "tax_payment"].

Definition owner_transaction_fields : list string :=
  ["id"; "date"; "type"; "customer"; "supplier"; "amount"; "status";
   "profitMargin"; "cost"; "internalNotes"; "assignedTo"; "priority";
   "paymentMethod"; "customerCredit"].

Definition manager_transaction_fields : list string :=
  ["id"; "date"; "type"; "customer"; "supplier"; "amount"; "status";
   "assignedTo"; "priority"].

Definition staff_transaction_fields : list string :=
  ["id"; "date"; "type"; "customer"; "status"; "priority"; "assignedTo";
   "taskDescription"; "dueDate"].

Definition pick_obj (ks : list string) (o : dval) : res dval :=
  props <~ pick o ks ;; ROk (DObj props).

(** [!sensitive_types.includes(transaction.type)] *)
Definition manager_visible (transaction : dval) : res bool :=
  ty <~ dget transaction "type" ;;
  ROk (negb (existsb (fun s => strict_eq_id ty (Some s)) sensitive_types)).

(** [transaction.assignedTo === userId || transaction.handlerRequired ===
    userId || (transaction.teamAssignments &&
    transaction.teamAssignments.includes(userId))] *)
Definition staff_visible (userId : option string) (transaction : dval) : res bool :=
  a <~ dget transaction "assignedTo" ;;
  if strict_eq_id a userId then ROk true else
  h <~ dget transaction "handlerRequired" ;;
  if strict_eq_id h userId then ROk true else
  ta <~ dget transaction "teamAssignments" ;;
  if dtruthy ta then
    ta' <~ dget transaction "teamAssignments" ;;
    call_includes ta' userId
  else ROk false.

(** [userId]: a string, or [None] for the default [null]. The warning
    logged for an unknown role is not modelled. *)
Definition shapeTransactionsByRole (rawTransactions : dval) (userRole : string)
    (userId : option string) : res dval :=
  match rawTransactions with
  | DArr l =>
    if String.eqb userRole "" then ROk (DArr [])
    else if String.eqb userRole OWNER then
      call_map rawTransactions (pick_obj owner_transaction_fields)
    else if String.eqb userRole MANAGER then
      kept <~ filter_res manager_visible l ;;
      call_map (DArr kept) (pick_obj manager_transaction_fields)
    else if String.eqb userRole STAFF then
      kept <~ filter_res (staff_visible userId) l ;;
      call_map (DArr kept) (pick_obj staff_transaction_fields)
    else ROk (DArr [])
  | _ => ROk (DArr [])
  end.

End Dashboard.

(* ================================================================= *)
(** ** services/dashboard/shapeChartsByRole.js (part_005) *)

Module Charts.
Local Open Scope string_scope.
Import JS Roles Data.

Definition sales_item (item : dval) : res dval :=
  p <~ pick item ["date"; "revenue"] ;; ROk (DObj p).

Definition staff_inventory_item (item : dval) : res dval :=
  p <~ pick item ["category"; "status"; "count"; "priority"] ;; ROk (DObj p).

Definition full_inventory_item (userRole : string) (item : dval) : res dval :=
  base <~ pick item ["category"; "status"; "count"; "value"; "lowStockAlert"] ;;
  if String.eqb userRole OWNER then
    extra <~ pick item ["cost"; "profit"; "supplier"; "turnoverRate"] ;;
    ROk (DObj (app base extra))
  else ROk (DObj base).

Definition shapeChartsByRole (rawChartsData : dval) (userRole : string) : res dval :=
  if negb (dtruthy rawChartsData) || String.eqb userRole "" then ROk (DObj [])
  else
    sales_ok <~ test_permission userRole "canViewSalesChart" ;;
    sales <~
      (if sales_ok then
         salesData <~ dget rawChartsData "salesRevenue" ;;
         if String.eqb userRole OWNER then
           d <~ dget_opt salesData "data" ;;
           m <~ dget_opt salesData "metadata" ;;
           ROk [("salesRevenue", DObj [("data", d); ("resolution", dstr "daily");
                                       ("showProfitMargin", dbool true);
                                       ("showProjections", dbool true);
                                       ("metadata", m)])]
         else if String.eqb userRole MANAGER then
           d <~ opt_call_map salesData "data" sales_item ;;
           ROk [("salesRevenue", DObj [("data", d); ("resolution", dstr "weekly");
                                       ("showProfitMargin", dbool false);
                                       ("showProjections", dbool false)])]
         else ROk []
       else ROk []) ;;
    inventory_ok <~ test_permission userRole "canViewInventoryChart" ;;
    inventory <~
      (if inventory_ok then
         inventoryData <~ dget rawChartsData "inventory" ;;
         if String.eqb userRole STAFF then
           d <~ opt_call_map inventoryData "data" staff_inventory_item ;;
           ROk [("inventory", DObj [("data", d); ("viewType", dstr "status");
                                    ("showFinancials", dbool false)])]
         else
           d <~ opt_call_map inventoryData "data" (full_inventory_item userRole) ;;
           ROk [("inventory", DObj [("data", d); ("viewType", dstr "full");
                                    ("showFinancials", dbool true)])]
       else ROk []) ;;
    ROk (DObj (app sales inventory)).

End Charts.

(* ================================================================= *)
(** ** Orders and customers services (part_004) *)

Module Orders.
Local Open Scope string_scope.
Import JS Roles Data.

Definition order_base (order : dval) : res (list (string * dval)) :=
  b1 <~ pick order ["id"; "orderNumber"; "date"; "customer"; "status";
                    "paymentStatus"] ;;
  items <~ dget order "items" ;;
  n <~ dget items "length" ;;
  b2 <~ pick order ["assignedTo"; "priority"] ;;
  ROk (app b1 (("itemsCount", n) :: b2)).

Definition staff_item (item : dval) : res dval :=
  p <~ pick item ["name"; "quantity"; "sku"] ;; ROk (DObj p).

Definition shape_order (userRole : string) (order : dval) : res dval :=
  base <~ order_base order ;;
  if String.eqb userRole "owner" then
    extra <~ pick order ["totalAmount"; "cost"; "profit"; "margin"; "items"; "notes"] ;;
    ROk (DObj (app base extra))
  else if String.eqb userRole "manager" then
    extra <~ pick order ["totalAmount"; "items"; "notes"] ;;
    ROk (DObj (app base extra))
  else if String.eqb userRole "staff" then
    items <~ dget order "items" ;;
    shaped_items <~ call_map items staff_item ;;
    notes <~ dget order "notes" ;;
    ROk (DObj (app base [("items", shaped_items); ("notes", notes)]))
  else ROk (DObj base).

(** [order.assignedTo === userId || order.assignedTo === 'team'] *)
Definition assigned_to (userId : string) (order : dval) : res bool :=
  a <~ dget order "assignedTo" ;;
  if strict_eq_id a (Some userId) then ROk true
  else a' <~ dget order "assignedTo" ;; ROk (strict_eq_id a' (Some "team")).

Definition shapeOrdersByRole (rawOrders : dval) (userRole : string) (userId : string)
  : res dval :=
  match rawOrders with
  | DArr l =>
    if String.eqb userRole "" then ROk (DArr [])
    else
      visibleOrders <~ (if String.eqb userRole "staff"
                        then filter_res (assigned_to userId) l
                        else ROk l) ;;
      call_map (DArr visibleOrders) (shape_order userRole)
  | _ => ROk (DArr [])
  end.

Definition shape_customer (userRole : string) (customer : dval) : res dval :=
  base <~ pick customer ["id"; "name"; "email"; "phone"; "company"; "status";
                         "lastOrderDate"; "tags"] ;;
  if String.eqb userRole "owner" then
    extra <~ pick customer ["totalSpent"; "averageOrderValue"; "profitGenerated";
                            "creditLimit"; "notes"] ;;
    ROk (DObj (app base extra))
  else if String.eqb userRole "manager" then
    extra <~ pick customer ["totalSpent"; "averageOrderValue"; "notes"] ;;
    ROk (DObj (app base extra))
  else ROk (DObj base).

(** The body of [shapeCustomersByRole], given what [hasPermission]
    resolves to in its module ([None]: unbound, a ReferenceError). *)
Definition shapeCustomersByRole_in
    (scope_hasPermission : option (string -> string -> completion))
    (rawCustomers : dval) (userRole : string) : res dval :=
  match rawCustomers with
  | DArr _ =>
    if String.eqb userRole "" then ROk (DArr [])
    else
      allowed <~ (match scope_hasPermission with
                  | Some h => match h userRole "canViewCustomers" with
                              | Normal v => ROk (truthy v)
                              | Throw e => RThrow e
                              end
                  | None => RThrow "ReferenceError"
                  end) ;;
      if negb allowed then ROk (DArr [])
      else call_map rawCustomers (shape_customer userRole)
  | _ => ROk (DArr [])
  end.

(** part_004 imports nothing: [hasPermission] is unbound there. *)
Definition module_scope_hasPermission : option (string -> string -> completion) :=
  None.

Definition shapeCustomersByRole : dval -> string -> res dval :=
  shapeCustomersByRole_in module_scope_hasPermission.

End Orders.

(* ================================================================= *)
(** ** services/inventory/productsApi.js (part_006) *)

Module ProductsApi.
Local Open Scope string_scope.
Import JS Data.

Definition image_url : string :=
  "https://images.unsplash.com/photo-1505843490538-5133c6c7d0e1?w=100&q=80".

(** [margin: product.price && product.cost ? Math.round(((product.price -
    product.cost) / product.price) * 100 * 10) / 10 : 0], the rounded
    value kept symbolic as [DOp "round_margin" [price; cost]]. *)
Definition transform_product (product : dval) : res dval :=
  id <~ dget product "id" ;;
  name <~ dget product "name" ;;
  sku <~ dget product "sku" ;;
  product_type <~ dget product "product_type" ;;
  category <~ dget product "category" ;;
  unit <~ dget product "unit" ;;
  price <~ dget product "price" ;;
  cost <~ dget product "cost" ;;
  margin <~
    (p <~ dget product "price" ;;
     if dtruthy p then
       c <~ dget product "cost" ;;
       if dtruthy c then ROk (DOp "round_margin" [p; c]) else ROk (dnum 0)
     else ROk (dnum 0)) ;;
  created_at <~ dget product "created_at" ;;
  created_by <~ dget product "created_by" ;;
  ROk (DObj [("id", id); ("name", d_or name (dstr "Unknown Product"));
             ("sku", d_or sku (dstr "")); ("type", d_or product_type (dstr "product"));
             ("category", d_or category dnull); ("unit", d_or unit (dstr "pcs"));
             ("price", price); ("cost", d_or cost (dnum 0));
             ("status", dstr "active"); ("image", dstr image_url);
             ("stockLevel", dnum 0); ("minStockLevel", dnum 10);
             ("location", dstr "Warehouse A"); ("supplier", dstr "TBD");
             ("margin", margin); ("lastUpdated", created_at);
             ("createdBy", created_by)]).

Definition transformProductData (backendProducts : dval) : res dval :=
  match backendProducts with
  | DArr _ => call_map backendProducts transform_product
  | _ => ROk (DArr [])
  end.

Definition digit_char (d : Z) : Ascii.ascii := Ascii.ascii_of_nat (48 + Z.to_nat d).

Fixpoint decimal_digits (fuel : nat) (n : Z) (acc : string) : string :=
  match fuel with
  | O => acc
  | S f =>
    let acc' := String (digit_char (n mod 10)) acc in
    if (n <? 10)%Z then acc' else decimal_digits f (n / 10) acc'
  end.

(** [String(n)] for an integer [n]. *)
Definition decimal (n : Z) : string :=
  if (n <? 0)%Z
  then "-" ++ decimal_digits (Z.to_nat (Z.log2 (- n)) + 1) (- n) ""
  else decimal_digits (Z.to_nat (Z.log2 n) + 1) n "".

Section Create.

(** [String.prototype.toUpperCase] *)
Variable toUpperCase : string -> string.
(** [Date.now()] *)
Variable now : Z.

(** [v.toUpperCase()]: only a string has it. *)
Definition call_toUpperCase (v : dval) : res string :=
  match v with
  | DLeaf (JStr s) => ROk (toUpperCase s)
  | _ => RThrow "TypeError"
  end.

(** [createProduct], up to the POST: the [requestData] it sends. *)
Definition createProduct (productData : dval) : res dval :=
  s <~ dget productData "sku" ;;
  sku <~ (if dtruthy s then ROk s
          else pt <~ dget productData "product_type" ;;
               up <~ call_toUpperCase pt ;;
               ROk (dstr (up ++ "-" ++ decimal now))) ;;
  name <~ dget productData "name" ;;
  product_type <~ dget productData "product_type" ;;
  category <~ dget productData "category" ;;
  unit <~ dget productData "unit" ;;
  cost <~ dget productData "cost" ;;
  price <~ dget productData "price" ;;
  ROk (DObj [("name", name); ("sku", sku); ("product_type", product_type);
             ("category", d_or category dnull); ("unit", d_or unit (dstr "pcs"));
             ("cost", cost); ("price", price)]).

End Create.

End ProductsApi.

(* ================================================================= *)
(** ** pages/ProductsPage.jsx: the create form *)

Module ProductsPage.
Local Open Scope string_scope.
Import JS Data.

(** The [formData] state: every value is a string (an input's value), and
    a key is absent until set. None of the keys read is a property of
    [Object.prototype]. *)
Definition product_form := list (string * string).

Definition initial_product_form : product_form :=
  [("name", ""); ("product_type", "product"); ("cost", ""); ("category", "");
   ("unit", "pcs")].

Fixpoint form_get (k : string) (f : product_form) : option string :=
  match f with
  | [] => None
  | (k', v) :: f' => if String.eqb k k' then Some v else form_get k f'
  end.

(** [handleFormChange = (field, value) =>
       setFormData(prev => ({ ...prev, [field]: value }))] *)
Fixpoint handleFormChange (prev : product_form) (field value : string) : product_form :=
  match prev with
  | [] => [(field, value)]
  | (k, v) :: rest =>
    if String.eqb k field then (k, value) :: rest
    else (k, v) :: handleFormChange rest field value
  end.

Definition cost_message : string := "Cost must be at least 1.00 THB".

Section Create.

(** [String.prototype.trim] *)
Variable trim : string -> string.
(** [parseFloat] ([None]: NaN) *)
Variable parseFloat : string -> option Q.
Variable toUpperCase : string -> string.
Variable now : Z.

(** [s.trim()] on a form value; [undefined.trim()] throws. *)
Definition trim_field (o : option string) : res string :=
  match o with
  | Some s => ROk (trim s)
  | None => RThrow "TypeError"
  end.

(** [x < 1.0] (false for NaN) *)
Definition below_one (x : option Q) : bool :=
  match x with
  | Some q => negb (Qle_bool 1 q)
  | None => false
  end.

(** [handleCreateProduct], up to the POST of [createProduct]: [ROk body]
    is the request sent, [RThrow msg] the message set by
    [setCreateError]. *)
Definition handleCreateProduct (formData : product_form) : res dval :=
  name <~ trim_field (form_get "name" formData) ;;
  if String.eqb name "" then RThrow "Product name is required" else
  match form_get "cost" formData with
  | None => RThrow cost_message
  | Some c =>
    if String.eqb c "" || below_one (parseFloat c) then RThrow cost_message else
    let costValue := DOp "parseFloat" [dstr c] in
    name' <~ trim_field (form_get "name" formData) ;;
    sku <~ trim_field (form_get "sku" formData) ;;
    category <~ trim_field (form_get "category" formData) ;;
    let productData :=
      DObj [("name", dstr name');
            ("sku", if String.eqb sku "" then dnull else dstr sku);
            ("product_type", match form_get "product_type" formData with
                             | Some t => dstr t
                             | None => undef
                             end);
            ("cost", costValue); ("price", costValue);
            ("category", if String.eqb category "" then dnull else dstr category);
            ("unit", match form_get "unit" formData with
                     | Some u => if String.eqb u "" then dstr "pcs" else dstr u
                     | None => dstr "pcs"
                     end)] in
    ProductsApi.createProduct toUpperCase now productData
  end.

End Create.

End ProductsPage.

(* ================================================================= *)
(** ** pages/StockMovementPage.jsx: [canSubmit] and [handleFormChange] *)

Module MovementForm.
Local Open Scope string_scope.
Import Page.

Definition needsCostElement (fd : form_data) : bool :=
  String.eqb (fd_movement_type fd) "ISSUE" || String.eqb (fd_movement_type fd) "CONSUME".

Definition missingCostElement (fd : form_data) (selectedCostElementId : string) : bool :=
  needsCostElement fd && negb (nonempty selectedCostElementId).

(** [canSubmit], as the truth value the form uses. *)
Definition canSubmit (role : string) (fd : form_data) (selectedCostElementId : string) : bool :=
  canCreateMovements role &&
  nonempty (fd_product_id fd) &&
  nonempty (fd_qty_input fd) &&
  (negb (String.eqb (fd_movement_type fd) "RECEIVE") || nonempty (fd_unit_cost_input fd)) &&
  (negb (String.eqb (fd_movement_type fd) "CONSUME") || nonempty (fd_work_order_id fd)) &&
  (negb (String.eqb (fd_movement_type fd) "ISSUE") || nonempty (fd_cost_center fd)) &&
  negb (missingCostElement fd selectedCostElementId).

Inductive field :=
| FProductId | FMovementType | FWorkOrderId | FCostCenter | FCostElement
| FQtyInput | FUnitInput | FUnitCostInput | FNote.

(** [{ ...fd, [field]: v }] *)
Definition set_field (fd : form_data) (f : field) (v : string) : form_data :=
  {| fd_product_id := match f with FProductId => v | _ => fd_product_id fd end;
     fd_movement_type := match f with FMovementType => v | _ => fd_movement_type fd end;
     fd_work_order_id := match f with FWorkOrderId => v | _ => fd_work_order_id fd end;
     fd_cost_center := match f with FCostCenter => v | _ => fd_cost_center fd end;
     fd_cost_element := match f with FCostElement => v | _ => fd_cost_element fd end;
     fd_qty_input := match f with FQtyInput => v | _ => fd_qty_input fd end;
     fd_unit_input := match f with FUnitInput => v | _ => fd_unit_input fd end;
     fd_unit_cost_input := match f with FUnitCostInput => v | _ => fd_unit_cost_input fd end;
     fd_note := match f with FNote => v | _ => fd_note fd end |}.

(** A row of [workOrders] (its [cost_center] a code string). *)
Record work_order_row := { wr_id : Z; wr_cost_center : string }.

Section Change.

(** [wo.id == value]: a number compared with a string. *)
Variable loose_eq : Z -> string -> bool.

Fixpoint find_work_order (value : string) (l : list work_order_row)
  : option work_order_row :=
  match l with
  | [] => None
  | wo :: l' => if loose_eq (wr_id wo) value then Some wo else find_work_order value l'
  end.

(** [handleFormChange(field, value)]: the new [formData] and
    [selectedCostElementId]. [formData] is the state the handler closed
    over, [prev] the one React passes to the updater. The display label
    [derivedCostCenterLabel] is not modelled. *)
Definition handleFormChange (formData prev : form_data) (selectedCostElementId : string)
    (workOrders : list work_order_row) (f : field) (value : string)
  : form_data * string :=
  let updated := set_field prev f value in
  let '(updated, selected) :=
    match f with
    | FMovementType =>
      let u1 := if negb (String.eqb value "RECEIVE")
                then set_field (set_field updated FUnitCostInput "") FUnitInput "PCS"
                else updated in
      let u2 := if negb (String.eqb value "CONSUME")
                then set_field (set_field u1 FWorkOrderId "") FCostCenter ""
                else u1 in
      let u3 := if negb (String.eqb value "ISSUE")
                then set_field (set_field u2 FCostCenter "") FCostElement ""
                else u2 in
      (u3, "")
    | _ => (updated, selectedCostElementId)
    end in
  match f with
  | FWorkOrderId =>
    if nonempty value && String.eqb (fd_movement_type formData) "CONSUME" then
      match find_work_order value workOrders with
      | Some wo => (set_field updated FCostCenter (wr_cost_center wo), selected)
      | None => (updated, selected)
      end
    else (updated, selected)
  | _ => (updated, selected)
  end.

End Change.

End MovementForm.


(* ================================================================= *)
(** * Theorems *)

Module RoleProofs.
Import JS Roles Financial.
Local Open Scope string_scope.

(** A permission key defined for one of the three roles yields its
    boolean. *)
Lemma hasPermission_own_key (role perm : string) (perms : list (string * jsval)) (b : bool) :
  assoc role [(OWNER, JObj owner_permissions); (MANAGER, JObj manager_permissions);
              (STAFF, JObj staff_permissions)] = Some (JObj perms) ->
  assoc perm perms = Some (JBool b) ->
  hasPermission role perm = Normal (JBool b).
Proof.
  intros Hr Hp. unfold hasPermission, ROLE_PERMISSIONS.
  cbn [get]. rewrite Hr. cbn [bind get_opt get]. rewrite Hp.
  destruct b; reflexivity.
Qed.

Lemma function_get_canViewFinancials (f : string) (n : Z) :
  function_get f n "canViewFinancials" = Normal JUndefined.
Proof.
  unfold function_get. cbn.
  destruct (String.eqb f "Object"), (String.eqb f ""); reflexivity.
Qed.

Lemma get_opt_inherited_canViewFinancials (self : bool) (k : string) :
  get_opt (object_prototype_get self k) "canViewFinancials" = Normal JUndefined.
Proof.
  unfold object_prototype_get.
  destruct (String.eqb k "constructor"); [reflexivity|].
  destruct (String.eqb k "__proto__"); [destruct self; reflexivity|].
  destruct (lookup_method k object_prototype_methods); [|reflexivity].
  apply function_get_canViewFinancials.
Qed.

(** 'canViewFinancials' is falsy for every role string. *)
Lemma hasPermission_canViewFinancials (role : string) :
  hasPermission role "canViewFinancials" = Normal (JBool false).
Proof.
  unfold hasPermission, ROLE_PERMISSIONS. cbn [get assoc].
  destruct (String.eqb role OWNER); [reflexivity|].
  destruct (String.eqb role MANAGER); [reflexivity|].
  destruct (String.eqb role STAFF); [reflexivity|].
  cbn [bind]. rewrite get_opt_inherited_canViewFinancials. reflexivity.
Qed.

(** With [hasPermission] imported as in the sibling services, the body
    returns [null] for every argument. *)
Lemma shapeFinancialsByRole_imported_null (raw : jsval) (role : string) :
  shapeFinancialsByRole_imported raw role = Normal JNull.
Proof.
  unfold shapeFinancialsByRole_imported, shapeFinancialsByRole_in.
  destruct (negb (truthy raw) || String.eqb role ""); [reflexivity|].
  rewrite hasPermission_canViewFinancials. reflexivity.
Qed.

(** C9: [hasPermission] does not always return [true] or [false]: for a
    permission name inherited from [Object.prototype] it returns that
    inherited function ('owner', 'toString'), and a role name inherited
    from [Object.prototype] can make it throw ('constructor', 'caller'). *)
Theorem hasPermission_inherited_keys :
  hasPermission "owner" "toString" = Normal (JFun "toString" 0) /\
  hasPermission "constructor" "caller" = Throw "TypeError".
Proof. split; reflexivity. Qed.

(** C10: for a truthy financial object and a non-empty role,
    [shapeFinancialsByRole] throws a ReferenceError ([hasPermission] is
    not bound in its module) instead of returning [null]. *)
Theorem shapeFinancialsByRole_throws (raw : jsval) (role : string) :
  truthy raw = true -> role <> "" ->
  shapeFinancialsByRole raw role = Throw "ReferenceError".
Proof.
  intros Hraw Hrole. unfold shapeFinancialsByRole, shapeFinancialsByRole_in.
  rewrite Hraw. apply String.eqb_neq in Hrole. rewrite Hrole. reflexivity.
Qed.

Lemma shapeFinancialsByRole_throws_witness :
  truthy MOCK_FINANCIALS = true /\ "owner" <> "" /\
  shapeFinancialsByRole MOCK_FINANCIALS "owner" = Throw "ReferenceError".
Proof.
  split; [reflexivity|]. split; [discriminate|].
  apply shapeFinancialsByRole_throws; [reflexivity | discriminate].
Defined.

End RoleProofs.

Module EngineProofs.
Import Engine.
Open Scope Q_scope.

Lemma Qltb_true (a b : Q) : Qltb a b = true <-> a < b.
Proof.
  unfold Qltb. rewrite negb_true_iff. split; intro H.
  - apply Qnot_le_lt. intro Hle. apply Qle_bool_iff in Hle. congruence.
  - destruct (Qle_bool b a) eqn:E; [|reflexivity].
    apply Qle_bool_iff in E. exfalso. apply (Qlt_not_le a b); assumption.
Qed.

Lemma Qltb_false (a b : Q) : Qltb a b = false <-> b <= a.
Proof.
  unfold Qltb. rewrite negb_false_iff. apply Qle_bool_iff.
Qed.

Lemma find_balance_set (q p : nat) (v : Q) (l : list (nat * Q)) :
  find_balance q (set_balance p v l) =
  if Nat.eqb q p then Some v else find_balance q l.
Proof.
  induction l as [|[p' v'] l IH]; simpl.
  - destruct (Nat.eqb q p); reflexivity.
  - destruct (Nat.eqb_spec p p') as [->|Hne]; simpl.
    + destruct (Nat.eqb q p'); reflexivity.
    + rewrite IH. destruct (Nat.eqb_spec q p) as [->|Hq]; [|reflexivity].
      apply Nat.eqb_neq in Hne. rewrite Hne. reflexivity.
Qed.

Lemma on_hand_set (st : state) (q p : nat) (v : Q) ms n :
  on_hand {| balances := set_balance p v (balances st); movements := ms; next_id := n |} q =
  if Nat.eqb q p then v else on_hand st q.
Proof.
  unfold on_hand. simpl. rewrite find_balance_set. destruct (Nat.eqb q p); reflexivity.
Qed.

Lemma sum_product_snoc (p : nat) (ms : list movement) (m : movement) :
  sum_product p (ms ++ [m]) =
  if Nat.eqb p (mv_product m) then sum_product p ms + qty_base m else sum_product p ms.
Proof. unfold sum_product. rewrite fold_left_app. reflexivity. Qed.

(** Shape of a prepared intent. *)
Lemma prepare_ok (md : master_data) (rq : movement_request) (i : intent) :
  prepare md rq = Ok i ->
  authorize (rq_role rq) (rq_type rq) = true /\ validate rq = None /\
  exists cc ce, allocate md rq = Ok (cc, ce) /\
  i = {| in_product := rq_product rq;
         in_type := rq_type rq;
         in_qty_input := rq_qty rq;
         in_unit := rq_unit rq;
         in_qty_base := signed (rq_type rq) (rq_qty rq * factor (rq_unit rq));
         in_unit_cost_input := rq_unit_cost rq;
         in_unit_cost_base := option_map (fun c => c / factor (rq_unit rq)) (rq_unit_cost rq);
         in_cost_center := cc;
         in_cost_element := ce;
         in_work_order := match rq_type rq with
                          | CONSUME => rq_work_order_id rq
                          | _ => None
                          end;
         in_by := rq_role rq |}.
Proof.
  unfold prepare. destruct (authorize (rq_role rq) (rq_type rq)); [|discriminate].
  destruct (validate rq); [discriminate|]. simpl.
  destruct (allocate md rq) as [[cc ce]|e]; [|discriminate].
  intro H. injection H as <-. split; [reflexivity|]. split; [reflexivity|].
  exists cc, ce. split; reflexivity.
Qed.

(** Outcome of the Ledger Writer, by cases on the rejection test. *)
Lemma ledger_commit_cases (st : state) (i : intent) (v : Q) :
  (v + in_qty_base i < 0 /\ ledger_commit st i v = (Err InsufficientStockError, st)) \/
  (0 <= v + in_qty_base i /\ exists m,
     ledger_commit st i v =
       (Ok m, {| balances := set_balance (in_product i) (v + in_qty_base i) (balances st);
                 movements := movements st ++ [m];
                 next_id := S (next_id st) |}) /\
     mv_product m = in_product i /\ mv_type m = in_type i /\
     qty_input m = in_qty_input i /\ unit_input m = in_unit i /\
     qty_base m = in_qty_base i /\ unit_cost_input m = in_unit_cost_input i /\
     unit_cost_base m = in_unit_cost_base i /\
     balance_after m = v + in_qty_base i /\
     cost_center_ref m = in_cost_center i /\ cost_element_ref m = in_cost_element i /\
     work_order_id m = in_work_order i).
Proof.
  unfold ledger_commit. destruct (Qltb (v + in_qty_base i) 0) eqn:E.
  - left. split; [apply Qltb_true; exact E | reflexivity].
  - right. split; [apply Qltb_false; exact E|].
    eexists. split; [reflexivity|]. repeat split.
Qed.

Lemma create_movement_err (md : master_data) (st st' : state) (rq : movement_request) e :
  create_movement md st rq = (Err e, st') -> st' = st.
Proof.
  unfold create_movement, ledger_write.
  destruct (prepare md rq) as [i|e']; [|intro H; injection H; auto].
  destruct (ledger_commit_cases st i (on_hand st (in_product i)))
    as [[_ ->]|[_ [m [-> _]]]]; intro H; injection H; auto; discriminate.
Qed.

Lemma create_movement_nonneg (md : master_data) (st : state) (rq : movement_request) :
  (forall p, 0 <= on_hand st p) ->
  forall p, 0 <= on_hand (snd (create_movement md st rq)) p.
Proof.
  intros Hnn p. unfold create_movement, ledger_write.
  destruct (prepare md rq) as [i|e]; [|apply Hnn].
  destruct (ledger_commit_cases st i (on_hand st (in_product i)))
    as [[_ ->]|[Hge [m [-> _]]]]; [apply Hnn|].
  simpl snd. rewrite on_hand_set. destruct (Nat.eqb p (in_product i)); auto.
Qed.

Lemma run_nonneg (md : master_data) (rqs : list movement_request) :
  forall st, (forall p, 0 <= on_hand st p) -> forall p, 0 <= on_hand (run md st rqs) p.
Proof.
  unfold run. induction rqs as [|rq rqs IH]; intros st Hnn; simpl.
  - exact Hnn.
  - apply IH. apply create_movement_nonneg. exact Hnn.
Qed.

Lemma on_hand_init (p : nat) : on_hand init_state p = 0.
Proof. reflexivity. Qed.

(** C2: a movement that would drive its product's on-hand quantity below
    zero is rejected with InsufficientStockError and leaves the state
    (balances and movement log) as it was; hence every state reached from
    the empty ledger has non-negative on-hand quantities. *)
Theorem create_movement_insufficient (md : master_data) (st : state)
    (rq : movement_request) (i : intent) :
  prepare md rq = Ok i ->
  on_hand st (in_product i) + in_qty_base i < 0 ->
  create_movement md st rq = (Err InsufficientStockError, st) /\
  (forall rqs p, 0 <= on_hand (run md init_state rqs) p).
Proof.
  intros Hp Hneg. split.
  - unfold create_movement, ledger_write. rewrite Hp.
    destruct (ledger_commit_cases st i (on_hand st (in_product i)))
      as [[_ ->]|[Hge _]]; [reflexivity|].
    exfalso. apply (Qlt_not_le _ _ Hneg). exact Hge.
  - intros rqs p. apply run_nonneg. intro q. rewrite on_hand_init. apply Qle_refl.
Qed.

Lemma create_movement_insufficient_witness :
  create_movement Scenarios.md_demo Scenarios.st_100 (Scenarios.issue_rq MANAGER 5 150)
    = (Err InsufficientStockError, Scenarios.st_100) /\
  (forall rqs p, 0 <= on_hand (run Scenarios.md_demo init_state rqs) p).
Proof.
  eapply create_movement_insufficient.
  - cbv. reflexivity.
  - vm_compute. reflexivity.
Defined.

(** The ledger invariant: on-hand quantities are the sums of the logged
    base quantities, and every logged [balance_after] is the prefix sum
    up to and including its movement. *)
Definition ledger_inv (st : state) : Prop :=
  (forall p, on_hand st p == sum_product p (movements st)) /\
  (forall k, match nth_error (movements st) k with
             | Some m => balance_after m == sum_product (mv_product m) (firstn (S k) (movements st))
             | None => True
             end).

Lemma ledger_inv_init : ledger_inv init_state.
Proof.
  split.
  - intro p. reflexivity.
  - intro k. destruct k; reflexivity.
Qed.

Lemma ledger_inv_step (md : master_data) (st : state) (rq : movement_request) :
  ledger_inv st -> ledger_inv (snd (create_movement md st rq)).
Proof.
  intros [Hsum Hpre]. unfold create_movement, ledger_write.
  destruct (prepare md rq) as [i|e]; [|split; assumption].
  destruct (ledger_commit_cases st i (on_hand st (in_product i)))
    as [[_ ->]|[_ [m [-> [Hprod [_ [_ [_ [Hqb [_ [_ [Hba _]]]]]]]]]]]];
    [split; assumption|].
  simpl snd. split.
  - intro p. rewrite on_hand_set. cbn [movements]. rewrite sum_product_snoc.
    rewrite Hprod. destruct (Nat.eqb_spec p (in_product i)) as [->|Hne].
    + rewrite Hsum, Hqb. reflexivity.
    + apply Hsum.
  - intro k. cbn [movements].
    destruct (Nat.lt_ge_cases k (length (movements st))) as [Hlt|Hge].
    + rewrite nth_error_app1 by exact Hlt.
      rewrite firstn_app.
      replace (S k - length (movements st))%nat with O by lia.
      rewrite app_nil_r. apply Hpre.
    + rewrite nth_error_app2 by exact Hge.
      destruct (k - length (movements st))%nat as [|j] eqn:E.
      * cbn [nth_error]. assert (k = length (movements st)) as -> by lia.
        rewrite firstn_all2 by (rewrite length_app; simpl; lia).
        rewrite sum_product_snoc, Nat.eqb_refl, Hba, Hprod, Hqb, Hsum. reflexivity.
      * destruct j; reflexivity.
Qed.

(** C3: after any sequence of requests processed from the empty ledger,
    every product's on-hand quantity equals the sum of [qty_base] over its
    committed movements in commit order, and each movement's
    [balance_after] equals that sum up to and including the movement. *)
Theorem run_prefix_sums (md : master_data) (rqs : list movement_request) :
  (forall p, on_hand (run md init_state rqs) p
             == sum_product p (movements (run md init_state rqs))) /\
  (forall k, match nth_error (movements (run md init_state rqs)) k with
             | Some m => balance_after m
                         == sum_product (mv_product m) (firstn (S k) (movements (run md init_state rqs)))
             | None => True
             end).
Proof.
  assert (H : forall st, ledger_inv st -> ledger_inv (run md st rqs)).
  { unfold run. induction rqs as [|rq rqs IH]; intros st Hinv; simpl.
    - exact Hinv.
    - apply IH. apply ledger_inv_step. exact Hinv. }
  apply H. apply ledger_inv_init.
Qed.

Lemma factor_nonzero (u : unit_of_measure) : ~ factor u == 0.
Proof. destruct u; cbv; discriminate. Qed.

(** The converter preserves the total value. *)
Lemma convert_value (qty c : Q) (u : unit_of_measure) :
  fst (convert qty u (Some c)) * (c / factor u) == qty * c.
Proof.
  simpl. field. apply factor_nonzero.
Qed.

(** C4: every RECEIVE movement the engine commits, in any supported unit,
    carries [qty_base = qty_input * factor(unit_input)] and
    [unit_cost_base = unit_cost_input / factor(unit_input)], hence
    [qty_base * unit_cost_base == qty_input * unit_cost_input]. *)
Theorem receive_conversion_invariant (md : master_data) (st st' : state)
    (rq : movement_request) (m : movement) :
  create_movement md st rq = (Ok m, st') ->
  mv_type m = RECEIVE ->
  exists ci cb,
    unit_cost_input m = Some ci /\ unit_cost_base m = Some cb /\
    qty_base m == qty_input m * factor (unit_input m) /\
    cb == ci / factor (unit_input m) /\
    qty_base m * cb == qty_input m * ci.
Proof.
  unfold create_movement, ledger_write.
  destruct (prepare md rq) as [i|e] eqn:Hp; [|discriminate].
  apply prepare_ok in Hp as [_ [Hval [cc [ce [_ ->]]]]].
  lazymatch goal with |- context [ledger_commit st ?i ?v] =>
    destruct (ledger_commit_cases st i v)
    as [[_ ->]|[_ [m' [-> [_ [Hty [Hqi [Hu [Hqb [Hci [Hcb _]]]]]]]]]]] end; [discriminate|].
  intros H Hrec. injection H as <- _. cbn in Hty, Hqi, Hu, Hqb, Hci, Hcb.
  rewrite Hrec in Hty.
  unfold validate in Hval. rewrite <- Hty in Hval.
  destruct (is_some (rq_cost_center rq)); [discriminate|].
  destruct (is_some (rq_cost_element rq)); [discriminate|].
  destruct (negb (Qltb 0 (rq_qty rq))); [discriminate|].
  destruct (rq_unit_cost rq) as [c|] eqn:Hc; [|discriminate].
  exists c, (c / factor (rq_unit rq)).
  rewrite Hci, Hcb, Hqb, Hqi, Hu, <- Hty. simpl signed.
  repeat split; try reflexivity.
  field. apply factor_nonzero.
Qed.

Lemma receive_conversion_invariant_witness :
  exists ci cb,
    unit_cost_input Scenarios.dozen_movement = Some ci /\
    unit_cost_base Scenarios.dozen_movement = Some cb /\
    qty_base Scenarios.dozen_movement
      == qty_input Scenarios.dozen_movement * factor (unit_input Scenarios.dozen_movement) /\
    cb == ci / factor (unit_input Scenarios.dozen_movement) /\
    qty_base Scenarios.dozen_movement * cb == qty_input Scenarios.dozen_movement * ci.
Proof.
  apply (receive_conversion_invariant Scenarios.md_demo init_state
           (snd (create_movement Scenarios.md_demo init_state Scenarios.dozen_receive))
           Scenarios.dozen_receive).
  - vm_compute. reflexivity.
  - vm_compute. reflexivity.
Defined.

(** A request with another (numeric) cost center id. *)
Definition with_cost_center_id (rq : movement_request) (x : option nat) : movement_request :=
  {| rq_role := rq_role rq; rq_product := rq_product rq; rq_type := rq_type rq;
     rq_qty := rq_qty rq; rq_unit := rq_unit rq; rq_unit_cost := rq_unit_cost rq;
     rq_cost_center_id := x; rq_cost_element_id := rq_cost_element_id rq;
     rq_work_order_id := rq_work_order_id rq; rq_cost_center := rq_cost_center rq;
     rq_cost_element := rq_cost_element rq |}.

Lemma wo_status_eqb_open (s : wo_status) : wo_status_eqb s OPEN = true <-> s = OPEN.
Proof. destruct s; split; intro H; try reflexivity; discriminate H. Qed.

(** The page never posts the legacy string fields, and posts a
    [cost_center_id] only for ISSUE. *)
Lemma handleSubmit_keys (role : string) (fd : Page.form_data) (sel : string)
    (ccs : list Page.cost_center_row) (body : Page.payload) :
  Page.handleSubmit role fd sel ccs = Page.Posted body ->
  Page.has_key "cost_center" body = false /\ Page.has_key "cost_element" body = false /\
  (String.eqb (Page.fd_movement_type fd) "ISSUE" = false ->
   Page.has_key "cost_center_id" body = false).
Proof.
  unfold Page.handleSubmit.
  repeat match goal with
         | |- context [if ?b then _ else _] => destruct b
         end;
  intro H; try discriminate; injection H as <-; repeat split;
  try reflexivity; intro HI; discriminate HI.
Qed.

(** C5: for a CONSUME request, (1) a committed movement comes from a
    request without the legacy [cost_center] field, references an
    existing OPEN work order and takes that work order's cost center;
    (2) a request naming an unknown or non-OPEN work order is never
    committed and leaves the state (so every balance) unchanged, and
    once it has passed the Authorization Gate and the Movement Validator
    that run before the work-order check, its error is ReferenceError;
    (3) the caller's numeric [cost_center_id] has no effect on the
    outcome; and (4) the page posts no cost center field for CONSUME. *)
Theorem consume_work_order_allocation (md : master_data) (st : state)
    (rq : movement_request) :
  rq_type rq = CONSUME ->
  (forall m st', create_movement md st rq = (Ok m, st') ->
     rq_cost_center rq = None /\
     exists wid w, rq_work_order_id rq = Some wid /\
       find_work_order wid (work_orders md) = Some w /\ wo_state w = OPEN /\
       cost_center_ref m = Some (wo_cost_center w) /\ work_order_id m = Some wid) /\
  (forall wid, rq_work_order_id rq = Some wid ->
   match find_work_order wid (work_orders md) with
   | Some w => wo_state w <> OPEN
   | None => True
   end ->
   exists e, create_movement md st rq = (Err e, st) /\
     (authorize (rq_role rq) CONSUME = true -> validate rq = None -> e = ReferenceError)) /\
  (forall x, create_movement md st (with_cost_center_id rq x) = create_movement md st rq) /\
  (forall role fd sel ccs body,
     Page.fd_movement_type fd = "CONSUME"%string ->
     Page.handleSubmit role fd sel ccs = Page.Posted body ->
     Page.has_key "cost_center" body = false /\ Page.has_key "cost_center_id" body = false).
Proof.
  intro Hty. split; [|split; [|split]].
  - intros m st'. unfold create_movement, ledger_write.
    destruct (prepare md rq) as [i|e] eqn:Hp; [|discriminate].
    apply prepare_ok in Hp as [_ [Hval [cc [ce [Halloc ->]]]]].
    lazymatch goal with |- context [ledger_commit st ?i ?v] =>
      destruct (ledger_commit_cases st i v)
      as [[_ ->]|[_ [m' [-> [_ [_ [_ [_ [_ [_ [_ [_ [Hcc [_ Hwo]]]]]]]]]]]]]] end;
      [discriminate|].
    intro H. injection H as <- _. cbn in Hcc, Hwo. rewrite Hty in Hwo.
    split.
    { unfold validate in Hval. destruct (rq_cost_center rq); [discriminate|reflexivity]. }
    unfold allocate in Halloc. rewrite Hty in Halloc.
    destruct (rq_work_order_id rq) as [wid|] eqn:Hwid; [|discriminate].
    destruct (find_work_order wid (work_orders md)) as [w|] eqn:Hfind; [|discriminate].
    destruct (wo_status_eqb (wo_state w) OPEN) eqn:Hst; [|discriminate].
    destruct (resolve_active (rq_cost_element_id rq) (cost_elements md)); [|discriminate].
    injection Halloc as <- <-.
    exists wid, w. apply wo_status_eqb_open in Hst.
    repeat split; first [assumption | reflexivity | congruence].
  - intros wid Hwid Hw. unfold create_movement, prepare.
    rewrite Hty.
    destruct (authorize (rq_role rq) CONSUME) eqn:Hauth; cbn [negb].
    2:{ eexists; split; [reflexivity|discriminate]. }
    destruct (validate rq) as [v|] eqn:Hval.
    { eexists; split; [reflexivity|discriminate]. }
    cbn -[allocate].
    assert (Ha : allocate md rq = Err ReferenceError).
    { unfold allocate. rewrite Hty, Hwid.
      destruct (find_work_order wid (work_orders md)) as [w|]; [|reflexivity].
      destruct (wo_status_eqb (wo_state w) OPEN) eqn:Hst; [|reflexivity].
      apply wo_status_eqb_open in Hst. contradiction. }
    rewrite Ha. eexists; split; [reflexivity|reflexivity].
  - intro x. destruct rq; cbn in Hty; subst. reflexivity.
  - intros role fd sel ccs body Hfd Hpost.
    destruct (handleSubmit_keys role fd sel ccs body Hpost) as [Hc [_ Hid]].
    split; [exact Hc|]. apply Hid. rewrite Hfd. reflexivity.
Qed.

Lemma consume_work_order_allocation_witness :
  (forall m st', create_movement Scenarios.md_demo Scenarios.st_100
                   (Scenarios.consume_rq MANAGER 5 10 4) = (Ok m, st') ->
     rq_cost_center (Scenarios.consume_rq MANAGER 5 10 4) = None /\
     exists wid w, rq_work_order_id (Scenarios.consume_rq MANAGER 5 10 4) = Some wid /\
       find_work_order wid (work_orders Scenarios.md_demo) = Some w /\ wo_state w = OPEN /\
       cost_center_ref m = Some (wo_cost_center w) /\ work_order_id m = Some wid) /\
  create_movement Scenarios.md_demo Scenarios.st_100 (Scenarios.consume_rq MANAGER 5 10 4)
    = (Err ReferenceError, Scenarios.st_100).
Proof.
  destruct (consume_work_order_allocation Scenarios.md_demo Scenarios.st_100
              (Scenarios.consume_rq MANAGER 5 10 4) eq_refl) as [H1 [H2 _]].
  split; [exact H1|].
  destruct (H2 4%nat eq_refl) as [e [He Hre]]; [discriminate|].
  rewrite He, (Hre eq_refl eq_refl). reflexivity.
Defined.

(** C7: a request carrying a legacy string-coded [cost_center] or
    [cost_element] field is rejected with the ValidationError naming that
    field (cost_center first) once its role may create its movement type,
    the Authorization Gate being evaluated before the Movement Validator
    (AuthorizationError otherwise); either way the state is unchanged.
    The page itself never posts these fields. *)
Theorem deprecated_fields_rejected (md : master_data) (st : state) (rq : movement_request) :
  is_some (rq_cost_center rq) || is_some (rq_cost_element rq) = true ->
  create_movement md st rq =
    (Err (if authorize (rq_role rq) (rq_type rq)
          then ValidationError (DeprecatedField (if is_some (rq_cost_center rq)
                                                 then "cost_center"%string
                                                 else "cost_element"%string))
          else AuthorizationError), st) /\
  (forall role fd sel ccs body,
     Page.handleSubmit role fd sel ccs = Page.Posted body ->
     Page.has_key "cost_center" body = false /\ Page.has_key "cost_element" body = false).
Proof.
  intro Hleg. split.
  - unfold create_movement, prepare.
    destruct (authorize (rq_role rq) (rq_type rq)); [|reflexivity]. cbn [negb].
    unfold validate.
    destruct (is_some (rq_cost_center rq)); [reflexivity|].
    destruct (is_some (rq_cost_element rq)); [reflexivity|discriminate].
  - intros role fd sel ccs body Hpost.
    destruct (handleSubmit_keys role fd sel ccs body Hpost) as [H1 [H2 _]].
    split; assumption.
Qed.

Lemma deprecated_fields_rejected_witness :
  create_movement Scenarios.md_demo Scenarios.st_100
    (Scenarios.with_legacy_cost_center (Scenarios.issue_rq STAFF 5 60) "CC-01")
  = (Err (ValidationError (DeprecatedField "cost_center")), Scenarios.st_100).
Proof.
  apply (deprecated_fields_rejected Scenarios.md_demo Scenarios.st_100
           (Scenarios.with_legacy_cost_center (Scenarios.issue_rq STAFF 5 60) "CC-01")).
  reflexivity.
Defined.

(** C1 (as amended): the engine's Authorization Gate allows exactly the
    pairs of the matrix of 4.1 and fails a denied pair with
    AuthorizationError before any other stage, leaving the state
    unchanged; StockMovementPage.jsx refuses every submission of a
    'staff' user (ISSUE included) before any validation or request, and
    refuses no other role on role grounds. *)
Theorem authorization_gate (md : master_data) (st : state) (rq : movement_request) :
  (authorize (rq_role rq) (rq_type rq) = false ->
   create_movement md st rq = (Err AuthorizationError, st)) /\
  (authorize OWNER RECEIVE = true /\ authorize MANAGER RECEIVE = true /\
   authorize STAFF RECEIVE = false /\
   authorize OWNER ISSUE = true /\ authorize MANAGER ISSUE = true /\
   authorize STAFF ISSUE = true /\
   authorize OWNER CONSUME = true /\ authorize MANAGER CONSUME = true /\
   authorize STAFF CONSUME = false /\
   authorize OWNER ADJUST = true /\ authorize MANAGER ADJUST = false /\
   authorize STAFF ADJUST = false) /\
  (forall fd sel ccs,
     Page.handleSubmit "staff" fd sel ccs = Page.Refused "Staff users have read-only access") /\
  (forall role fd sel ccs msg,
     Page.handleSubmit role fd sel ccs = Page.Refused msg -> role = "staff"%string).
Proof.
  split; [|split; [|split]].
  - intro Hd. unfold create_movement, prepare. rewrite Hd. reflexivity.
  - repeat split.
  - intros. reflexivity.
  - intros role fd sel ccs msg. unfold Page.handleSubmit.
    destruct (String.eqb_spec role "staff") as [->|_]; [reflexivity|].
    repeat match goal with
           | |- context [if ?b then _ else _] => destruct b
           end; discriminate.
Qed.

Lemma authorization_gate_witness :
  create_movement Scenarios.md_demo Scenarios.st_100 (Scenarios.base_request MANAGER 5 ADJUST (-5))
    = (Err AuthorizationError, Scenarios.st_100).
Proof.
  apply (authorization_gate Scenarios.md_demo Scenarios.st_100
           (Scenarios.base_request MANAGER 5 ADJUST (-5))).
  reflexivity.
Defined.

(** C1 as stated fails: the matrix lets STAFF create ISSUE movements, but
    StockMovementPage.jsx refuses a filled-in ISSUE form of a 'staff'
    user, while it posts the same form for a 'manager'. *)
Lemma staff_issue_refused_by_page :
  authorize STAFF ISSUE = true /\
  Page.handleSubmit (Page.userRole (Some "staff"%string)) Scenarios.issue_form "7"
                    Scenarios.demo_cost_centers
    = Page.Refused "Staff users have read-only access" /\
  Page.handleSubmit (Page.userRole (Some "manager"%string)) Scenarios.issue_form "7"
                    Scenarios.demo_cost_centers
    = Page.Posted [("product_id", Page.PParseInt "5"); ("movement_type", Page.PStr "ISSUE");
                   ("qty_input", Page.PParseFloat "60"); ("unit_input", Page.PStr "PCS");
                   ("unit_cost_input", Page.PNull); ("note", Page.PNull);
                   ("cost_center_id", Page.PId 1); ("cost_element_id", Page.PParseInt "7")]%string.
Proof. split; [reflexivity | split; reflexivity]. Qed.

(** C6: creating a MATERIAL product with cost below 1.00 fails with the
    ValidationError of the cost floor and leaves the catalog unchanged; at
    cost 1.00 or more this rule does not reject it. *)
Theorem material_cost_floor (cat : catalog) (pi : product_input) :
  pi_type pi = MATERIAL ->
  (pi_cost pi < 1 ->
   create_product cat pi = (Err (ValidationError MaterialCostBelowFloor), cat)) /\
  (1 <= pi_cost pi ->
   fst (create_product cat pi) <> Err (ValidationError MaterialCostBelowFloor)).
Proof.
  intro Hmat. unfold create_product. rewrite Hmat. cbn [is_material andb]. split.
  - intro Hlt. apply Qltb_true in Hlt. rewrite Hlt. reflexivity.
  - intro Hge. apply Qltb_false in Hge. rewrite Hge.
    destruct (existsb _ (products cat)); discriminate.
Qed.

Lemma material_cost_floor_witness :
  create_product Scenarios.empty_catalog Scenarios.cheap_material
    = (Err (ValidationError MaterialCostBelowFloor), Scenarios.empty_catalog).
Proof.
  apply (material_cost_floor Scenarios.empty_catalog Scenarios.cheap_material eq_refl).
  vm_compute. reflexivity.
Defined.

End EngineProofs.

Module ConcurrencyProofs.
Import Engine Concurrent.
Open Scope Q_scope.

Lemma thread_next_complete (md : master_data) (tid : nat) s s' :
  thread_step md tid s s' -> thread_next md tid s = Some s'.
Proof.
  intro H. inversion H; subst; cbn [thread_next].
  - rewrite H0. reflexivity.
  - rewrite H0. reflexivity.
  - rewrite H0. reflexivity.
  - rewrite H0. reflexivity.
  - rewrite H0, H1. reflexivity.
Qed.

Lemma thread_next_sound (md : master_data) (tid : nat) s s' :
  thread_next md tid s = Some s' -> thread_step md tid s s'.
Proof.
  destruct s as [[st l] ph]. cbn [thread_next].
  destruct ph as [rq|i|i|i v|r].
  - destruct (prepare md rq) eqn:E; intro H; injection H as <-; constructor; exact E.
  - destruct (holder (in_product i) l) eqn:E; [discriminate|].
    intro H; injection H as <-; constructor; exact E.
  - destruct (holds tid (in_product i) l) eqn:E; [|discriminate].
    intro H; injection H as <-; constructor; exact E.
  - destruct (holds tid (in_product i) l) eqn:E; [|discriminate].
    destruct (ledger_commit st i v) as [r st'] eqn:Ec.
    intro H; injection H as <-; econstructor; eassumption.
  - discriminate.
Qed.

Lemma successors_complete (md : master_data) (c c' : config) :
  step md c c' -> In c' (successors md c).
Proof.
  intro H. destruct H as [st l p1 p2 st' l' p1' Ht|st l p1 p2 st' l' p2' Ht];
    apply thread_next_complete in Ht; cbn [successors]; rewrite Ht.
  - left. reflexivity.
  - apply in_or_app. right. left. reflexivity.
Qed.

Lemma successors_sound (md : master_data) (c c' : config) :
  In c' (successors md c) -> step md c c'.
Proof.
  destruct c as [st l p1 p2]. cbn [successors]. intro H.
  apply in_app_or in H as [H|H].
  - destruct (thread_next md 1 (st, l, p1)) as [[[st' l'] p1']|] eqn:E; [|destruct H].
    destruct H as [<-|[]]. constructor. apply thread_next_sound. exact E.
  - destruct (thread_next md 2 (st, l, p2)) as [[[st' l'] p2']|] eqn:E; [|destruct H].
    destruct H as [<-|[]]. constructor. apply thread_next_sound. exact E.
Qed.

Lemma thread_step_weight (md : master_data) (tid : nat) st l ph st' l' ph' :
  thread_step md tid (st, l, ph) (st', l', ph') -> (weight ph' < weight ph)%nat.
Proof. intro H. inversion H; subst; cbn; lia. Qed.

Lemma step_measure (md : master_data) (c c' : config) :
  step md c c' -> (measure c' < measure c)%nat.
Proof.
  intro H. destruct H as [st l p1 p2 st' l' p1' Ht|st l p1 p2 st' l' p2' Ht];
    apply thread_step_weight in Ht; unfold measure; cbn; lia.
Qed.

(** Every configuration where no caller can move, reached from [c],
    is among [finals md fuel c] once the fuel covers the remaining steps. *)
Lemma finals_complete (md : master_data) (c c' : config) :
  star md c c' -> successors md c' = [] ->
  forall fuel, (measure c <= fuel)%nat -> In c' (finals md fuel c).
Proof.
  intro Hs. induction Hs as [c|c1 c2 c3 H12 H23 IH]; intros Hend fuel Hf.
  - destruct fuel; cbn [finals]; [left; reflexivity|].
    rewrite Hend. left. reflexivity.
  - pose proof (step_measure md c1 c2 H12) as Hm.
    destruct fuel as [|f]; [lia|]. cbn [finals].
    pose proof (successors_complete md c1 c2 H12) as Hin.
    destruct (successors md c1) as [|c0 cs] eqn:E; [destruct Hin|].
    rewrite <- E. apply in_flat_map. exists c2. split.
    + rewrite E. exact Hin.
    + apply IH; [exact Hend | lia].
Qed.

Lemma finals_sound (md : master_data) (fuel : nat) :
  forall c c', In c' (finals md fuel c) -> star md c c'.
Proof.
  induction fuel as [|f IH]; intros c c' H; cbn [finals] in H.
  - destruct H as [<-|[]]. constructor.
  - destruct (successors md c) as [|c0 cs] eqn:E.
    + destruct H as [<-|[]]. constructor.
    + rewrite <- E in H. apply in_flat_map in H as [c2 [Hin Hf]].
      econstructor; [apply successors_sound; exact Hin | apply IH; exact Hf].
Qed.

Lemma race_finals_ok :
  forallb Scenarios.race_ok (finals Scenarios.md_demo 8 Scenarios.race_start) = true.
Proof. vm_compute. reflexivity. Qed.

(** C8: with product 5 at on_hand 100 and two callers each issuing 60
    units of it, every interleaving runs until both callers have finished
    (no caller is left blocked), exactly one of them commits and the other
    gets InsufficientStockError, and product 5 ends at 40. *)
Theorem concurrent_issues_serialize (c : config) :
  star Scenarios.md_demo Scenarios.race_start c ->
  successors Scenarios.md_demo c = [] ->
  on_hand (c_state Scenarios.race_start) 5 == 100 /\
  Scenarios.race_ok c = true.
Proof.
  intros Hs Hend. split; [vm_compute; reflexivity|].
  pose proof (finals_complete _ _ _ Hs Hend 8 (le_n 8)) as Hin.
  pose proof race_finals_ok as Hall. rewrite forallb_forall in Hall.
  apply Hall. exact Hin.
Qed.

(** The interleaving in which caller 1 runs first. *)
Definition race_first_final : config :=
  hd Scenarios.race_start (finals Scenarios.md_demo 8 Scenarios.race_start).

Lemma concurrent_issues_serialize_witness :
  star Scenarios.md_demo Scenarios.race_start race_first_final /\
  successors Scenarios.md_demo race_first_final = [] /\
  on_hand (c_state Scenarios.race_start) 5 == 100 /\
  Scenarios.race_ok race_first_final = true.
Proof.
  assert (Hs : star Scenarios.md_demo Scenarios.race_start race_first_final).
  { apply (finals_sound _ 8). vm_compute. left. reflexivity. }
  assert (He : successors Scenarios.md_demo race_first_final = []).
  { vm_compute. reflexivity. }
  split; [exact Hs|]. split; [exact He|].
  exact (concurrent_issues_serialize race_first_final Hs He).
Defined.

End ConcurrencyProofs.

(* ================================================================= *)
(** ** Further properties of the role, service and form code *)

Module RoleExtraProofs.
Import JS Roles RolesApi.
Local Open Scope string_scope.

Lemma lookup_method_absent (k : string) (l : list (string * Z)) :
  existsb (String.eqb k) (map fst l) = false -> lookup_method k l = None.
Proof.
  induction l as [|[k' n] l IH]; cbn; [reflexivity|].
  destruct (String.eqb k k'); [discriminate|]. exact IH.
Qed.

Lemma existsb_false_in {A} (f : A -> bool) (l : list A) :
  (forall x, In x l -> f x = false) -> existsb f l = false.
Proof.
  induction l as [|a l IH]; cbn; intros H; [reflexivity|].
  rewrite (H a (or_introl eq_refl)). apply IH. intros x Hx. apply H. right. exact Hx.
Qed.

Lemma plain_key_in (k x : string) :
  plain_key k = true -> In x builtin_names -> String.eqb k x = false.
Proof.
  unfold plain_key. rewrite negb_true_iff. intros H Hx.
  destruct (String.eqb k x) eqn:E; [|reflexivity].
  rewrite <- H. symmetry. apply existsb_exists. exists x. split; assumption.
Qed.

Lemma plain_key_spec (k : string) :
  plain_key k = true ->
  String.eqb k "name" = false /\ String.eqb k "length" = false /\
  String.eqb k "prototype" = false /\ String.eqb k "constructor" = false /\
  String.eqb k "caller" = false /\ String.eqb k "arguments" = false /\
  String.eqb k "__proto__" = false /\
  lookup_method k object_prototype_methods = None /\
  lookup_method k object_static_methods = None /\
  lookup_method k function_prototype_methods = None.
Proof.
  intros Hk.
  assert (Hl : forall l, (forall x, In x (map fst l) -> In x builtin_names) ->
               lookup_method k l = None).
  { intros l Hsub. apply lookup_method_absent, existsb_false_in.
    intros x Hx. apply plain_key_in; [exact Hk|]. apply Hsub, Hx. }
  unfold builtin_names in *.
  repeat split;
    try (apply plain_key_in; [exact Hk|]; apply in_or_app; left; cbn; auto 10; fail);
    apply Hl; intros x Hx; rewrite !in_app_iff; cbn [In]; tauto.
Qed.

Lemma object_prototype_get_plain (self : bool) (k : string) :
  plain_key k = true -> object_prototype_get self k = JUndefined.
Proof.
  intros Hk. destruct (plain_key_spec k Hk) as (_&_&_&Hc&_&_&Hp&Hm&_).
  unfold object_prototype_get. rewrite Hc, Hp, Hm. reflexivity.
Qed.

Lemma function_get_plain (f : string) (n : Z) (k : string) :
  plain_key k = true -> function_get f n k = Normal JUndefined.
Proof.
  intros Hk. destruct (plain_key_spec k Hk) as (Hn&Hl&Hpr&Hc&Hca&Ha&Hp&Hm&Hs&Hf).
  unfold function_get. rewrite Hn, Hl, Hpr, andb_false_r.
  destruct (String.eqb f "Object"); rewrite ?Hs; cbn [orb];
    rewrite Hc, Hca, Ha, Hp, Hf, object_prototype_get_plain by exact Hk; reflexivity.
Qed.

Lemma get_opt_inherited_plain (self : bool) (r k : string) :
  plain_key k = true -> get_opt (object_prototype_get self r) k = Normal JUndefined.
Proof.
  intros Hk. unfold object_prototype_get.
  destruct (String.eqb r "constructor"); [apply function_get_plain, Hk|].
  destruct (String.eqb r "__proto__").
  - destruct self; [reflexivity|]. cbn. rewrite object_prototype_get_plain by exact Hk.
    reflexivity.
  - destruct (lookup_method r object_prototype_methods); [|reflexivity].
    apply function_get_plain, Hk.
Qed.

Lemma table_entry_bool (perms : list (string * jsval)) (k : string) (v : jsval) :
  Forall (fun kv => exists b, snd kv = JBool b) perms ->
  assoc k perms = Some v -> exists b, v = JBool b.
Proof.
  induction 1 as [|[k' w] perms [b Hb] _ IH]; cbn; [discriminate|].
  destruct (String.eqb k k'); [|exact IH]. intros [= <-]. exists b. exact Hb.
Qed.

Lemma own_table_lookup (perms : list (string * jsval)) (k : string) :
  Forall (fun kv => exists b, snd kv = JBool b) perms ->
  plain_key k = true ->
  (p <- get_opt (JObj perms) k ;; Normal (js_or p (JBool false))) =
  Normal (JBool (match assoc k perms with Some v => truthy v | None => false end)).
Proof.
  intros Hall Hk. cbn [get_opt get].
  destruct (assoc k perms) as [v|] eqn:E.
  - destruct (table_entry_bool perms k v Hall E) as [b ->]. cbn.
    destruct b; reflexivity.
  - cbn. rewrite object_prototype_get_plain by exact Hk. reflexivity.
Qed.

Lemma tables_bool :
  Forall (fun kv => exists b, snd kv = JBool b) owner_permissions /\
  Forall (fun kv => exists b, snd kv = JBool b) manager_permissions /\
  Forall (fun kv => exists b, snd kv = JBool b) staff_permissions.
Proof.
  repeat split; repeat constructor; eexists; reflexivity.
Qed.

Lemma hasPermission_plain (role k : string) :
  plain_key k = true -> hasPermission role k = Normal (JBool (own_permission role k)).
Proof.
  intros Hk. destruct tables_bool as (Ho&Hm&Hs).
  unfold hasPermission, ROLE_PERMISSIONS, own_permission. cbn [get assoc].
  destruct (String.eqb role OWNER); [cbn [bind]; apply own_table_lookup; assumption|].
  destruct (String.eqb role MANAGER); [cbn [bind]; apply own_table_lookup; assumption|].
  destruct (String.eqb role STAFF); [cbn [bind]; apply own_table_lookup; assumption|].
  cbn [bind]. rewrite get_opt_inherited_plain by exact Hk. reflexivity.
Qed.


Lemma own_permission_undefined (role : string) : own_permission role "undefined" = false.
Proof.
  unfold own_permission. cbn [assoc].
  destruct (String.eqb role OWNER); [reflexivity|].
  destruct (String.eqb role MANAGER); [reflexivity|].
  destruct (String.eqb role STAFF); reflexivity.
Qed.

Lemma some_permission_false (ps : list string) :
  Guard.some_permission ps = Normal (JBool false).
Proof.
  induction ps as [|p ps IH]; [reflexivity|]. cbn [Guard.some_permission].
  rewrite hasPermission_plain by reflexivity. rewrite own_permission_undefined.
  exact IH.
Qed.

Lemma object_prototype_get_truthy (r : string) :
  object_prototype_get false r <> JUndefined -> truthy (object_prototype_get false r) = true.
Proof.
  unfold object_prototype_get.
  destruct (String.eqb r "constructor"); [reflexivity|].
  destruct (String.eqb r "__proto__"); [reflexivity|].
  destruct (lookup_method r object_prototype_methods); [reflexivity|].
  intros H. contradiction.
Qed.

(** X1: for every permission name that is not a property of the built-in
    objects on the prototype chains, [hasPermission] returns a boolean,
    the one the own table of the role lists, and [false] for every other
    role string (inherited names such as 'constructor' included). *)
Theorem hasPermission_plain_key_boolean (role permission : string) :
  plain_key permission = true ->
  hasPermission role permission = Normal (JBool (own_permission role permission)).
Proof. apply hasPermission_plain. Qed.

Lemma hasPermission_plain_key_boolean_witness :
  plain_key "canAccessHR" = true /\
  hasPermission "constructor" "canAccessHR" = Normal (JBool (own_permission "constructor" "canAccessHR")).
Proof.
  split; [reflexivity|]. apply hasPermission_plain_key_boolean. reflexivity.
Defined.

(** X2: [getRolePermissions] returns [{}] for a role string that is
    neither one of the three roles nor a name inherited from
    [Object.prototype]. *)
Theorem getRolePermissions_unknown_role (role : string) :
  isValidRole role = false -> object_prototype_get false role = JUndefined ->
  getRolePermissions role = Normal (JObj []).
Proof.
  unfold isValidRole, ROLES_values, getRolePermissions, ROLE_PERMISSIONS.
  cbn [existsb get assoc]. intros Hv Hu.
  destruct (String.eqb role OWNER); [discriminate|].
  destruct (String.eqb role MANAGER); [discriminate|].
  destruct (String.eqb role STAFF); [discriminate|].
  cbn. rewrite Hu. reflexivity.
Qed.

Lemma getRolePermissions_unknown_role_witness :
  isValidRole "admin" = false /\ object_prototype_get false "admin" = JUndefined /\
  getRolePermissions "admin" = Normal (JObj []).
Proof.
  split; [reflexivity|]. split; [reflexivity|].
  apply getRolePermissions_unknown_role; reflexivity.
Defined.

(** X3: for a role name inherited from [Object.prototype] ('constructor',
    'toString', '__proto__', ...) [getRolePermissions] returns that
    inherited member instead of [{}]. *)
Theorem getRolePermissions_inherited_name (role : string) :
  object_prototype_get false role <> JUndefined ->
  getRolePermissions role = Normal (object_prototype_get false role).
Proof.
  intros Hu. unfold getRolePermissions, ROLE_PERMISSIONS. cbn [get assoc].
  destruct (String.eqb role OWNER) eqn:E1;
    [apply String.eqb_eq in E1; subst; contradiction Hu; reflexivity|].
  destruct (String.eqb role MANAGER) eqn:E2;
    [apply String.eqb_eq in E2; subst; contradiction Hu; reflexivity|].
  destruct (String.eqb role STAFF) eqn:E3;
    [apply String.eqb_eq in E3; subst; contradiction Hu; reflexivity|].
  cbn [bind]. unfold js_or. rewrite object_prototype_get_truthy by exact Hu.
  reflexivity.
Qed.

Lemma getRolePermissions_inherited_name_witness :
  object_prototype_get false "constructor" <> JUndefined /\
  getRolePermissions "constructor" = Normal (object_prototype_get false "constructor").
Proof.
  split; [cbv; intros H; discriminate H|].
  apply getRolePermissions_inherited_name. cbv. intros H; discriminate H.
Defined.

(** X4: whatever the environment override and the sequence of roles
    requested through [setUserRole], the [userRole] state of
    [RoleProvider] is one of 'owner', 'manager' and 'staff'. *)
Theorem role_provider_state_valid (toLowerCase : string -> string) (dev : bool)
    (override : option string) (requests : list string) :
  RoleService.isValidRole (RoleService.role_provider_state toLowerCase dev override requests) = true.
Proof.
  unfold RoleService.role_provider_state.
  assert (H0 : RoleService.isValidRole (RoleService.getCurrentRole toLowerCase dev override) = true).
  { unfold RoleService.getCurrentRole. destruct override as [o|]; [|reflexivity].
    destruct (dev && negb (String.eqb o "")); [|reflexivity].
    destruct (existsb (String.eqb (toLowerCase o)) [OWNER; MANAGER; STAFF]) eqn:E;
      [exact E|reflexivity]. }
  revert H0. generalize (RoleService.getCurrentRole toLowerCase dev override).
  induction requests as [|r rs IH]; intros s Hs; [exact Hs|].
  cbn [fold_left]. apply IH. unfold RoleService.handleSetUserRole.
  destruct (RoleService.isValidRole r) eqn:E; [exact E|exact Hs].
Qed.

(** X5: for a role string that is not a name inherited from
    [Object.prototype], [getRoleDisplayName] answers 'Unknown Role'
    exactly when [isValidRole] rejects the role. *)
Theorem getRoleDisplayName_unknown_iff (role : string) :
  object_prototype_get false role = JUndefined ->
  (RoleService.getRoleDisplayName role = Normal (JStr "Unknown Role") <->
   RoleService.isValidRole role = false).
Proof.
  intros Hu. unfold RoleService.getRoleDisplayName, RoleService.roleNames,
    RoleService.isValidRole. cbn [get assoc existsb].
  destruct (String.eqb role OWNER); [cbn; split; intros H; discriminate H|].
  destruct (String.eqb role MANAGER); [cbn; split; intros H; discriminate H|].
  destruct (String.eqb role STAFF); [cbn; split; intros H; discriminate H|].
  cbn. rewrite Hu. cbn. split; reflexivity.
Qed.

Lemma getRoleDisplayName_unknown_iff_witness :
  object_prototype_get false "admin" = JUndefined /\
  (RoleService.getRoleDisplayName "admin" = Normal (JStr "Unknown Role") <->
   RoleService.isValidRole "admin" = false).
Proof.
  split; [reflexivity|]. apply getRoleDisplayName_unknown_iff. reflexivity.
Defined.

(** X6: a [RoleGuard] given any [requiredPermissions] renders its
    fallback, for every role: [hasPermission(permission)] is called
    without a permission and is [false] for every argument. *)
Theorem RoleGuard_required_permissions_fallback (allowedRoles requiredPermissions : list string)
    (userRole : option string) (contextRole : string) :
  requiredPermissions <> [] ->
  Guard.RoleGuard allowedRoles requiredPermissions userRole contextRole = Guard.Fallback.
Proof.
  intros Hne. destruct requiredPermissions as [|p ps]; [contradiction Hne; reflexivity|].
  unfold Guard.RoleGuard. rewrite some_permission_false.
  destruct allowedRoles; cbn [truthy]; rewrite andb_false_r; reflexivity.
Qed.

Lemma RoleGuard_required_permissions_fallback_witness :
  ["canViewSalesChart"] <> [] /\
  Guard.RoleGuard [] ["canViewSalesChart"] (Some "owner") "owner" = Guard.Fallback.
Proof.
  split; [discriminate|]. apply RoleGuard_required_permissions_fallback. discriminate.
Defined.

End RoleExtraProofs.

Module DataFacts.
Local Open Scope string_scope.
Import JS Roles RolesApi Data RoleExtraProofs.

Lemma rbind_inv {A B : Type} (c : res A) (k : A -> res B) (v : B) :
  rbind c k = ROk v -> exists a, c = ROk a /\ k a = ROk v.
Proof. destruct c as [a|e]; cbn; [eauto|discriminate]. Qed.

Lemma rbind_ok {A B : Type} (c : res A) (k : A -> res B) :
  (exists a, c = ROk a) -> (forall a, c = ROk a -> exists v, k a = ROk v) ->
  exists v, rbind c k = ROk v.
Proof. intros [a Ha] Hk. rewrite Ha. cbn. apply Hk. exact Ha. Qed.

(** Peel the binds, conditionals and results of a hypothesis [c = ROk v]. *)
Ltac rinv H :=
  repeat match type of H with
  | rbind ?c ?k = ROk ?v =>
    let a := fresh "a" in let Ha := fresh "Ha" in let H2 := fresh "H" in
    destruct (rbind_inv c k v H) as [a [Ha H2]]; clear H; rename H2 into H;
    cbv beta in H
  | (if ?b then _ else _) = ROk _ => let Eb := fresh "Eb" in destruct b eqn:Eb
  | ROk _ = ROk _ => injection H as H
  | RThrow _ = ROk _ => discriminate H
  end.

Lemma test_permission_plain (role k : string) :
  plain_key k = true -> test_permission role k = ROk (own_permission role k).
Proof.
  intros Hk. unfold test_permission. rewrite hasPermission_plain by exact Hk.
  reflexivity.
Qed.

Lemma own_permission_invalid (role k : string) :
  isValidRole role = false -> own_permission role k = false.
Proof.
  unfold isValidRole, ROLES_values, own_permission. cbn [existsb assoc].
  destruct (String.eqb role OWNER); [discriminate|].
  destruct (String.eqb role MANAGER); [discriminate|].
  destruct (String.eqb role STAFF); [discriminate|]. reflexivity.
Qed.

Lemma map_res_in (f : dval -> res dval) (l ys : list dval) :
  map_res f l = ROk ys -> forall y, In y ys -> exists x, In x l /\ f x = ROk y.
Proof.
  revert ys. induction l as [|x l IH]; intros ys H y Hy; cbn [map_res] in H.
  - injection H as <-. destruct Hy.
  - rinv H. subst ys. destruct Hy as [<-|Hy].
    + exists x. split; [left; reflexivity|exact Ha].
    + destruct (IH _ Ha0 y Hy) as [x' [Hx' Hf]]. exists x'. split; [right; exact Hx'|exact Hf].
Qed.

Lemma map_res_length (f : dval -> res dval) (l ys : list dval) :
  map_res f l = ROk ys -> length ys = length l.
Proof.
  revert ys. induction l as [|x l IH]; intros ys H; cbn [map_res] in H.
  - injection H as <-. reflexivity.
  - rinv H. subst ys. cbn. f_equal. apply IH. exact Ha0.
Qed.

Lemma map_res_total (f : dval -> res dval) (l : list dval) :
  (forall x, In x l -> exists y, f x = ROk y) -> exists ys, map_res f l = ROk ys.
Proof.
  induction l as [|x l IH]; intros Hf; cbn [map_res]; [eexists; reflexivity|].
  destruct (Hf x (or_introl eq_refl)) as [y Hy]. rewrite Hy. cbn [rbind].
  destruct IH as [ys Hys]; [intros x' Hx'; apply Hf; right; exact Hx'|].
  rewrite Hys. cbn. eexists; reflexivity.
Qed.

Lemma map_res_throw_head (f : dval -> res dval) (x : dval) (l : list dval) (e : string) :
  f x = RThrow e -> map_res f (x :: l) = RThrow e.
Proof. intros H. cbn [map_res]. rewrite H. reflexivity. Qed.

Lemma map_res_throw_mid (f : dval -> res dval) (pre : list dval) (x : dval) (rest : list dval)
    (e : string) :
  f x = RThrow e ->
  exists e', map_res f (pre ++ x :: rest) = RThrow e' /\
    ((exists ys, map_res f pre = ROk ys) -> e' = e).
Proof.
  intros H. induction pre as [|y pre IH]; cbn [app map_res].
  - rewrite H. exists e. split; [reflexivity|intros _; reflexivity].
  - destruct (f y) as [v|e1] eqn:Ey; cbn [rbind].
    + destruct IH as [e' [He' Hp]]. rewrite He'. cbn [rbind]. exists e'. split; [reflexivity|].
      intros [ys Hys]. apply Hp. rinv Hys. eexists; eassumption.
    + exists e1. split; [reflexivity|]. intros [ys Hys]. discriminate Hys.
Qed.

Lemma filter_res_throw_mid (p : dval -> res bool) (pre : list dval) (x : dval) (rest : list dval)
    (e : string) :
  p x = RThrow e ->
  exists e', filter_res p (pre ++ x :: rest) = RThrow e' /\
    ((exists ys, filter_res p pre = ROk ys) -> e' = e).
Proof.
  intros H. induction pre as [|y pre IH]; cbn [app filter_res].
  - rewrite H. exists e. split; [reflexivity|intros _; reflexivity].
  - destruct (p y) as [b|e1] eqn:Ey; cbn [rbind].
    + destruct IH as [e' [He' Hp]]. rewrite He'. cbn [rbind]. exists e'. split; [reflexivity|].
      intros [ys Hys]. apply Hp. rinv Hys. eexists; eassumption.
    + exists e1. split; [reflexivity|]. intros [ys Hys]. discriminate Hys.
Qed.

Lemma filter_res_in (p : dval -> res bool) (l ys : list dval) :
  filter_res p l = ROk ys -> forall y, In y ys -> In y l /\ p y = ROk true.
Proof.
  revert ys. induction l as [|x l IH]; intros ys H y Hy; cbn [filter_res] in H.
  - injection H as <-. destruct Hy.
  - destruct (rbind_inv _ _ _ H) as [b [Hb H1]]. cbv beta in H1.
    destruct (rbind_inv _ _ _ H1) as [zs [Hzs H2]]. injection H2 as <-.
    destruct b.
    + destruct Hy as [<-|Hy]; [split; [left; reflexivity|exact Hb]|].
      destruct (IH _ Hzs y Hy) as [Hin Hp]. split; [right; exact Hin|exact Hp].
    + destruct (IH _ Hzs y Hy) as [Hin Hp]. split; [right; exact Hin|exact Hp].
Qed.

Lemma call_map_inv (recv v : dval) (f : dval -> res dval) :
  call_map recv f = ROk v -> exists l ys, recv = DArr l /\ v = DArr ys /\ map_res f l = ROk ys.
Proof.
  destruct recv; cbn; try discriminate. intros H. rinv H. subst v. eauto.
Qed.

Lemma opt_call_map_inv (o : dval) (k : string) (f : dval -> res dval) (v : dval) :
  opt_call_map o k f = ROk v ->
  v = undef \/ exists d l ys, dget_opt o k = ROk d /\ d = DArr l /\ v = DArr ys /\ map_res f l = ROk ys.
Proof.
  unfold opt_call_map. intros H. rinv H; [left; symmetry; exact H|].
  destruct (call_map_inv _ _ _ H) as [l [ys [E1 [E2 E3]]]]. right. exists a, l, ys. auto.
Qed.

Lemma pick_keys (o : dval) (ks : list string) (ps : list (string * dval)) :
  pick o ks = ROk ps -> map fst ps = ks.
Proof.
  revert ps. induction ks as [|k ks IH]; intros ps H; cbn [pick] in H.
  - injection H as <-. reflexivity.
  - rinv H. subst ps. cbn. f_equal. apply IH. exact Ha0.
Qed.

Lemma pick_dassoc (o : dval) (ks : list string) (ps : list (string * dval)) (k : string) (v : dval) :
  pick o ks = ROk ps -> In k ks -> dget o k = ROk v -> dassoc k ps = Some v.
Proof.
  revert ps. induction ks as [|k0 ks IH]; intros ps H Hin Hv; cbn [pick] in H; [destruct Hin|].
  rinv H. subst ps. cbn [dassoc].
  destruct (String.eqb k k0) eqn:E.
  - apply String.eqb_eq in E. subst k0. rewrite Hv in Ha. injection Ha as ->. reflexivity.
  - destruct Hin as [->|Hin]; [rewrite String.eqb_refl in E; discriminate|].
    apply (IH _ Ha0 Hin Hv).
Qed.

Lemma dget_obj (props : list (string * dval)) (k : string) :
  exists v, dget (DObj props) k = ROk v.
Proof. cbn. destruct (dassoc k props); eexists; reflexivity. Qed.

Lemma pick_obj_total (props : list (string * dval)) (ks : list string) :
  exists ps, pick (DObj props) ks = ROk ps.
Proof.
  induction ks as [|k ks IH]; cbn [pick]; [eexists; reflexivity|].
  destruct (dget_obj props k) as [v Hv]. rewrite Hv. cbn [rbind].
  destruct IH as [ps Hps]. rewrite Hps. eexists; reflexivity.
Qed.

Lemma dget_total (o : dval) (k : string) :
  is_nullish o = false -> k <> "caller" -> k <> "arguments" ->
  exists v, dget o k = ROk v.
Proof.
  intros Hn Hc Ha. destruct o as [w|l|props|op args]; cbn [dget].
  - destruct w; cbn in Hn; try discriminate; cbn [get];
      try (eexists; reflexivity).
    + destruct (String.eqb k "length"); eexists; reflexivity.
    + unfold function_get.
      apply String.eqb_neq in Hc. apply String.eqb_neq in Ha. rewrite Hc, Ha.
      cbn [orb].
      destruct (String.eqb k "name"); [eexists; reflexivity|].
      destruct (String.eqb k "length"); [eexists; reflexivity|].
      destruct (String.eqb name "Object" && String.eqb k "prototype"); [eexists; reflexivity|].
      destruct (if String.eqb name "Object" then lookup_method k object_static_methods else None);
        [eexists; reflexivity|].
      destruct (String.eqb k "constructor"); [eexists; reflexivity|].
      destruct (String.eqb k "__proto__"); [eexists; reflexivity|].
      destruct (lookup_method k function_prototype_methods); eexists; reflexivity.
    + destruct (assoc k props); eexists; reflexivity.
  - destruct (String.eqb k "length"); [eexists; reflexivity|].
    destruct (index_key k); [eexists; reflexivity|].
    destruct (String.eqb k "constructor"); [eexists; reflexivity|].
    destruct (lookup_method k array_prototype_methods); eexists; reflexivity.
  - apply dget_obj.
  - eexists; reflexivity.
Qed.

Lemma dget_opt_total (o : dval) (k : string) :
  k <> "caller" -> k <> "arguments" -> exists v, dget_opt o k = ROk v.
Proof.
  intros Hc Ha. unfold dget_opt. destruct (is_nullish o) eqn:E; [eexists; reflexivity|].
  apply dget_total; assumption.
Qed.

Lemma dfield_obj (k : string) (props : list (string * dval)) :
  dfield k (DObj props) = dassoc k props.
Proof. reflexivity. Qed.

Lemma dassoc_app (k : string) (l1 l2 : list (string * dval)) :
  dassoc k (l1 ++ l2) = match dassoc k l1 with Some v => Some v | None => dassoc k l2 end.
Proof.
  induction l1 as [|[k' v'] l1 IH]; [reflexivity|]. cbn. destruct (String.eqb k k'); auto.
Qed.

Lemma strict_eq_id_some (v : dval) (u : string) :
  strict_eq_id v (Some u) = true -> v = dstr u.
Proof.
  destruct v as [w| | |]; cbn; try discriminate. destruct w; try discriminate.
  intros H. apply String.eqb_eq in H. subst. reflexivity.
Qed.

Lemma d_or_truthy (a b : dval) : dtruthy b = true -> dtruthy (d_or a b) = true.
Proof. unfold d_or. destruct (dtruthy a) eqn:E; auto. Qed.

Lemma dassoc_notin (k : string) (l : list (string * dval)) :
  existsb (String.eqb k) (map fst l) = false -> dassoc k l = None.
Proof.
  induction l as [|[k' v] l IH]; [reflexivity|]. cbn. intros H.
  apply orb_false_iff in H as [H1 H2]. rewrite H1. apply IH. exact H2.
Qed.

End DataFacts.

Module ServiceProofs.
Local Open Scope string_scope.
Import JS Roles RolesApi Data RoleExtraProofs DataFacts.

Lemma shape_employee_keys (role : string) (e r : dval) :
  HR.shape_employee role e = ROk r ->
  keys_of r = (HR.employee_base_fields ++
               (if String.eqb role OWNER then ["salary"; "performanceRating"; "bankAccount"; "notes"]
                else if String.eqb role MANAGER then ["performanceRating"; "notes"] else []))%list.
Proof.
  unfold HR.shape_employee. intros H. rinv H; subst r; cbn [keys_of];
    rewrite ?map_app; rewrite (pick_keys _ _ _ Ha); try rewrite (pick_keys _ _ _ Ha0);
    rewrite ?app_nil_r; reflexivity.
Qed.

(** X7: [shapeEmployeesByRole] returns an empty list for every role other
    than 'owner' and 'manager': only those two have [canAccessHR]. *)
Theorem shapeEmployeesByRole_no_hr_access (rawEmployees : dval) (userRole : string) :
  userRole <> OWNER -> userRole <> MANAGER ->
  HR.shapeEmployeesByRole rawEmployees userRole = ROk (DArr []).
Proof.
  intros Ho Hm. unfold HR.shapeEmployeesByRole.
  destruct rawEmployees; try reflexivity.
  destruct (String.eqb userRole ""); [reflexivity|].
  rewrite test_permission_plain by reflexivity.
  unfold own_permission. cbn [assoc].
  apply String.eqb_neq in Ho. apply String.eqb_neq in Hm. rewrite Ho, Hm.
  destruct (String.eqb userRole STAFF); reflexivity.
Qed.

Lemma shapeEmployeesByRole_no_hr_access_witness :
  STAFF <> OWNER /\ STAFF <> MANAGER /\
  HR.shapeEmployeesByRole (DArr [DObj [("salary", dnum 5000)]]) STAFF = ROk (DArr []).
Proof.
  split; [discriminate|]. split; [discriminate|].
  apply shapeEmployeesByRole_no_hr_access; discriminate.
Defined.

(** X8: every employee returned by [shapeEmployeesByRole] has exactly the
    nine base fields, followed by salary, performanceRating, bankAccount
    and notes for an owner and by performanceRating and notes for a
    manager: salary and bankAccount reach no other role. *)
Theorem shapeEmployeesByRole_keys (rawEmployees : dval) (userRole : string) (rows : list dval) (r : dval) :
  HR.shapeEmployeesByRole rawEmployees userRole = ROk (DArr rows) -> In r rows ->
  keys_of r = (HR.employee_base_fields ++
               (if String.eqb userRole OWNER then ["salary"; "performanceRating"; "bankAccount"; "notes"]
                else if String.eqb userRole MANAGER then ["performanceRating"; "notes"] else []))%list.
Proof.
  unfold HR.shapeEmployeesByRole. intros H Hr.
  destruct rawEmployees as [w|l|props|op args]; try (cbv beta iota in H; injection H as <-; destruct Hr).
  destruct (String.eqb userRole ""); [cbv beta iota in H; injection H as <-; destruct Hr|].
  rinv H; [subst rows; destruct Hr|].
  destruct (call_map_inv _ _ _ H) as [l' [ys [E1 [E2 E3]]]]. injection E2 as ->.
  destruct (map_res_in _ _ _ E3 r Hr) as [x [_ Hx]].
  exact (shape_employee_keys _ _ _ Hx).
Qed.

Lemma shapeEmployeesByRole_keys_witness :
  exists rows, HR.shapeEmployeesByRole (DArr [DObj [("id", dnum 1); ("salary", dnum 5000)]]) MANAGER
                 = ROk (DArr rows) /\
  forall r, In r rows ->
  keys_of r = (HR.employee_base_fields ++
               (if String.eqb MANAGER OWNER then ["salary"; "performanceRating"; "bankAccount"; "notes"]
                else if String.eqb MANAGER MANAGER then ["performanceRating"; "notes"] else []))%list.
Proof.
  eexists. split; [cbv; reflexivity|].
  intros r Hr.
  eapply (shapeEmployeesByRole_keys (DArr [DObj [("id", dnum 1); ("salary", dnum 5000)]]) MANAGER _ r);
    [cbv; reflexivity|exact Hr].
Defined.



Ltac obj_gets props :=
  repeat match goal with
  | |- context [dget (DObj props) ?k] =>
    let v := fresh "v" in let Hv := fresh "Hv" in
    destruct (dget_obj props k) as [v Hv]; rewrite Hv; cbn [rbind]
  | |- context [pick (DObj props) ?ks] =>
    let v := fresh "b" in let Hv := fresh "Hb" in
    destruct (pick_obj_total props ks) as [v Hv]; rewrite Hv; cbn [rbind]
  end.

Lemma product_base_keys (p : dval) (b : list (string * dval)) :
  HR.product_base p = ROk b ->
  map fst b = ["id"; "name"; "sku"; "type"; "category"; "image"; "stockLevel";
               "minStockLevel"; "unit"; "status"; "location"; "lastUpdated"].
Proof.
  unfold HR.product_base. intros H. rinv H. subst b.
  rewrite !map_app, (pick_keys _ _ _ Ha). cbn [map fst]. rewrite (pick_keys _ _ _ Ha2). reflexivity.
Qed.

Lemma shape_product_keys (role : string) (p r : dval) :
  HR.shape_product role p = ROk r ->
  keys_of r = (["id"; "name"; "sku"; "type"; "category"; "image"; "stockLevel";
                "minStockLevel"; "unit"; "status"; "location"; "lastUpdated"] ++
               (if String.eqb role "owner"
                then ["price"; "cost"; "margin"; "supplier"; "totalValue"; "totalCost"]
                else if String.eqb role "manager" then ["price"; "supplier"; "totalValue"]
                else []))%list.
Proof.
  unfold HR.shape_product. intros H.
  destruct (rbind_inv _ _ _ H) as [b [Hb H1]]. cbv beta in H1.
  pose proof (product_base_keys _ _ Hb) as Kb. clear H.
  rename H1 into H. rinv H; subst r; cbn [keys_of]; rewrite ?map_app, Kb;
    rewrite ?app_nil_r; reflexivity.
Qed.

(** X9: every product returned by [shapeProductsByRole] has exactly the
    twelve base fields, followed by price, cost, margin, supplier,
    totalValue and totalCost for an owner and by price, supplier and
    totalValue for a manager: cost and margin reach the owner only, and
    price the owner and the manager only. *)
Theorem shapeProductsByRole_keys (rawProducts : dval) (userRole : string) (rows : list dval) (r : dval) :
  HR.shapeProductsByRole rawProducts userRole = ROk (DArr rows) -> In r rows ->
  keys_of r = (["id"; "name"; "sku"; "type"; "category"; "image"; "stockLevel";
                "minStockLevel"; "unit"; "status"; "location"; "lastUpdated"] ++
               (if String.eqb userRole "owner"
                then ["price"; "cost"; "margin"; "supplier"; "totalValue"; "totalCost"]
                else if String.eqb userRole "manager" then ["price"; "supplier"; "totalValue"]
                else []))%list.
Proof.
  unfold HR.shapeProductsByRole. intros H Hr.
  destruct rawProducts as [w|l|props|op args]; try (cbv beta iota in H; injection H as <-; destruct Hr).
  destruct (String.eqb userRole ""); [cbv beta iota in H; injection H as <-; destruct Hr|].
  destruct (call_map_inv _ _ _ H) as [l' [ys [E1 [E2 E3]]]]. injection E2 as ->.
  destruct (map_res_in _ _ _ E3 r Hr) as [x [_ Hx]].
  exact (shape_product_keys _ _ _ Hx).
Qed.

Lemma shapeProductsByRole_keys_witness :
  exists rows, HR.shapeProductsByRole (DArr [DObj [("id", dnum 1); ("cost", dnum 40)]]) "manager"
                 = ROk (DArr rows) /\
  forall r, In r rows ->
  keys_of r = (["id"; "name"; "sku"; "type"; "category"; "image"; "stockLevel";
                "minStockLevel"; "unit"; "status"; "location"; "lastUpdated"] ++
               (if String.eqb "manager" "owner"
                then ["price"; "cost"; "margin"; "supplier"; "totalValue"; "totalCost"]
                else if String.eqb "manager" "manager" then ["price"; "supplier"; "totalValue"]
                else []))%list.
Proof.
  eexists. split; [cbv; reflexivity|].
  intros r Hr.
  eapply (shapeProductsByRole_keys (DArr [DObj [("id", dnum 1); ("cost", dnum 40)]]) "manager" _ r);
    [cbv; reflexivity|exact Hr].
Defined.

Lemma transform_product_obj (p t : dval) :
  ProductsApi.transform_product p = ROk t ->
  exists props, t = DObj props /\ dassoc "stockLevel" props = Some (dnum 0) /\
                dassoc "minStockLevel" props = Some (dnum 10).
Proof.
  unfold ProductsApi.transform_product. intros H. rinv H; subst t;
    eexists; (split; [reflexivity|split; reflexivity]).
Qed.

Lemma shape_product_stock (role : string) (props : list (string * dval)) :
  dassoc "stockLevel" props = Some (dnum 0) -> dassoc "minStockLevel" props = Some (dnum 10) ->
  exists r, HR.shape_product role (DObj props) = ROk r /\
            dfield "stockLevel" r = Some (dnum 0) /\ dfield "minStockLevel" r = Some (dnum 10).
Proof.
  intros Hs Hm. unfold HR.shape_product, HR.product_base.
  assert (Gs : dget (DObj props) "stockLevel" = ROk (dnum 0)) by (cbn; rewrite Hs; reflexivity).
  assert (Gm : dget (DObj props) "minStockLevel" = ROk (dnum 10)) by (cbn; rewrite Hm; reflexivity).
  rewrite Gs, Gm. obj_gets props.
  assert (N : dassoc "stockLevel" b = None /\ dassoc "minStockLevel" b = None).
  { rewrite !dassoc_notin; [split; reflexivity| |];
      rewrite (pick_keys _ _ _ Hb); reflexivity. }
  destruct N as [N1 N2].
  destruct (String.eqb role "owner"); [|destruct (String.eqb role "manager");
    [|destruct (String.eqb role "staff")]];
    (eexists; split; [reflexivity|]); rewrite !dfield_obj, ?dassoc_app, N1, N2;
    split; reflexivity.
Qed.

(** X10: the products [transformProductData] builds from a backend list
    all pass [shapeProductsByRole] for any non-empty role, one shaped
    product per backend product, each with stockLevel 0 and
    minStockLevel 10. *)
Theorem transform_then_shapeProducts (backendProducts : dval) (ts : list dval) (userRole : string) :
  ProductsApi.transformProductData backendProducts = ROk (DArr ts) -> userRole <> "" ->
  exists rows, HR.shapeProductsByRole (DArr ts) userRole = ROk (DArr rows) /\
               length rows = length ts /\
               forall r, In r rows ->
                 dfield "stockLevel" r = Some (dnum 0) /\ dfield "minStockLevel" r = Some (dnum 10).
Proof.
  intros H Hne. unfold ProductsApi.transformProductData in H.
  assert (Ht : forall t, In t ts -> exists props, t = DObj props /\
               dassoc "stockLevel" props = Some (dnum 0) /\ dassoc "minStockLevel" props = Some (dnum 10)).
  { destruct backendProducts as [w|l|props|op args];
      try (injection H as <-; intros t []).
    destruct (call_map_inv _ _ _ H) as [l' [ys [E1 [E2 E3]]]]. injection E2 as ->.
    intros t Ht. destruct (map_res_in _ _ _ E3 t Ht) as [x [_ Hx]].
    exact (transform_product_obj _ _ Hx). }
  unfold HR.shapeProductsByRole. apply String.eqb_neq in Hne. rewrite Hne.
  cbn [call_map].
  destruct (map_res_total (HR.shape_product userRole) ts) as [rows Hrows].
  { intros t Hin. destruct (Ht t Hin) as [props [-> [Hs Hm]]].
    destruct (shape_product_stock userRole props Hs Hm) as [r [Hr _]]. eauto. }
  rewrite Hrows. cbn [rbind]. exists rows. split; [reflexivity|]. split.
  - exact (map_res_length _ _ _ Hrows).
  - intros r Hr. destruct (map_res_in _ _ _ Hrows r Hr) as [t [Hin Hx]].
    destruct (Ht t Hin) as [props [-> [Hs Hm]]].
    destruct (shape_product_stock userRole props Hs Hm) as [r' [Hr' Hf]].
    rewrite Hx in Hr'. injection Hr' as ->. exact Hf.
Qed.

Lemma transform_then_shapeProducts_witness :
  exists ts, ProductsApi.transformProductData (DArr [DObj [("id", dnum 7); ("name", dstr "Bolt")]])
               = ROk (DArr ts) /\ "staff" <> "" /\
  exists rows, HR.shapeProductsByRole (DArr ts) "staff" = ROk (DArr rows) /\
               length rows = length ts /\
               forall r, In r rows ->
                 dfield "stockLevel" r = Some (dnum 0) /\ dfield "minStockLevel" r = Some (dnum 10).
Proof.
  eexists. split; [cbv; reflexivity|]. split; [discriminate|].
  eapply (transform_then_shapeProducts (DArr [DObj [("id", dnum 7); ("name", dstr "Bolt")]]));
    [cbv; reflexivity|discriminate].
Defined.

Lemma transform_product_total (props : list (string * dval)) :
  exists t, ProductsApi.transform_product (DObj props) = ROk t /\
    forall k, In k ["name"; "type"; "unit"] -> exists v, dfield k t = Some v /\ dtruthy v = true.
Proof.
  unfold ProductsApi.transform_product. obj_gets props.
  destruct (dtruthy v5); [destruct (dtruthy v6)|]; cbn [rbind];
    (eexists; split; [reflexivity|]);
    intros k [<-|[<-|[<-|[]]]]; (eexists; split; [reflexivity|]);
    apply d_or_truthy; reflexivity.
Qed.

(** X11: [transformProductData] maps a list of backend product objects to
    a list of the same length, and every product it builds has a truthy
    name, type and unit (the defaults 'Unknown Product', 'product' and
    'pcs' fill in missing ones). *)
Theorem transformProductData_objects (l : list dval) :
  forallb is_obj l = true ->
  exists ts, ProductsApi.transformProductData (DArr l) = ROk (DArr ts) /\ length ts = length l /\
    forall t, In t ts ->
      forall k, In k ["name"; "type"; "unit"] -> exists v, dfield k t = Some v /\ dtruthy v = true.
Proof.
  intros Hobj. unfold ProductsApi.transformProductData. cbn [call_map].
  assert (Hx : forall x, In x l -> exists props, x = DObj props).
  { intros x Hin. rewrite forallb_forall in Hobj. specialize (Hobj x Hin).
    destruct x; try discriminate. eauto. }
  destruct (map_res_total ProductsApi.transform_product l) as [ts Hts].
  { intros x Hin. destruct (Hx x Hin) as [props ->].
    destruct (transform_product_total props) as [t [Ht _]]. eauto. }
  rewrite Hts. cbn [rbind]. exists ts. split; [reflexivity|]. split.
  - exact (map_res_length _ _ _ Hts).
  - intros t Hin. destruct (map_res_in _ _ _ Hts t Hin) as [x [Hxl Hxt]].
    destruct (Hx x Hxl) as [props ->].
    destruct (transform_product_total props) as [t' [Ht' Hf]].
    rewrite Hxt in Ht'. injection Ht' as ->. exact Hf.
Qed.

Lemma transformProductData_objects_witness :
  forallb is_obj [DObj [("name", dstr "")]; DObj []] = true /\
  exists ts, ProductsApi.transformProductData (DArr [DObj [("name", dstr "")]; DObj []]) = ROk (DArr ts) /\
    length ts = 2%nat /\
    forall t, In t ts ->
      forall k, In k ["name"; "type"; "unit"] -> exists v, dfield k t = Some v /\ dtruthy v = true.
Proof.
  split; [reflexivity|]. apply transformProductData_objects. reflexivity.
Defined.

End ServiceProofs.

Module DashboardProofs.
Local Open Scope string_scope.
Import JS Roles RolesApi Data RoleExtraProofs DataFacts.

Ltac rinv_all :=
  repeat match goal with
  | H : rbind ?c ?k = ROk ?v |- _ =>
    let a := fresh "a" in let Ha := fresh "Ha" in let H2 := fresh "H" in
    destruct (rbind_inv c k v H) as [a [Ha H2]]; clear H; cbv beta in H2
  | H : (if ?b then _ else _) = ROk _ |- _ => let Eb := fresh "Eb" in destruct b eqn:Eb
  | H : ROk _ = ROk _ |- _ => injection H as H
  | H : RThrow _ = ROk _ |- _ => discriminate H
  end.

(** Evaluate the closed role tests of a hypothesis. *)
Ltac eval_closed H :=
  repeat match type of H with
  | context [String.eqb ?a ?b] =>
    let v := eval vm_compute in (String.eqb a b) in
    lazymatch v with
    | true => change (String.eqb a b) with true in H
    | false => change (String.eqb a b) with false in H
    end
  | context [test_permission ?r ?k] =>
    let v := eval vm_compute in (test_permission r k) in
    lazymatch v with
    | ROk true => change (test_permission r k) with (ROk (A:=bool) true) in H
    | ROk false => change (test_permission r k) with (ROk (A:=bool) false) in H
    end
  end; cbv beta iota in H; cbn [rbind] in H.

Ltac eval_closed_goal :=
  repeat match goal with
  | |- context [String.eqb ?a ?b] =>
    let v := eval vm_compute in (String.eqb a b) in
    lazymatch v with
    | true => change (String.eqb a b) with true
    | false => change (String.eqb a b) with false
    end
  end; cbv beta iota.

Lemma truthy_not_nullish (v : dval) : dtruthy v = true -> is_nullish v = false.
Proof. destruct v as [w| | |]; [destruct w|..]; cbn; congruence. Qed.

Lemma read2_total (o : dval) (k1 k2 : string) :
  is_nullish o = false -> k1 <> "caller" -> k1 <> "arguments" ->
  k2 <> "caller" -> k2 <> "arguments" -> exists v, Dashboard.read2 o k1 k2 = ROk v.
Proof.
  intros Hn H1 H2 H3 H4. unfold Dashboard.read2.
  destruct (dget_total o k1 Hn H1 H2) as [a Ha]. rewrite Ha. cbn [rbind].
  apply dget_opt_total; assumption.
Qed.

Ltac kpi_reads raw Hn :=
  repeat match goal with
  | |- context [Dashboard.read2 raw ?a ?b] =>
    let v := fresh "r" in let Hv := fresh "Hr" in
    destruct (read2_total raw a b Hn ltac:(discriminate) ltac:(discriminate)
                ltac:(discriminate) ltac:(discriminate)) as [v Hv];
    rewrite Hv; cbn [rbind]
  | |- context [dget raw ?a] =>
    let v := fresh "g" in let Hv := fresh "Hg" in
    destruct (dget_total raw a Hn ltac:(discriminate) ltac:(discriminate)) as [v Hv];
    rewrite Hv; cbn [rbind]
  | |- context [dget_opt ?o ?a] =>
    let v := fresh "g" in let Hv := fresh "Hg" in
    destruct (dget_opt_total o a ltac:(discriminate) ltac:(discriminate)) as [v Hv];
    rewrite Hv; cbn [rbind]
  | |- context [test_permission ?r ?k] =>
    rewrite (test_permission_plain r k) by reflexivity; cbn [rbind]
  end.

Lemma kpis_total (rawKpiData : dval) (userRole : string) :
  exists v, Dashboard.shapeKpisByRole rawKpiData userRole = ROk v.
Proof.
  unfold Dashboard.shapeKpisByRole.
  destruct (dtruthy rawKpiData) eqn:Ht; cbn [negb orb]; [|eexists; reflexivity].
  destruct (String.eqb userRole ""); [eexists; reflexivity|].
  pose proof (truthy_not_nullish _ Ht) as Hn.
  kpi_reads rawKpiData Hn.
  repeat match goal with
  | |- context [if ?b then _ else _] => destruct b
  end; cbn [rbind]; eexists; reflexivity.
Qed.

(** X12: [shapeKpisByRole] never throws: every property it reads on the
    raw data is read with [?.] below the first level, and none of them is
    an accessor that throws. *)
Theorem shapeKpisByRole_never_throws (rawKpiData : dval) (userRole : string) :
  exists v, Dashboard.shapeKpisByRole rawKpiData userRole = ROk v.
Proof. apply kpis_total. Qed.

(** X13: the sections of the KPI object [shapeKpisByRole] returns for a
    truthy data object and a non-empty role: revenue, profit, orders and
    customers for an owner, revenue, orders and customers for a manager,
    orders alone for staff, and none for any other role. *)
Theorem shapeKpisByRole_keys (rawKpiData : dval) (userRole : string) (v : dval) :
  dtruthy rawKpiData = true -> userRole <> "" ->
  Dashboard.shapeKpisByRole rawKpiData userRole = ROk v ->
  keys_of v = (if String.eqb userRole OWNER then ["revenue"; "profit"; "orders"; "customers"]
               else if String.eqb userRole MANAGER then ["revenue"; "orders"; "customers"]
               else if String.eqb userRole STAFF then ["orders"] else []).
Proof.
  intros Ht Hne H. unfold Dashboard.shapeKpisByRole in H.
  apply String.eqb_neq in Hne. rewrite Ht, Hne in H. cbn [negb orb] in H.
  destruct (String.eqb userRole OWNER) eqn:Eo;
    [apply String.eqb_eq in Eo; subst userRole; eval_closed H; rinv_all; subst; reflexivity|].
  destruct (String.eqb userRole MANAGER) eqn:Em;
    [apply String.eqb_eq in Em; subst userRole; eval_closed H; rinv_all; subst; reflexivity|].
  destruct (String.eqb userRole STAFF) eqn:Es;
    [apply String.eqb_eq in Es; subst userRole; eval_closed H; rinv_all; subst; reflexivity|].
  assert (Hv : isValidRole userRole = false).
  { unfold isValidRole, ROLES_values. cbn [existsb]. rewrite Eo, Em, Es. reflexivity. }
  rewrite !test_permission_plain in H by reflexivity.
  rewrite !(own_permission_invalid _ _ Hv) in H. cbn [rbind] in H.
  rinv_all. subst. reflexivity.
Qed.

Lemma shapeKpisByRole_keys_witness :
  dtruthy (DObj [("orders", DObj [("assignedCount", dnum 3)])]) = true /\ MANAGER <> "" /\
  forall v, Dashboard.shapeKpisByRole (DObj [("orders", DObj [("assignedCount", dnum 3)])]) MANAGER = ROk v ->
  keys_of v = (if String.eqb MANAGER OWNER then ["revenue"; "profit"; "orders"; "customers"]
               else if String.eqb MANAGER MANAGER then ["revenue"; "orders"; "customers"]
               else if String.eqb MANAGER STAFF then ["orders"] else []).
Proof.
  split; [reflexivity|]. split; [discriminate|]. intros v Hv.
  apply (shapeKpisByRole_keys (DObj [("orders", DObj [("assignedCount", dnum 3)])]) MANAGER v);
    [reflexivity|discriminate|exact Hv].
Defined.

(** X14: for staff and a truthy data object the KPIs hold only the orders
    section, with the fields value, trend, scope and priority and the
    scope 'assigned'. *)
Theorem shapeKpisByRole_staff (rawKpiData : dval) :
  dtruthy rawKpiData = true ->
  exists o, Dashboard.shapeKpisByRole rawKpiData STAFF = ROk (DObj [("orders", o)]) /\
            keys_of o = ["value"; "trend"; "scope"; "priority"] /\
            dfield "scope" o = Some (dstr "assigned").
Proof.
  intros Ht. destruct (kpis_total rawKpiData STAFF) as [v H]. pose proof H as H0.
  unfold Dashboard.shapeKpisByRole in H. rewrite Ht in H. cbn [negb orb] in H.
  eval_closed H. rinv_all. subst.
  eexists. split; [exact H0|]. split; reflexivity.
Qed.

Lemma shapeKpisByRole_staff_witness :
  dtruthy (DObj []) = true /\
  exists o, Dashboard.shapeKpisByRole (DObj []) STAFF = ROk (DObj [("orders", o)]) /\
            keys_of o = ["value"; "trend"; "scope"; "priority"] /\
            dfield "scope" o = Some (dstr "assigned").
Proof. split; [reflexivity|]. apply shapeKpisByRole_staff. reflexivity. Defined.


(** X15: for a role string that is none of 'owner', 'manager' and
    'staff', the KPI and chart shapers return an empty object and the
    transaction shaper an empty list, whatever the data. *)
Theorem dashboard_shapers_unknown_role (raw : dval) (userRole : string) (userId : option string) :
  isValidRole userRole = false ->
  Dashboard.shapeKpisByRole raw userRole = ROk (DObj []) /\
  Charts.shapeChartsByRole raw userRole = ROk (DObj []) /\
  Dashboard.shapeTransactionsByRole raw userRole userId = ROk (DArr []).
Proof.
  intros Hv. split; [|split].
  - unfold Dashboard.shapeKpisByRole.
    destruct (negb (dtruthy raw) || String.eqb userRole ""); [reflexivity|].
    rewrite !test_permission_plain by reflexivity.
    rewrite !(own_permission_invalid _ _ Hv). reflexivity.
  - unfold Charts.shapeChartsByRole.
    destruct (negb (dtruthy raw) || String.eqb userRole ""); [reflexivity|].
    rewrite !test_permission_plain by reflexivity.
    rewrite !(own_permission_invalid _ _ Hv). reflexivity.
  - unfold isValidRole, ROLES_values in Hv. cbn [existsb] in Hv.
    apply orb_false_iff in Hv as [Eo Hv]. apply orb_false_iff in Hv as [Em Hv].
    apply orb_false_iff in Hv as [Es _].
    unfold Dashboard.shapeTransactionsByRole. destruct raw; try reflexivity.
    destruct (String.eqb userRole ""); [reflexivity|]. rewrite Eo, Em, Es. reflexivity.
Qed.

Lemma dashboard_shapers_unknown_role_witness :
  isValidRole "constructor" = false /\
  Dashboard.shapeKpisByRole (DObj [("revenue", DObj [])]) "constructor" = ROk (DObj []) /\
  Charts.shapeChartsByRole (DObj [("revenue", DObj [])]) "constructor" = ROk (DObj []) /\
  Dashboard.shapeTransactionsByRole (DArr [DObj []]) "constructor" None = ROk (DArr []).
Proof.
  split; [reflexivity|]. split.
  - apply (dashboard_shapers_unknown_role (DObj [("revenue", DObj [])]) "constructor" None).
    reflexivity.
  - split.
    + apply (dashboard_shapers_unknown_role (DObj [("revenue", DObj [])]) "constructor" None).
      reflexivity.
    + apply (dashboard_shapers_unknown_role (DArr [DObj []]) "constructor" None). reflexivity.
Defined.

Ltac finish_pick :=
  match goal with
  | Hp : pick _ _ = ROk ?ps |- keys_of (DObj ?ps) = _ => exact (pick_keys _ _ _ Hp)
  | Hp : pick _ _ = ROk ?ps |- map fst ?ps = _ => exact (pick_keys _ _ _ Hp)
  end.

Lemma opt_call_map_rows (o : dval) (k : string) (f : dval -> res dval) (d : dval) (dl : list dval) (r : dval) :
  opt_call_map o k f = ROk d -> d = DArr dl -> In r dl -> exists x, f x = ROk r.
Proof.
  intros H Hd Hr. destruct (opt_call_map_inv _ _ _ _ H) as [->|[d' [l [ys [_ [_ [E M]]]]]]];
    [discriminate Hd|].
  subst d. injection E as ->. destruct (map_res_in _ _ _ M r Hr) as [x [_ Hx]]. eauto.
Qed.

Lemma pick_obj_keys (ks : list string) (x r : dval) :
  Dashboard.pick_obj ks x = ROk r -> keys_of r = ks.
Proof.
  unfold Dashboard.pick_obj. intros H. rinv H. subst r. exact (pick_keys _ _ _ Ha).
Qed.

(** X16: the charts of a staff user never contain the sales chart, and
    every row of their inventory chart has exactly the fields category,
    status, count and priority. *)
Theorem shapeChartsByRole_staff (rawChartsData v : dval) :
  Charts.shapeChartsByRole rawChartsData STAFF = ROk v ->
  ~ In "salesRevenue" (keys_of v) /\
  forall inv d r, dfield "inventory" v = Some inv -> dfield "data" inv = Some (DArr d) -> In r d ->
    keys_of r = ["category"; "status"; "count"; "priority"].
Proof.
  intros H. unfold Charts.shapeChartsByRole in H. eval_closed H. rinv_all; subst.
  - split; [intros []|]. intros inv d r Hi. discriminate Hi.
  - split; [cbn; intros [E|[]]; discriminate E|].
    intros inv d r Hi Hd Hr. cbn in Hi. injection Hi as <-. cbn in Hd. injection Hd as Hd.
    match goal with
    | Ho : opt_call_map _ _ Charts.staff_inventory_item = ROk _ |- _ =>
      destruct (opt_call_map_rows _ _ _ _ _ _ Ho Hd Hr) as [x Hx]
    end.
    unfold Charts.staff_inventory_item in Hx. rinv Hx. subst r. finish_pick.
Qed.

Lemma shapeChartsByRole_staff_witness :
  exists v, Charts.shapeChartsByRole
              (DObj [("salesRevenue", DObj []);
                     ("inventory", DObj [("data", DArr [DObj [("category", dstr "Tools"); ("cost", dnum 9)]])])])
              STAFF = ROk v /\
  ~ In "salesRevenue" (keys_of v) /\
  forall inv d r, dfield "inventory" v = Some inv -> dfield "data" inv = Some (DArr d) -> In r d ->
    keys_of r = ["category"; "status"; "count"; "priority"].
Proof.
  eexists. split; [cbv; reflexivity|].
  eapply (shapeChartsByRole_staff
            (DObj [("salesRevenue", DObj []);
                   ("inventory", DObj [("data", DArr [DObj [("category", dstr "Tools"); ("cost", dnum 9)]])])])).
  cbv; reflexivity.
Defined.

(** X17: in the charts of a manager every row of the sales chart has
    exactly the fields date and revenue, and every row of the inventory
    chart exactly category, status, count, value and lowStockAlert (no
    cost, profit, supplier or turnover rate). *)
Theorem shapeChartsByRole_manager (rawChartsData v : dval) :
  Charts.shapeChartsByRole rawChartsData MANAGER = ROk v ->
  (forall s d r, dfield "salesRevenue" v = Some s -> dfield "data" s = Some (DArr d) -> In r d ->
     keys_of r = ["date"; "revenue"]) /\
  (forall inv d r, dfield "inventory" v = Some inv -> dfield "data" inv = Some (DArr d) -> In r d ->
     keys_of r = ["category"; "status"; "count"; "value"; "lowStockAlert"]).
Proof.
  intros H. unfold Charts.shapeChartsByRole in H. eval_closed H. rinv_all; subst.
  - split; intros ? ? ? Hi; discriminate Hi.
  - split.
    + intros s d r Hs Hd Hr. cbn in Hs. injection Hs as <-. cbn in Hd. injection Hd as Hd.
      match goal with
      | Ho : opt_call_map _ _ Charts.sales_item = ROk _ |- _ =>
        destruct (opt_call_map_rows _ _ _ _ _ _ Ho Hd Hr) as [x Hx]
      end.
      unfold Charts.sales_item in Hx. rinv Hx. subst r. finish_pick.
    + intros inv d r Hi Hd Hr. cbn in Hi. injection Hi as <-. cbn in Hd. injection Hd as Hd.
      match goal with
      | Ho : opt_call_map _ _ (Charts.full_inventory_item _) = ROk _ |- _ =>
        destruct (opt_call_map_rows _ _ _ _ _ _ Ho Hd Hr) as [x Hx]
      end.
      unfold Charts.full_inventory_item in Hx. eval_closed Hx. rinv Hx. subst r.
      finish_pick.
Qed.

Lemma shapeChartsByRole_manager_witness :
  exists v, Charts.shapeChartsByRole
              (DObj [("salesRevenue", DObj [("data", DArr [DObj [("date", dstr "2024-01-01"); ("profit", dnum 5)]])]);
                     ("inventory", DObj [("data", DArr [DObj [("category", dstr "Tools"); ("cost", dnum 9)]])])])
              MANAGER = ROk v /\
  (forall s d r, dfield "salesRevenue" v = Some s -> dfield "data" s = Some (DArr d) -> In r d ->
     keys_of r = ["date"; "revenue"]) /\
  (forall inv d r, dfield "inventory" v = Some inv -> dfield "data" inv = Some (DArr d) -> In r d ->
     keys_of r = ["category"; "status"; "count"; "value"; "lowStockAlert"]).
Proof.
  eexists. split; [cbv; reflexivity|].
  eapply (shapeChartsByRole_manager
            (DObj [("salesRevenue", DObj [("data", DArr [DObj [("date", dstr "2024-01-01"); ("profit", dnum 5)]])]);
                   ("inventory", DObj [("data", DArr [DObj [("category", dstr "Tools"); ("cost", dnum 9)]])])])).
  cbv; reflexivity.
Defined.

End DashboardProofs.

Module OrderProofs.
Local Open Scope string_scope.
Import JS Roles RolesApi Data RoleExtraProofs DataFacts DashboardProofs.

(** X18: every transaction row [shapeTransactionsByRole] returns has
    exactly the fields listed for the role: the fourteen owner fields,
    the nine manager fields, or the nine staff fields. *)
Theorem shapeTransactionsByRole_keys (rawTransactions : dval) (userRole : string)
    (userId : option string) (rows : list dval) (r : dval) :
  Dashboard.shapeTransactionsByRole rawTransactions userRole userId = ROk (DArr rows) ->
  In r rows ->
  keys_of r = (if String.eqb userRole OWNER then Dashboard.owner_transaction_fields
               else if String.eqb userRole MANAGER then Dashboard.manager_transaction_fields
               else Dashboard.staff_transaction_fields).
Proof.
  intros H Hr. unfold Dashboard.shapeTransactionsByRole in H.
  destruct rawTransactions as [w|l|props|op args];
    try (injection H as <-; destruct Hr).
  destruct (String.eqb userRole ""); [injection H as <-; destruct Hr|].
  destruct (String.eqb userRole OWNER);
    [|destruct (String.eqb userRole MANAGER); [|destruct (String.eqb userRole STAFF)]];
    try (injection H as <-; destruct Hr);
    rinv H;
    destruct (call_map_inv _ _ _ H) as [l' [ys [_ [E2 E3]]]]; injection E2 as ->;
    destruct (map_res_in _ _ _ E3 r Hr) as [x [_ Hx]]; exact (pick_obj_keys _ _ _ Hx).
Qed.

Lemma shapeTransactionsByRole_keys_witness :
  exists rows, Dashboard.shapeTransactionsByRole
                 (DArr [DObj [("id", dnum 1); ("assignedTo", dstr "u7"); ("cost", dnum 3)]])
                 STAFF (Some "u7") = ROk (DArr rows) /\
  forall r, In r rows ->
  keys_of r = (if String.eqb STAFF OWNER then Dashboard.owner_transaction_fields
               else if String.eqb STAFF MANAGER then Dashboard.manager_transaction_fields
               else Dashboard.staff_transaction_fields).
Proof.
  eexists. split; [cbv; reflexivity|]. intros r Hr.
  eapply (shapeTransactionsByRole_keys
            (DArr [DObj [("id", dnum 1); ("assignedTo", dstr "u7"); ("cost", dnum 3)]])
            STAFF (Some "u7")); [cbv; reflexivity|exact Hr].
Defined.

(** X19: no transaction a manager receives has one of the sensitive types
    financial_adjustment, loan, investment or tax_payment. *)
Theorem shapeTransactionsByRole_manager_not_sensitive (rawTransactions : dval)
    (userId : option string) (rows : list dval) (r : dval) (s : string) :
  Dashboard.shapeTransactionsByRole rawTransactions MANAGER userId = ROk (DArr rows) ->
  In r rows -> In s Dashboard.sensitive_types -> dfield "type" r <> Some (dstr s).
Proof.
  intros H Hr Hs Ht. unfold Dashboard.shapeTransactionsByRole in H.
  destruct rawTransactions as [w|l|props|op args];
    try (injection H as <-; destruct Hr).
  eval_closed H. rinv H.
  destruct (call_map_inv _ _ _ H) as [l' [ys [E1 [E2 E3]]]]. injection E2 as ->.
  injection E1 as <-.
  destruct (map_res_in _ _ _ E3 r Hr) as [x [Hx Hxr]].
  destruct (filter_res_in _ _ _ Ha x Hx) as [_ Hv].
  unfold Dashboard.manager_visible in Hv. rinv Hv.
  unfold Dashboard.pick_obj in Hxr. rinv Hxr. subst r.
  rewrite dfield_obj, (pick_dassoc _ _ _ "type" _ Ha1 ltac:(cbn; auto 4) Ha0) in Ht.
  injection Ht as ->.
  assert (E : existsb (fun s' => strict_eq_id (dstr s) (Some s')) Dashboard.sensitive_types = true).
  { apply existsb_exists. exists s. split; [exact Hs|]. cbn. apply String.eqb_refl. }
  unfold Dashboard.sensitive_types in E. cbn [existsb] in E. rewrite E in Hv. discriminate Hv.
Qed.

Lemma shapeTransactionsByRole_manager_not_sensitive_witness :
  exists rows, Dashboard.shapeTransactionsByRole
                 (DArr [DObj [("id", dnum 1); ("type", dstr "loan")];
                        DObj [("id", dnum 2); ("type", dstr "sale")]])
                 MANAGER None = ROk (DArr rows) /\
  In "loan" Dashboard.sensitive_types /\
  forall r, In r rows -> dfield "type" r <> Some (dstr "loan").
Proof.
  eexists. split; [cbv; reflexivity|]. split; [cbn; auto|]. intros r Hr.
  eapply (shapeTransactionsByRole_manager_not_sensitive
            (DArr [DObj [("id", dnum 1); ("type", dstr "loan")];
                   DObj [("id", dnum 2); ("type", dstr "sale")]]) None);
    [cbv; reflexivity|exact Hr|cbn; auto].
Defined.

(** X20: for staff, a transaction that is neither assigned to nor
    handled by anyone and whose teamAssignments is a non-zero number makes
    [shapeTransactionsByRole] throw, wherever it appears in the list; the
    error is a TypeError ([includes] is called on the number) when the
    transactions before it are checked without error. *)
Theorem shapeTransactionsByRole_staff_team_not_array (pre : list dval)
    (props : list (string * dval)) (rest : list dval) (userId : option string) (n : Z) :
  dassoc "assignedTo" props = None -> dassoc "handlerRequired" props = None ->
  dassoc "teamAssignments" props = Some (dnum n) -> n <> 0%Z ->
  exists e, Dashboard.shapeTransactionsByRole (DArr (pre ++ DObj props :: rest)) STAFF userId
              = RThrow e /\
    ((exists kept, filter_res (Dashboard.staff_visible userId) pre = ROk kept) ->
     e = "TypeError").
Proof.
  intros H1 H2 H3 Hn.
  assert (Hs : Dashboard.staff_visible userId (DObj props) = RThrow "TypeError").
  { unfold Dashboard.staff_visible. cbn [dget]. rewrite H1, H2, H3.
    destruct n as [|p|p]; [contradiction Hn; reflexivity| |]; destruct userId; reflexivity. }
  destruct (filter_res_throw_mid _ pre _ rest _ Hs) as [e [He Hpre]].
  exists e. split; [|exact Hpre].
  unfold Dashboard.shapeTransactionsByRole. eval_closed_goal.
  rewrite He. reflexivity.
Qed.

Lemma shapeTransactionsByRole_staff_team_not_array_witness :
  dassoc "assignedTo" [("teamAssignments", dnum 3)] = None /\
  dassoc "handlerRequired" [("teamAssignments", dnum 3)] = None /\
  dassoc "teamAssignments" [("teamAssignments", dnum 3)] = Some (dnum 3) /\ 3%Z <> 0%Z /\
  filter_res (Dashboard.staff_visible (Some "u7"))
    [DObj [("id", dnum 1); ("assignedTo", dstr "u7")]] =
    ROk [DObj [("id", dnum 1); ("assignedTo", dstr "u7")]] /\
  Dashboard.shapeTransactionsByRole
    (DArr [DObj [("id", dnum 1); ("assignedTo", dstr "u7")];
           DObj [("teamAssignments", dnum 3)];
           DObj [("id", dnum 2)]]) STAFF (Some "u7")
    = RThrow "TypeError".
Proof.
  split; [reflexivity|]. split; [reflexivity|]. split; [reflexivity|]. split; [lia|].
  split; [vm_compute; reflexivity|].
  destruct (shapeTransactionsByRole_staff_team_not_array
              [DObj [("id", dnum 1); ("assignedTo", dstr "u7")]]
              [("teamAssignments", dnum 3)] [DObj [("id", dnum 2)]] (Some "u7") 3%Z
              eq_refl eq_refl eq_refl ltac:(lia)) as [e [He Hpre]].
  cbn [app] in He. rewrite He, Hpre; [reflexivity|].
  eexists; vm_compute; reflexivity.
Defined.

Lemma pick_dget (o : dval) (ks : list string) (ps : list (string * dval)) (k : string) :
  pick o ks = ROk ps -> In k ks -> exists v, dget o k = ROk v /\ dassoc k ps = Some v.
Proof.
  revert ps. induction ks as [|k0 ks IH]; intros ps H Hin; [destruct Hin|].
  cbn [pick] in H. rinv H. subst ps. cbn [dassoc].
  destruct (String.eqb k k0) eqn:E.
  - apply String.eqb_eq in E. subst k0. eauto.
  - destruct Hin as [->|Hin]; [rewrite String.eqb_refl in E; discriminate|].
    exact (IH _ Ha0 Hin).
Qed.

Lemma order_base_facts (x : dval) (base : list (string * dval)) :
  Orders.order_base x = ROk base ->
  map fst base = ["id"; "orderNumber"; "date"; "customer"; "status"; "paymentStatus";
                  "itemsCount"; "assignedTo"; "priority"] /\
  exists a, dget x "assignedTo" = ROk a /\ dassoc "assignedTo" base = Some a.
Proof.
  unfold Orders.order_base. intros H. rinv H. subst base. split.
  - rewrite map_app, (pick_keys _ _ _ Ha). cbn [map fst]. rewrite (pick_keys _ _ _ Ha2). reflexivity.
  - destruct (pick_dget _ _ _ "assignedTo" Ha2 ltac:(left; reflexivity)) as [v [Hv Hd]].
    exists v. split; [exact Hv|]. rewrite dassoc_app, dassoc_notin by (rewrite (pick_keys _ _ _ Ha); reflexivity).
    exact Hd.
Qed.

(** X21: every order a staff user receives from [shapeOrdersByRole] is
    assigned to that user or to 'team', and has exactly the fields id,
    orderNumber, date, customer, status, paymentStatus, itemsCount,
    assignedTo, priority, items and notes (no amounts, cost, profit or
    margin). *)
Theorem shapeOrdersByRole_staff (rawOrders : dval) (userId : string) (rows : list dval) (r : dval) :
  Orders.shapeOrdersByRole rawOrders "staff" userId = ROk (DArr rows) -> In r rows ->
  (dfield "assignedTo" r = Some (dstr userId) \/ dfield "assignedTo" r = Some (dstr "team")) /\
  keys_of r = ["id"; "orderNumber"; "date"; "customer"; "status"; "paymentStatus";
               "itemsCount"; "assignedTo"; "priority"; "items"; "notes"].
Proof.
  intros H Hr. unfold Orders.shapeOrdersByRole in H.
  destruct rawOrders as [w|l|props|op args]; try (injection H as <-; destruct Hr).
  eval_closed H. rinv H.
  destruct (call_map_inv _ _ _ H) as [l' [ys [E1 [E2 E3]]]]. injection E2 as ->.
  injection E1 as <-.
  destruct (map_res_in _ _ _ E3 r Hr) as [x [Hx Hxr]].
  destruct (filter_res_in _ _ _ Ha x Hx) as [_ Hv].
  unfold Orders.shape_order in Hxr. eval_closed Hxr.
  destruct (rbind_inv _ _ _ Hxr) as [base [Hb Hrest]]. cbv beta in Hrest.
  rinv Hrest. subst r.
  destruct (order_base_facts _ _ Hb) as [Hk [av [Hav Hd]]]. split.
  - rewrite dfield_obj, dassoc_app, Hd.
    unfold Orders.assigned_to in Hv. rewrite Hav in Hv. cbn [rbind] in Hv.
    destruct (strict_eq_id av (Some userId)) eqn:E;
      [left; rewrite (strict_eq_id_some _ _ E); reflexivity|].
    cbn [rbind] in Hv. injection Hv as Hv. right. rewrite (strict_eq_id_some _ _ Hv). reflexivity.
  - cbn [keys_of]. rewrite map_app, Hk. reflexivity.
Qed.

Lemma shapeOrdersByRole_staff_witness :
  exists rows, Orders.shapeOrdersByRole
                 (DArr [DObj [("id", dnum 1); ("assignedTo", dstr "u7"); ("items", DArr []); ("cost", dnum 4)];
                        DObj [("id", dnum 2); ("assignedTo", dstr "u9"); ("items", DArr [])]])
                 "staff" "u7" = ROk (DArr rows) /\
  forall r, In r rows ->
  (dfield "assignedTo" r = Some (dstr "u7") \/ dfield "assignedTo" r = Some (dstr "team")) /\
  keys_of r = ["id"; "orderNumber"; "date"; "customer"; "status"; "paymentStatus";
               "itemsCount"; "assignedTo"; "priority"; "items"; "notes"].
Proof.
  eexists. split; [cbv; reflexivity|]. intros r Hr.
  eapply (shapeOrdersByRole_staff
            (DArr [DObj [("id", dnum 1); ("assignedTo", dstr "u7"); ("items", DArr []); ("cost", dnum 4)];
                   DObj [("id", dnum 2); ("assignedTo", dstr "u9"); ("items", DArr [])]]));
    [cbv; reflexivity|exact Hr].
Defined.

(** X22: for a role other than staff, an order object without an items
    property makes [shapeOrdersByRole] throw, wherever it appears in the
    list; the error is a TypeError ([items.length] is read on
    [undefined]) when the orders before it are shaped without error. *)
Theorem shapeOrdersByRole_missing_items (pre : list dval) (props : list (string * dval))
    (rest : list dval) (userRole userId : string) :
  userRole <> "" -> userRole <> "staff" -> dassoc "items" props = None ->
  exists e, Orders.shapeOrdersByRole (DArr (pre ++ DObj props :: rest)) userRole userId
              = RThrow e /\
    ((exists ys, map_res (Orders.shape_order userRole) pre = ROk ys) -> e = "TypeError").
Proof.
  intros Hne Hs Hi.
  assert (Ho : Orders.shape_order userRole (DObj props) = RThrow "TypeError").
  { unfold Orders.shape_order, Orders.order_base.
    destruct (pick_obj_total props ["id"; "orderNumber"; "date"; "customer"; "status";
                                    "paymentStatus"]) as [b1 Hb1].
    rewrite Hb1. cbn [rbind].
    assert (Gi : dget (DObj props) "items" = ROk undef) by (cbn; rewrite Hi; reflexivity).
    rewrite Gi. reflexivity. }
  destruct (map_res_throw_mid _ pre _ rest _ Ho) as [e [He Hpre]].
  exists e. split; [|exact Hpre].
  unfold Orders.shapeOrdersByRole. apply String.eqb_neq in Hne. apply String.eqb_neq in Hs.
  rewrite Hne, Hs. cbn [rbind call_map]. rewrite He. reflexivity.
Qed.

Lemma shapeOrdersByRole_missing_items_witness :
  "manager" <> "" /\ "manager" <> "staff" /\ dassoc "items" [("id", dnum 2)] = None /\
  (exists ys, map_res (Orders.shape_order "manager") [DObj [("id", dnum 1); ("items", DArr [])]]
                = ROk ys) /\
  Orders.shapeOrdersByRole
    (DArr [DObj [("id", dnum 1); ("items", DArr [])]; DObj [("id", dnum 2)];
           DObj [("id", dnum 3); ("items", DArr [])]]) "manager" "u7" = RThrow "TypeError".
Proof.
  assert (Hp : exists ys, map_res (Orders.shape_order "manager")
                            [DObj [("id", dnum 1); ("items", DArr [])]] = ROk ys)
    by (eexists; vm_compute; reflexivity).
  split; [discriminate|]. split; [discriminate|]. split; [reflexivity|]. split; [exact Hp|].
  destruct (shapeOrdersByRole_missing_items [DObj [("id", dnum 1); ("items", DArr [])]]
              [("id", dnum 2)] [DObj [("id", dnum 3); ("items", DArr [])]] "manager" "u7"
              ltac:(discriminate) ltac:(discriminate) eq_refl) as [e [He Hpre]].
  cbn [app] in He. rewrite He, (Hpre Hp). reflexivity.
Defined.

(** X23: for a non-empty role other than staff, [shapeOrdersByRole]
    drops no order: it returns as many orders as it receives. *)
Theorem shapeOrdersByRole_no_filter (l rows : list dval) (userRole userId : string) :
  userRole <> "" -> userRole <> "staff" ->
  Orders.shapeOrdersByRole (DArr l) userRole userId = ROk (DArr rows) -> length rows = length l.
Proof.
  intros Hne Hs H. unfold Orders.shapeOrdersByRole in H.
  apply String.eqb_neq in Hne. apply String.eqb_neq in Hs. rewrite Hne, Hs in H.
  cbn [rbind] in H. destruct (call_map_inv _ _ _ H) as [l' [ys [E1 [E2 E3]]]].
  injection E1 as <-. injection E2 as ->. exact (map_res_length _ _ _ E3).
Qed.

Lemma shapeOrdersByRole_no_filter_witness :
  "manager" <> "" /\ "manager" <> "staff" /\
  exists rows, Orders.shapeOrdersByRole (DArr [DObj [("items", DArr [])]; DObj [("items", DArr [dnum 5])]]) "manager" "u7" = ROk (DArr rows) /\
               length rows = length [DObj [("items", DArr [])]; DObj [("items", DArr [dnum 5])]].
Proof.
  split; [discriminate|]. split; [discriminate|].
  eexists. split; [cbv; reflexivity|].
  eapply (shapeOrdersByRole_no_filter [DObj [("items", DArr [])]; DObj [("items", DArr [dnum 5])]]
            _ "manager" "u7"); [discriminate|discriminate|cbv; reflexivity].
Defined.

(** X24: [shapeCustomersByRole] throws a ReferenceError for every
    non-empty role given an array: [hasPermission] is not bound in its
    module. *)
Theorem shapeCustomersByRole_reference_error (l : list dval) (userRole : string) :
  userRole <> "" -> Orders.shapeCustomersByRole (DArr l) userRole = RThrow "ReferenceError".
Proof.
  intros Hne. unfold Orders.shapeCustomersByRole, Orders.shapeCustomersByRole_in,
    Orders.module_scope_hasPermission.
  apply String.eqb_neq in Hne. rewrite Hne. reflexivity.
Qed.

Lemma shapeCustomersByRole_reference_error_witness :
  "owner" <> "" /\ Orders.shapeCustomersByRole (DArr [DObj [("id", dnum 1)]]) "owner" = RThrow "ReferenceError".
Proof. split; [discriminate|]. apply shapeCustomersByRole_reference_error. discriminate. Defined.

End OrderProofs.

Module FormProofs.
Local Open Scope string_scope.
Import JS Data DataFacts.

Lemma form_get_handleFormChange (f : ProductsPage.product_form) (k field v : string) :
  ProductsPage.form_get k (ProductsPage.handleFormChange f field v) =
  if String.eqb k field then Some v else ProductsPage.form_get k f.
Proof.
  induction f as [|[k' v'] f IH]; cbn.
  - destruct (String.eqb k field); reflexivity.
  - destruct (String.eqb k' field) eqn:E.
    + apply String.eqb_eq in E. subst k'. cbn. destruct (String.eqb k field); reflexivity.
    + cbn. rewrite IH. destruct (String.eqb k k') eqn:E1; [|reflexivity].
      apply String.eqb_eq in E1. subst k'. rewrite E. reflexivity.
Qed.

Lemma form_get_events (events : list (string * string)) (f : ProductsPage.product_form) (k : string) :
  forallb (fun e => negb (String.eqb (fst e) k)) events = true ->
  ProductsPage.form_get k
    (fold_left (fun f e => ProductsPage.handleFormChange f (fst e) (snd e)) events f) =
  ProductsPage.form_get k f.
Proof.
  revert f. induction events as [|[field v] events IH]; intros f H; [reflexivity|].
  cbn [forallb fst] in H. apply andb_true_iff in H as [H1 H2].
  cbn [fold_left]. rewrite IH by exact H2. cbn [fst snd].
  rewrite form_get_handleFormChange.
  destruct (String.eqb k field) eqn:E; [|reflexivity].
  apply String.eqb_eq in E. subst. rewrite String.eqb_refl in H1. discriminate H1.
Qed.

Lemma handleCreateProduct_no_sku (trim : string -> string) (parseFloat : string -> option Q)
    (toUpperCase : string -> string) (now : Z) (f : ProductsPage.product_form) (body : dval) :
  ProductsPage.form_get "sku" f = None ->
  ProductsPage.handleCreateProduct trim parseFloat toUpperCase now f <> ROk body.
Proof.
  intros Hs H. unfold ProductsPage.handleCreateProduct in H. rewrite Hs in H.
  destruct (ProductsPage.form_get "name" f) as [nm|]; [|discriminate H].
  cbn [ProductsPage.trim_field rbind] in H.
  destruct (String.eqb (trim nm) ""); [discriminate H|].
  destruct (ProductsPage.form_get "cost" f) as [c|]; [|discriminate H].
  destruct (String.eqb c "" || ProductsPage.below_one (parseFloat c)); discriminate H.
Qed.

(** X26: a product form that starts from the initial form state and is
    changed only through [handleFormChange] on keys other than 'sku'
    never reaches [createProduct]: [handleCreateProduct] ends in an error
    for it, since [formData.sku.trim()] is called on [undefined]. *)
Theorem handleCreateProduct_needs_sku_change (trim : string -> string) (parseFloat : string -> option Q)
    (toUpperCase : string -> string) (now : Z) (events : list (string * string)) (body : dval) :
  forallb (fun e => negb (String.eqb (fst e) "sku")) events = true ->
  ProductsPage.handleCreateProduct trim parseFloat toUpperCase now
    (fold_left (fun f e => ProductsPage.handleFormChange f (fst e) (snd e))
               events ProductsPage.initial_product_form) <> ROk body.
Proof.
  intros H. apply handleCreateProduct_no_sku.
  rewrite form_get_events by exact H. reflexivity.
Qed.

Lemma handleCreateProduct_needs_sku_change_witness :
  forallb (fun e => negb (String.eqb (fst e) "sku")) [("name", "Bolt"); ("cost", "12")] = true /\
  ProductsPage.handleCreateProduct (fun s => s) (fun _ => Some 12%Q) (fun s => s) 0%Z
    (fold_left (fun f e => ProductsPage.handleFormChange f (fst e) (snd e))
               [("name", "Bolt"); ("cost", "12")] ProductsPage.initial_product_form)
    <> ROk (DObj []).
Proof.
  split; [reflexivity|]. apply handleCreateProduct_needs_sku_change. reflexivity.
Defined.

Lemma append_dash_nonempty (a b : string) : (a ++ "-" ++ b)%string <> "".
Proof. destruct a; discriminate. Qed.

(** X27: a request [handleCreateProduct] sends to [createProduct] has a
    non-empty name, a non-empty string sku (the trimmed sku, or one
    generated from the product type and the time), a non-empty unit, and
    a price equal to its cost, the parsed cost field of the form. *)
Theorem handleCreateProduct_request (trim : string -> string) (parseFloat : string -> option Q)
    (toUpperCase : string -> string) (now : Z) (formData : ProductsPage.product_form) (body : dval) :
  ProductsPage.handleCreateProduct trim parseFloat toUpperCase now formData = ROk body ->
  exists n s u c,
    dfield "name" body = Some (dstr n) /\ n <> "" /\
    dfield "sku" body = Some (dstr s) /\ s <> "" /\
    dfield "unit" body = Some (dstr u) /\ u <> "" /\
    ProductsPage.form_get "cost" formData = Some c /\
    dfield "cost" body = Some (DOp "parseFloat" [dstr c]) /\
    dfield "price" body = dfield "cost" body.
Proof.
  intros H. unfold ProductsPage.handleCreateProduct in H.
  destruct (ProductsPage.form_get "name" formData) as [nm|]; [|discriminate H].
  cbn [ProductsPage.trim_field rbind] in H.
  destruct (String.eqb (trim nm) "") eqn:En; [discriminate H|].
  destruct (ProductsPage.form_get "cost" formData) as [c|] eqn:Ec; [|discriminate H].
  destruct (String.eqb c "" || ProductsPage.below_one (parseFloat c)); [discriminate H|].
  destruct (ProductsPage.form_get "sku" formData) as [sk|]; [|discriminate H].
  destruct (ProductsPage.form_get "category" formData) as [ct|]; [|discriminate H].
  cbn [ProductsPage.trim_field rbind] in H.
  unfold ProductsApi.createProduct in H.
  set (unit := match ProductsPage.form_get "unit" formData with
               | Some u => if String.eqb u "" then dstr "pcs" else dstr u
               | None => dstr "pcs"
               end) in H.
  assert (Hu : exists u, unit = dstr u /\ u <> "").
  { unfold unit. destruct (ProductsPage.form_get "unit" formData) as [u|];
      [destruct (String.eqb u "") eqn:Eu|];
      [exists "pcs"; split; [reflexivity|discriminate]
      |exists u; split; [reflexivity|apply String.eqb_neq; exact Eu]
      |exists "pcs"; split; [reflexivity|discriminate]]. }
  destruct Hu as [u [Hu Hu']]. rewrite Hu in H. clear unit Hu.
  assert (Hn : trim nm <> "") by (apply String.eqb_neq; exact En).
  destruct (String.eqb (trim sk) "") eqn:Es.
  - cbn in H.
    destruct (ProductsPage.form_get "product_type" formData) as [t|]; [|discriminate H].
    cbn in H. injection H as <-.
    exists (trim nm), (toUpperCase t ++ "-" ++ ProductsApi.decimal now)%string, u, c.
    cbn. unfold d_or. cbn [dtruthy truthy dstr]. rewrite (proj2 (String.eqb_neq u "") Hu'). cbn [negb].
    repeat split; auto. apply append_dash_nonempty.
  - cbn in H. rewrite Es in H. cbn in H. injection H as <-.
    exists (trim nm), (trim sk), u, c.
    cbn. unfold d_or. cbn [dtruthy truthy dstr]. rewrite (proj2 (String.eqb_neq u "") Hu'). cbn [negb].
    repeat split; auto. apply String.eqb_neq. exact Es.
Qed.

Lemma handleCreateProduct_request_witness :
  exists n s u c,
    dfield "name" (DObj [("name", dstr "Bolt"); ("sku", dstr "B-1"); ("product_type", dstr "product");
                         ("category", dnull); ("unit", dstr "pcs");
                         ("cost", DOp "parseFloat" [dstr "12"]); ("price", DOp "parseFloat" [dstr "12"])])
      = Some (dstr n) /\ n <> "" /\
    dfield "sku" (DObj [("name", dstr "Bolt"); ("sku", dstr "B-1"); ("product_type", dstr "product");
                         ("category", dnull); ("unit", dstr "pcs");
                         ("cost", DOp "parseFloat" [dstr "12"]); ("price", DOp "parseFloat" [dstr "12"])])
      = Some (dstr s) /\ s <> "" /\
    dfield "unit" (DObj [("name", dstr "Bolt"); ("sku", dstr "B-1"); ("product_type", dstr "product");
                         ("category", dnull); ("unit", dstr "pcs");
                         ("cost", DOp "parseFloat" [dstr "12"]); ("price", DOp "parseFloat" [dstr "12"])])
      = Some (dstr u) /\ u <> "" /\
    ProductsPage.form_get "cost" [("name", "Bolt"); ("product_type", "product"); ("cost", "12");
                                  ("category", ""); ("unit", "pcs"); ("sku", "B-1")] = Some c /\
    dfield "cost" (DObj [("name", dstr "Bolt"); ("sku", dstr "B-1"); ("product_type", dstr "product");
                         ("category", dnull); ("unit", dstr "pcs");
                         ("cost", DOp "parseFloat" [dstr "12"]); ("price", DOp "parseFloat" [dstr "12"])])
      = Some (DOp "parseFloat" [dstr c]) /\
    dfield "price" (DObj [("name", dstr "Bolt"); ("sku", dstr "B-1"); ("product_type", dstr "product");
                         ("category", dnull); ("unit", dstr "pcs");
                         ("cost", DOp "parseFloat" [dstr "12"]); ("price", DOp "parseFloat" [dstr "12"])])
      = dfield "cost" (DObj [("name", dstr "Bolt"); ("sku", dstr "B-1"); ("product_type", dstr "product");
                         ("category", dnull); ("unit", dstr "pcs");
                         ("cost", DOp "parseFloat" [dstr "12"]); ("price", DOp "parseFloat" [dstr "12"])]).
Proof.
  apply (handleCreateProduct_request (fun s => s) (fun _ => Some 12%Q) (fun s => s) 0%Z
           [("name", "Bolt"); ("product_type", "product"); ("cost", "12");
            ("category", ""); ("unit", "pcs"); ("sku", "B-1")]).
  vm_compute. reflexivity.
Defined.

(** X28: [createProduct] throws a TypeError when the product data has a
    falsy sku and a product_type that is not a string: the generated sku
    calls [toUpperCase] on it. *)
Theorem createProduct_generated_sku_type_error (toUpperCase : string -> string) (now : Z)
    (productData s pt : dval) :
  dget productData "sku" = ROk s -> dtruthy s = false ->
  dget productData "product_type" = ROk pt -> (forall str, pt <> dstr str) ->
  ProductsApi.createProduct toUpperCase now productData = RThrow "TypeError".
Proof.
  intros Hs Ht Hp Hn. unfold ProductsApi.createProduct.
  rewrite Hs. cbn [rbind]. rewrite Ht, Hp. cbn [rbind].
  destruct pt as [w| | |]; try reflexivity.
  destruct w; try reflexivity. exfalso. exact (Hn s0 eq_refl).
Qed.

Lemma createProduct_generated_sku_type_error_witness :
  dget (DObj [("name", dstr "Bolt"); ("sku", dnull)]) "sku" = ROk dnull /\ dtruthy dnull = false /\
  dget (DObj [("name", dstr "Bolt"); ("sku", dnull)]) "product_type" = ROk undef /\
  (forall str, undef <> dstr str) /\
  ProductsApi.createProduct (fun s => s) 0%Z (DObj [("name", dstr "Bolt"); ("sku", dnull)])
    = RThrow "TypeError".
Proof.
  assert (U : forall str, undef <> dstr str) by (intros str E; discriminate E).
  split; [reflexivity|]. split; [reflexivity|]. split; [reflexivity|]. split; [exact U|].
  apply (createProduct_generated_sku_type_error (fun s => s) 0%Z _ dnull undef);
    [reflexivity|reflexivity|reflexivity|exact U].
Defined.

End FormProofs.

Module MovementProofs.
Local Open Scope string_scope.
Import Page MovementForm.

Lemma canSubmit_posted (role : string) (fd : form_data) (sel : string) (ccs : list cost_center_row) :
  canSubmit role fd sel = true <-> exists body, handleSubmit role fd sel ccs = Posted body.
Proof.
  unfold canSubmit, missingCostElement, needsCostElement, handleSubmit, canCreateMovements.
  destruct (String.eqb role "staff"); cbn [negb andb orb];
    [split; [discriminate|intros [b H]; discriminate H]|].
  destruct (nonempty (fd_product_id fd)); cbn [negb andb orb];
    [|split; [discriminate|intros [b H]; discriminate H]].
  destruct (nonempty (fd_qty_input fd)); cbn [negb andb orb];
    [|split; [discriminate|intros [b H]; discriminate H]].
  destruct (String.eqb (fd_movement_type fd) "RECEIVE"), (nonempty (fd_unit_cost_input fd)),
    (String.eqb (fd_movement_type fd) "CONSUME"), (nonempty (fd_work_order_id fd)),
    (String.eqb (fd_movement_type fd) "ISSUE"), (nonempty (fd_cost_center fd)), (nonempty sel);
    cbn [negb andb orb];
    first [split; [intros _; eexists; reflexivity|reflexivity]
          |split; [discriminate|intros [b H]; discriminate H]].
Qed.

(** X29: the submit button's [canSubmit] holds exactly when
    [handleSubmit] gets past every check and posts the movement. *)
Theorem canSubmit_iff_posted (role : string) (formData : form_data) (selectedCostElementId : string)
    (costCenters : list cost_center_row) :
  canSubmit role formData selectedCostElementId = true <->
  exists body, handleSubmit role formData selectedCostElementId costCenters = Posted body.
Proof. apply canSubmit_posted. Qed.

(** X30: right after the movement type is changed to ISSUE or CONSUME the
    form cannot be submitted: the change clears the selected cost
    element, which both movement types require. *)
Theorem movement_type_change_blocks_submit (loose_eq : Z -> string -> bool)
    (formData prev : form_data) (selectedCostElementId : string) (workOrders : list work_order_row)
    (value role : string) (costCenters : list cost_center_row) :
  value = "ISSUE" \/ value = "CONSUME" ->
  canSubmit role
    (fst (handleFormChange loose_eq formData prev selectedCostElementId workOrders FMovementType value))
    (snd (handleFormChange loose_eq formData prev selectedCostElementId workOrders FMovementType value))
    = false /\
  forall body,
    handleSubmit role
      (fst (handleFormChange loose_eq formData prev selectedCostElementId workOrders FMovementType value))
      (snd (handleFormChange loose_eq formData prev selectedCostElementId workOrders FMovementType value))
      costCenters <> Posted body.
Proof.
  intros Hv.
  assert (Hc : canSubmit role
    (fst (handleFormChange loose_eq formData prev selectedCostElementId workOrders FMovementType value))
    (snd (handleFormChange loose_eq formData prev selectedCostElementId workOrders FMovementType value))
    = false).
  { destruct Hv as [-> | ->]; unfold canSubmit; cbn; apply andb_false_r. }
  split; [exact Hc|]. intros body Hp.
  assert (Ht : canSubmit role
    (fst (handleFormChange loose_eq formData prev selectedCostElementId workOrders FMovementType value))
    (snd (handleFormChange loose_eq formData prev selectedCostElementId workOrders FMovementType value))
    = true) by (apply (canSubmit_posted _ _ _ costCenters); exists body; exact Hp).
  rewrite Hc in Ht. discriminate Ht.
Qed.

Lemma movement_type_change_blocks_submit_witness :
  ("CONSUME" = "ISSUE" \/ "CONSUME" = "CONSUME") /\
  canSubmit "manager"
    (fst (handleFormChange (fun _ _ => false)
            {| fd_product_id := "3"; fd_movement_type := "RECEIVE"; fd_work_order_id := "7";
               fd_cost_center := "CC1"; fd_cost_element := "5"; fd_qty_input := "2";
               fd_unit_input := "PCS"; fd_unit_cost_input := "10"; fd_note := "" |}
            {| fd_product_id := "3"; fd_movement_type := "RECEIVE"; fd_work_order_id := "7";
               fd_cost_center := "CC1"; fd_cost_element := "5"; fd_qty_input := "2";
               fd_unit_input := "PCS"; fd_unit_cost_input := "10"; fd_note := "" |}
            "5" [] FMovementType "CONSUME"))
    (snd (handleFormChange (fun _ _ => false)
            {| fd_product_id := "3"; fd_movement_type := "RECEIVE"; fd_work_order_id := "7";
               fd_cost_center := "CC1"; fd_cost_element := "5"; fd_qty_input := "2";
               fd_unit_input := "PCS"; fd_unit_cost_input := "10"; fd_note := "" |}
            {| fd_product_id := "3"; fd_movement_type := "RECEIVE"; fd_work_order_id := "7";
               fd_cost_center := "CC1"; fd_cost_element := "5"; fd_qty_input := "2";
               fd_unit_input := "PCS"; fd_unit_cost_input := "10"; fd_note := "" |}
            "5" [] FMovementType "CONSUME"))
    = false.
Proof.
  split; [right; reflexivity|].
  exact (proj1 (movement_type_change_blocks_submit (fun _ _ => false)
            {| fd_product_id := "3"; fd_movement_type := "RECEIVE"; fd_work_order_id := "7";
               fd_cost_center := "CC1"; fd_cost_element := "5"; fd_qty_input := "2";
               fd_unit_input := "PCS"; fd_unit_cost_input := "10"; fd_note := "" |}
            {| fd_product_id := "3"; fd_movement_type := "RECEIVE"; fd_work_order_id := "7";
               fd_cost_center := "CC1"; fd_cost_element := "5"; fd_qty_input := "2";
               fd_unit_input := "PCS"; fd_unit_cost_input := "10"; fd_note := "" |}
            "5" [] "CONSUME" "manager" [] (or_intror eq_refl))).
Defined.

End MovementProofs.
